(** * Towify: session routing, scoped queries and record life cycles

    A shallow embedding of the access-control and record-keeping logic of
    the Towify client (React Native over a hosted row store).  Screens are
    event handlers; each handler is embedded as a function threading a
    [World]: the tables of the row store, the schedule of request
    failures, the log of requests issued, the alerts shown, the navigation
    stack and the clock.

    Conventions of the embedding:
    - text is [string] over ASCII; [toUpperCase], [toLowerCase] and [trim]
      act on ASCII letters and ASCII white space;
    - record and user identifiers (uuid strings in the source) are opaque
      and compared for equality only: they are [nat];
    - ISO time stamps are milliseconds since the epoch, in [Z];
    - a JS value that may be [null] or [undefined] is an [option];
    - the clock stands still while a handler runs without waiting, and
      moves between handlers; a time a handler reads once more after it has
      waited for the store is a parameter of the handler;
    - numbers typed into a form are exact decimals within the range of a
      double ([Str.Num]): the rounding of a decimal to the nearest double
      is not modelled;
    - whether the store answers a request is given by a schedule that is
      part of the world, so that every statement over all worlds covers
      every pattern of failures; a store that answers accepts the row it
      is sent: the constraints and the access policies of its schema,
      which are not part of the client, are not modelled. *)

From Stdlib Require Import List String Ascii Bool ZArith NArith Arith Lia.
From Stdlib Require Import DecimalString DecimalZ DecimalPos.
Import ListNotations.
Open Scope string_scope.

Set Implicit Arguments.

(** ** Strings as the handlers use them *)

Module Str.

Definition isUpper (c : ascii) : bool :=
  let n := N_of_ascii c in (65 <=? n)%N && (n <=? 90)%N.

Definition isLower (c : ascii) : bool :=
  let n := N_of_ascii c in (97 <=? n)%N && (n <=? 122)%N.

Definition lowerChar (c : ascii) : ascii :=
  if isUpper c then ascii_of_N (N_of_ascii c + 32) else c.

Definition upperChar (c : ascii) : ascii :=
  if isLower c then ascii_of_N (N_of_ascii c - 32) else c.

Fixpoint map (f : ascii -> ascii) (s : string) : string :=
  match s with
  | EmptyString => EmptyString
  | String c s' => String (f c) (map f s')
  end.

(** [String.prototype.toLowerCase] and [toUpperCase]. *)
Definition toLowerCase : string -> string := map lowerChar.
Definition toUpperCase : string -> string := map upperChar.

(** White space removed by [String.prototype.trim]: space, tab, line
    feed, vertical tab, form feed, carriage return. *)
Definition isSpace (c : ascii) : bool :=
  let n := N_of_ascii c in (n =? 32)%N || ((9 <=? n)%N && (n <=? 13)%N).

Fixpoint trimStart (s : string) : string :=
  match s with
  | EmptyString => EmptyString
  | String c s' => if isSpace c then trimStart s' else s
  end.

Fixpoint trimEnd (s : string) : string :=
  match s with
  | EmptyString => EmptyString
  | String c s' =>
      match trimEnd s' with
      | EmptyString => if isSpace c then EmptyString else String c EmptyString
      | t => String c t
      end
  end.

Definition trim (s : string) : string := trimEnd (trimStart s).

(** JS truthiness of a string: every string but the empty one. *)
Definition truthy (s : string) : bool :=
  match s with EmptyString => false | _ => true end.

(** [s || d] on strings. *)
Definition orElse (s d : string) : string := if truthy s then s else d.

(** Truthiness of a nullable string ([!role], [if (response)]). *)
Definition truthyOpt (o : option string) : bool :=
  match o with Some s => truthy s | None => false end.

(** [haystack.includes(needle)]. *)
Fixpoint includes (needle haystack : string) : bool :=
  prefix needle haystack ||
  match haystack with
  | EmptyString => false
  | String _ h' => includes needle h'
  end.

(** The double quote character. *)
Definition quote : string := String (ascii_of_nat 34) EmptyString.

Definition isDigit (c : ascii) : bool :=
  let n := N_of_ascii c in (48 <=? n)%N && (n <=? 57)%N.

(** The longest prefix of digits, and the rest. *)
Fixpoint takeDigits (s : string) : string * string :=
  match s with
  | EmptyString => (EmptyString, EmptyString)
  | String c s' =>
      if isDigit c then let (ds, r) := takeDigits s' in (String c ds, r)
      else (EmptyString, s)
  end.

(** Decimal rendering of a number inside a template literal. *)
Definition ofZ (z : Z) : string := NilZero.string_of_int (Z.to_int z).

(** A number as the handlers compute with it: not-a-number, an infinity,
    or the decimal [(-1)^negative * coefficient * 10^exponent].  Within
    the range of a double a number is the exact decimal: the rounding of a
    decimal to the nearest double is not modelled. *)
Inductive Num :=
| NaN
| Infinity (negative : bool)
| Decimal (negative : bool) (coefficient : N) (exponent : Z).

(** [isNaN(x)] *)
Definition isNaN (x : Num) : bool :=
  match x with NaN => true | _ => false end.

(** The number a string of digits writes. *)
Fixpoint ofDigitsFrom (acc : N) (s : string) : N :=
  match s with
  | EmptyString => acc
  | String c s' => ofDigitsFrom (acc * 10 + (N_of_ascii c - 48))%N s'
  end.

Definition ofDigits (s : string) : N := ofDigitsFrom 0 s.

(** An optional sign, and the rest. *)
Definition takeSign (s : string) : bool * string :=
  match s with
  | String "-" r => (true, r)
  | String "+" r => (false, r)
  | _ => (false, s)
  end.

(** The exponent part of a decimal literal at the start of [s]: [e] or
    [E], an optional sign and at least one digit; [0] when there is
    none. *)
Definition exponentPart (s : string) : Z :=
  match s with
  | String c r =>
      if Ascii.eqb c "e" || Ascii.eqb c "E" then
        let (negative, r') := takeSign r in
        let ds := fst (takeDigits r') in
        if truthy ds
        then (if negative then - Z.of_N (ofDigits ds) else Z.of_N (ofDigits ds))%Z
        else 0%Z
      else 0%Z
  | EmptyString => 0%Z
  end.

(** The decimal digits of a number. *)
Definition digitsOf (n : N) : string := NilZero.string_of_uint (N.to_uint n).

(** The range of a double: a decimal at or above [2^1024 - 2^970] is read
    as an infinity, and one at or below [2^-1075] as zero.  The decimal
    [m * 10^e] with [m] of [k] digits lies between [10^(k+e-1)] and
    [10^(k+e)], which settles the question unless [k + e] is small. *)
Definition overflows (m : N) (e : Z) : bool :=
  let n := (Z.of_nat (String.length (digitsOf m)) + e)%Z in
  if (310 <? n)%Z then true
  else if (n <=? 0)%Z then false
  else if (0 <=? e)%Z then (2 ^ 1024 - 2 ^ 970 <=? m * 10 ^ Z.to_N e)%N
  else ((2 ^ 1024 - 2 ^ 970) * 10 ^ Z.to_N (- e) <=? m)%N.

Definition underflows (m : N) (e : Z) : bool :=
  let n := (Z.of_nat (String.length (digitsOf m)) + e)%Z in
  if (n <? -330)%Z then true
  else if (0 <=? n)%Z then false
  else (m * 2 ^ 1075 <=? 10 ^ Z.to_N (- e))%N.

Definition inRange (negative : bool) (m : N) (e : Z) : Num :=
  if (m =? 0)%N then Decimal negative 0 0
  else if overflows m e then Infinity negative
  else if underflows m e then Decimal negative 0 0
  else Decimal negative m e.

(** [parseFloat(s)]: leading white space is skipped and the longest
    prefix that is a decimal literal is read: an optional sign, then
    [Infinity], or digits with an optional fraction and an optional
    exponent, or a dot followed by digits and an optional exponent.
    Without such a prefix the result is [NaN]. *)
Definition parseFloat (s : string) : Num :=
  let (negative, s2) := takeSign (trimStart s) in
  if prefix "Infinity" s2 then Infinity negative
  else
    let (ip, s3) := takeDigits s2 in
    let (fp, s4) :=
      match s3 with
      | String "." r => takeDigits r
      | _ => (EmptyString, s3)
      end in
    if truthy ip || truthy fp
    then inRange negative (ofDigits (ip ++ fp))
                 (exponentPart s4 - Z.of_nat (String.length fp))
    else NaN.

Fixpoint zeros (n : nat) : string :=
  match n with
  | O => EmptyString
  | S n' => String "0" (zeros n')
  end.

(** A string of digits without its trailing zeros, and how many they
    were. *)
Fixpoint stripZeros (s : string) : string * nat :=
  match s with
  | EmptyString => (EmptyString, O)
  | String c r =>
      let (r', z) := stripZeros r in
      match r' with
      | EmptyString => if Ascii.eqb c "0" then (EmptyString, S z) else (String c EmptyString, z)
      | _ => (String c r', z)
      end
  end.

(** [String(x)], the text a number is printed and serialized with. *)
Definition toString (x : Num) : string :=
  match x with
  | NaN => "NaN"
  | Infinity negative => if negative then "-Infinity" else "Infinity"
  | Decimal negative m e =>
      if (m =? 0)%N then "0"
      else
        let (s, z) := stripZeros (digitsOf m) in
        let k := String.length s in
        (* the decimal point stands after the first [n] digits *)
        let n := (Z.of_nat k + Z.of_nat z + e)%Z in
        (if negative then "-" else "") ++
        (if (Z.of_nat k <=? n)%Z && (n <=? 21)%Z then
           s ++ zeros (Z.to_nat (n - Z.of_nat k))
         else if (0 <? n)%Z && (n <=? 21)%Z then
           substring 0 (Z.to_nat n) s ++ "." ++ substring (Z.to_nat n) (k - Z.to_nat n) s
         else if (-6 <? n)%Z && (n <=? 0)%Z then
           "0." ++ zeros (Z.to_nat (- n)) ++ s
         else
           match s with
           | String c EmptyString => s
           | String c r => String c ("." ++ r)
           | EmptyString => s
           end
           ++ "e" ++ (if (n - 1 <? 0)%Z then "-" else "+")
           ++ digitsOf (Z.to_N (Z.abs (n - 1))))
  end.

(** [x.toFixed(2)] *)
Definition toFixed2 (x : Num) : string :=
  match x with
  | Decimal negative m e =>
      if (m =? 0)%N then "0.00"
      else if (21 <? Z.of_nat (String.length (digitsOf m)) + e)%Z then toString x
      else
        let hundredths :=
          if (0 <=? e + 2)%Z then (m * 10 ^ Z.to_N (e + 2))%N
          else ((2 * m + 10 ^ Z.to_N (- (e + 2))) / (2 * 10 ^ Z.to_N (- (e + 2))))%N in
        let ds := digitsOf hundredths in
        let ds := zeros (3 - String.length ds) ++ ds in
        (if negative then "-" else "")
        ++ substring 0 (String.length ds - 2) ds ++ "."
        ++ substring (String.length ds - 2) 2 ds
  | _ => toString x
  end.

(** A number inside the JSON body of a request: [NaN] and the infinities
    are written [null]. *)
Definition toJSON (x : Num) : option string :=
  match x with
  | Decimal _ _ _ => Some (toString x)
  | _ => None
  end.

End Str.

(** ** The row store's tables *)

Definition Id := nat.

Inductive FineStatus := unpaid | paid | overdue.

Inductive ComplaintStatus := pending | in_review | resolved | rejected.

Record Profile := mkProfile {
  profile_id : Id;
  profile_email : string;
  full_name : option string;
  phone : option string;
  profile_role : option string
}.

Record Vehicle := mkVehicle {
  vehicle_id : Id;
  license_plate : string;
  make : string;
  model : string;
  color : string;
  registered_name : option string;
  owner_id : option Id
}.

Record Tow := mkTow {
  tow_id : Id;
  tow_vehicle_id : option Id;
  tow_license_plate : string;
  tow_location : string;
  tow_reason : string;
  tow_date : Z;
  tow_status : string;
  tow_notes : string;
  tow_created_by : option Id
}.

Record Fine := mkFine {
  fine_id : Id;
  fine_vehicle_id : Id;
  (** the amount, a number as it is printed ([Str.toString]), or [null] *)
  fine_amount : option string;
  fine_description : string;
  issue_date : Z;
  due_date : option Z;
  fine_status : FineStatus;
  payment_date : option Z;
  transaction_id : option string;
  fine_tow_id : option Id;
  fine_created_by : option Id
}.

Record Complaint := mkComplaint {
  complaint_id : Id;
  complaint_user_id : Id;
  complaint_subject : string;
  complaint_description : string;
  complaint_type : string;
  complaint_vehicle_id : option Id;
  complaint_fine_id : option Id;
  complaint_tow_id : option Id;
  complaint_status : ComplaintStatus;
  complaint_created_at : Z;
  response : option string;
  resolved_at : option Z;
  resolved_by : option Id
}.

Record Notification := mkNotification {
  notif_user_id : Id;
  notif_type : string;
  notif_title : string;
  notif_message : string;
  notif_related_id : option Id;
  is_read : bool
}.

Record DB := mkDB {
  profiles : list Profile;
  vehicles : list Vehicle;
  tows : list Tow;
  fines : list Fine;
  complaints : list Complaint;
  notifications : list Notification;
  next_id : Id
}.

Definition emptyDB : DB := mkDB [] [] [] [] [] [] 1.

(** ** The world a handler runs in *)

Inductive Table := TProfiles | TVehicles | TTows | TFines | TComplaints | TNotifications.

(** What a request asks of the store, as far as the claims need it. *)
Inductive Request :=
| SelectEq (t : Table) (col value : string)
| SelectIlike (t : Table) (col pattern : string)
| SelectById (t : Table) (id : Id)
| SelectEqId (t : Table) (col : string) (id : Id)
| SelectIn (t : Table) (ids : list Id)
| InsertRow (t : Table)
| UpdateRow (t : Table) (id : Id)
| DeleteRow (t : Table) (id : Id).

(** [Alert.alert(title, message)]. *)
Record Alert := mkAlert { alert_title : string; alert_message : string }.

(** The navigation stack of the router; its head is the screen shown. *)
Definition Router := list string.

Record World := mkWorld {
  db : DB;
  (** outcome of the requests to come, in order: [true] is answered,
      [false] fails (store unreachable); past the schedule all succeed *)
  net : list bool;
  (** requests issued so far, most recent first *)
  reqs : list Request;
  (** alerts shown so far, most recent first *)
  alerts : list Alert;
  (** [console.error] lines, most recent first *)
  console : list string;
  nav : Router;
  (** [Date.now()] *)
  clock : Z
}.

Definition initWorld (d : DB) : World := mkWorld d [] [] [] [] [] 0.

(** A small state monad over the world. *)
Definition M (A : Type) : Type := World -> A * World.

Definition ret {A} (a : A) : M A := fun w => (a, w).

Definition bind {A B} (m : M A) (k : A -> M B) : M B :=
  fun w => let (a, w') := m w in k a w'.

Declare Scope m_scope.
Delimit Scope m_scope with M.
Notation "x <- c ;; k" := (bind c (fun x => k))
  (at level 61, c at next level, right associativity) : m_scope.
Notation "c ;;; k" := (bind c (fun _ => k))
  (at level 61, right associativity) : m_scope.
Open Scope m_scope.

Definition run {A} (m : M A) (w : World) : World := snd (m w).
Definition result {A} (m : M A) (w : World) : A := fst (m w).

Definition setDb (d : DB) : M unit :=
  fun w => (tt, mkWorld d (net w) (reqs w) (alerts w) (console w) (nav w) (clock w)).

Definition getDb : M DB := fun w => (db w, w).

Definition now : M Z := fun w => (clock w, w).

Definition alert (title message : string) : M unit :=
  fun w => (tt, mkWorld (db w) (net w) (reqs w)
                        (mkAlert title message :: alerts w) (console w) (nav w) (clock w)).

Definition consoleError (line : string) : M unit :=
  fun w => (tt, mkWorld (db w) (net w) (reqs w) (alerts w)
                        (line :: console w) (nav w) (clock w)).

Definition setNav (r : Router) : M unit :=
  fun w => (tt, mkWorld (db w) (net w) (reqs w) (alerts w) (console w) r (clock w)).

(** [router.replace]: the current screen is replaced by [path]. *)
Definition router_replace (path : string) : M unit :=
  fun w => setNav (path :: tl (nav w)) w.

Definition router_push (path : string) : M unit :=
  fun w => setNav (path :: nav w) w.

Definition router_back : M unit :=
  fun w => setNav (tl (nav w)) w.

(** The screen shown. *)
Definition current (w : World) : option string := hd_error (nav w).

(** Sending a request: it is logged, and the next entry of the failure
    schedule says whether the store answers. *)
Definition request (q : Request) : M bool :=
  fun w =>
    let ok := match net w with [] => true | b :: _ => b end in
    (ok, mkWorld (db w) (tl (net w)) (q :: reqs w) (alerts w) (console w) (nav w) (clock w)).

(** A response of the store client: [{ data, error }]. *)
Inductive Resp (A : Type) :=
| Data (a : A)
| Error (message : string).
Arguments Data {A} a.
Arguments Error {A} message.

(** ** The row store

    The store is an external service; the handlers see it through
    filtered selects, inserts and updates.  Its filters are embedded on
    lists of rows, in table order: [eq] is equality, [ilike] is the
    case-insensitive [LIKE] of SQL with its pattern characters, a filter
    on a column of an embedded table selects among the embedded rows and
    leaves the rows of the table read as they are (unless the table is
    embedded with [!inner]), [single()] answers with an error unless
    exactly one row matches, and an insert gives the new row the next
    free identifier. *)

Module Store.

Definition unreachable : string := "Network request failed".

Definition noSingleRow : string :=
  "JSON object requested, multiple (or no) rows returned".

(** A select: the request is sent and, when the store answers, [rows] is
    evaluated on its tables. *)
Definition select {A} (q : Request) (rows : DB -> A) : M (Resp A) :=
  ok <- request q ;;
  d <- getDb ;;
  ret (if ok then Data (rows d) else Error unreachable).

(** [.single()] on the rows of a select. *)
Definition single {A} (rows : list A) : Resp A :=
  match rows with
  | [r] => Data r
  | _ => Error noSingleRow
  end.

Definition selectSingle {A} (q : Request) (rows : DB -> list A) : M (Resp A) :=
  ok <- request q ;;
  d <- getDb ;;
  ret (if ok then single (rows d) else Error unreachable).

(** A write: the request is sent and, when the store answers, the tables
    are replaced by [write d]; [answer d] is what the caller gets back. *)
Definition write {A} (q : Request) (upd : DB -> DB) (answer : DB -> A) : M (Resp A) :=
  ok <- request q ;;
  d <- getDb ;;
  if ok then setDb (upd d) ;;; ret (Data (answer d)) else ret (Error unreachable).

(** A pattern of [LIKE], read from its text: a percent sign (or, in a
    filter sent through the REST interface, an asterisk) stands for any
    run of characters, an underscore for any one character, and a
    backslash makes the character after it stand for itself. *)
Inductive Token :=
| AnyRun
| AnyChar
| Literal (c : ascii).

Fixpoint tokens (pattern : string) : list Token :=
  match pattern with
  | EmptyString => []
  | String c rest =>
      if Ascii.eqb c "%" || Ascii.eqb c "*" then AnyRun :: tokens rest
      else if Ascii.eqb c "_" then AnyChar :: tokens rest
      else if Ascii.eqb c "\" then
        match rest with
        | String d rest' => Literal d :: tokens rest'
        | EmptyString => []
        end
      else Literal c :: tokens rest
  end.

(** Whether the whole of [s] matches the tokens. *)
Fixpoint matches (ts : list Token) (s : string) : bool :=
  match ts with
  | [] => negb (Str.truthy s)
  | Literal c :: ts' =>
      match s with
      | String d s' => Ascii.eqb c d && matches ts' s'
      | EmptyString => false
      end
  | AnyChar :: ts' =>
      match s with
      | String _ s' => matches ts' s'
      | EmptyString => false
      end
  | AnyRun :: ts' =>
      (fix skip (s : string) : bool :=
         matches ts' s
         || match s with
            | String _ s' => skip s'
            | EmptyString => false
            end) s
  end.

(** [s ILIKE pattern] *)
Definition ilikePattern (pattern s : string) : bool :=
  matches (tokens (Str.toLowerCase pattern)) (Str.toLowerCase s).

(** [.ilike(column, `%${p}%`)] on a value [s] of the column: [p] is put
    into the pattern as it is, so the pattern characters in it act as
    such.  (A pattern that ends in a lone backslash is refused by the
    store; with the percent sign at its end no pattern of this form
    does.) *)
Definition ilike (p s : string) : bool := ilikePattern ("%" ++ p ++ "%") s.

Definition optIdEqb (a : option Id) (b : Id) : bool :=
  match a with Some x => Nat.eqb x b | None => false end.

Definition findVehicle (d : DB) (vid : Id) : option Vehicle :=
  find (fun v => Nat.eqb (vehicle_id v) vid) (vehicles d).

(** Rows in descending order of a time stamp ([order(col, { ascending:
    false })]), by insertion. *)
Fixpoint insertDesc {A} (key : A -> Z) (x : A) (l : list A) : list A :=
  match l with
  | [] => [x]
  | y :: l' => if (key y <? key x)%Z then x :: l else y :: insertDesc key x l'
  end.

Definition orderDesc {A} (key : A -> Z) (l : list A) : list A :=
  fold_right (insertDesc key) [] l.

End Store.

(** ** utils/navigation: the role router

    Source: src/unnamed/part_007, [navigateToDashboard]. *)

(** [navigateToDashboard(role)]: a missing or empty role goes to the login
    screen; otherwise the lower-cased role selects the dashboard, and any
    other value goes to the login screen. *)
Definition navigateToDashboard (role : option string) : M unit :=
  if negb (Str.truthyOpt role) then router_replace "/login"
  else
    match role with
    | None => router_replace "/login"
    | Some r =>
        let l := Str.toLowerCase r in
        if l =? "owner" then router_replace "/owner"
        else if l =? "staff" then router_replace "/staff"
        else if l =? "officer" then router_replace "/officer"
        else router_replace "/login"
    end.

(** ** SplashScreen

    Source: src/src/screens/SplashScreen.tsx, the [useEffect] of lines
    11-37.  The effect run when [loading], [session] or [userRole] change (the
    two-second timer before navigating is not modelled). *)
Module SplashScreen.

Definition effect (session : option Id) (loading : bool)
    (userRole : option string) : M unit :=
  if negb loading then
    match session with
    | Some _ => navigateToDashboard userRole
    | None => router_replace "/login"
    end
  else ret tt.

End SplashScreen.

(** ** SessionContext

    Source: src/unnamed/part_006, [fetchUserRole] and [signOut]. *)

Module SessionContext.

(** [from('profiles').select('role').eq('id', userId).single()] *)
Definition profileRole (userId : Id) : M (Resp (option string)) :=
  Store.selectSingle (SelectById TProfiles userId)
    (fun d => map profile_role
                (filter (fun p => Nat.eqb (profile_id p) userId) (profiles d))).

(** [fetchUserRole(userId)]; the result is the value given to
    [setUserRole]. *)
Definition fetchUserRole (userId : Id) : M (option string) :=
  r <- profileRole userId ;;
  match r with
  | Error e =>
      consoleError "Error fetching user role:" ;;;
      ret None
  | Data role =>
      ret (if Str.truthyOpt role then role else None)
  end.

(** [signOut()]: the credential is cleared by the auth service (not
    modelled) and the login screen replaces the current one. *)
Definition signOut : M unit := router_replace "/login".

End SessionContext.

(** ** LoginScreen

    Source: src/unnamed/part_003, [handleLogin]; its profile lookup is the
    query of [SessionContext.profileRole], written out again there. *)

Module LoginScreen.

(** [handleLogin()].  [formValid] is the outcome of [validateForm()] and
    [auth] the auth service's answer to [signInWithPassword]: an error, or
    the signed-in user if any. *)
Definition handleLogin (formValid : bool) (auth : Resp (option Id)) : M unit :=
  if negb formValid then ret tt
  else
    match auth with
    | Error message =>
        alert "Login Error" (Str.orElse message "Failed to sign in")
    | Data None => alert "Login Error" "No user data returned"
    | Data (Some user) =>
        r <- SessionContext.profileRole user ;;
        match r with
        | Error _ =>
            consoleError "Error fetching profile:" ;;;
            alert "Profile Error" "Could not fetch user profile"
        | Data role =>
            if Str.truthyOpt role then
              match role with
              | None => ret tt
              | Some r =>
                  let l := Str.toLowerCase r in
                  if l =? "owner" then router_replace "/owner"
                  else if l =? "staff" then router_replace "/staff"
                  else if l =? "officer" then router_replace "/officer"
                  else alert "Role Error" ("Unknown role: " ++ r)
              end
            else alert "Role Error" "No role assigned to user"
        end
    end.

End LoginScreen.

(** ** Owner screens: vehicles and complaints

    Sources: src/src/screens/VehicleListScreen.tsx ([fetchVehicles]),
    src/app/vehicle-details.tsx ([fetchVehicleDetails]) and
    src/unnamed/part_011 ([MyComplaintsScreen], [fetchComplaints]). *)

Module VehicleListScreen.

(** [fetchVehicles()]: the rows given to [setVehicles], or [None] when
    the state is left as it was. *)
Definition fetchVehicles (session : option Id) : M (option (list Vehicle)) :=
  match session with
  | None => ret None
  | Some user =>
      r <- Store.select (SelectEqId TVehicles "owner_id" user)
             (fun d => filter (fun v => Store.optIdEqb (owner_id v) user) (vehicles d)) ;;
      match r with
      | Error _ =>
          consoleError "Error fetching vehicles:" ;;;
          alert "Error" "Failed to load vehicles. Please try again later." ;;;
          ret None
      | Data rows => ret (Some rows)
      end
  end.

End VehicleListScreen.

Module VehicleDetailsScreen.

(** [fetchVehicleDetails()]: the new value of the [vehicle] state. *)
Definition fetchVehicleDetails (id : option Id) (session : option Id)
    (vehicle : option Vehicle) : M (option Vehicle) :=
  match id, session with
  | Some id, Some user =>
      r <- Store.selectSingle (SelectById TVehicles id)
             (fun d => filter (fun v => Nat.eqb (vehicle_id v) id
                                        && Store.optIdEqb (owner_id v) user)
                              (vehicles d)) ;;
      match r with
      | Error _ =>
          consoleError "Error fetching vehicle details:" ;;;
          alert "Error" "Failed to load vehicle details" ;;;
          router_back ;;;
          ret vehicle
      | Data v => ret (Some v)
      end
  | _, _ => ret vehicle
  end.

End VehicleDetailsScreen.

Module MyComplaintsScreen.

(** A complaint with the related rows attached for display. *)
Record ComplaintView := mkComplaintView {
  cv_complaint : Complaint;
  cv_vehicles : option Vehicle;
  cv_tows : option Tow;
  cv_fines : option Fine
}.

(** [[...new Set(ids.filter(Boolean))]] *)
Definition distinctIds (ids : list (option Id)) : list Id :=
  nodup Nat.eq_dec (flat_map (fun o => match o with Some i => [i] | None => [] end) ids).

(** The related rows of one table: none is asked for when no complaint
    refers to the table, and a failed request leaves the map empty. *)
Definition related {A} (t : Table) (ids : list Id) (key : A -> Id)
    (rows : DB -> list A) : M (list A) :=
  match ids with
  | [] => ret []
  | _ =>
      r <- Store.select (SelectIn t ids)
             (fun d => filter (fun x => existsb (Nat.eqb (key x)) ids) (rows d)) ;;
      ret (match r with Data l => l | Error _ => [] end)
  end.

(** [map[id]] after [rows.forEach(r => map[r.id] = r)]: the last row
    with the identifier. *)
Definition lookup {A} (key : A -> Id) (rows : list A) (id : option Id) : option A :=
  match id with
  | Some i => find (fun x => Nat.eqb (key x) i) (rev rows)
  | None => None
  end.

(** [fetchComplaints()]: the rows given to [setComplaints], or [None]
    when the state is left as it was. *)
Definition fetchComplaints (session : option Id) : M (option (list ComplaintView)) :=
  match session with
  | None => ret None
  | Some user =>
      r <- Store.select (SelectEqId TComplaints "user_id" user)
             (fun d => Store.orderDesc complaint_created_at
                         (filter (fun c => Nat.eqb (complaint_user_id c) user)
                                 (complaints d))) ;;
      match r with
      | Error _ =>
          consoleError "Error fetching complaints:" ;;;
          alert "Error" "Failed to load complaints. Please try again." ;;;
          ret None
      | Data [] => ret (Some [])
      | Data data =>
          vs <- related TVehicles (distinctIds (map complaint_vehicle_id data))
                  vehicle_id vehicles ;;
          ts <- related TTows (distinctIds (map complaint_tow_id data))
                  tow_id tows ;;
          fs <- related TFines (distinctIds (map complaint_fine_id data))
                  fine_id fines ;;
          ret (Some (map (fun c =>
                 mkComplaintView c
                   (lookup vehicle_id vs (complaint_vehicle_id c))
                   (lookup tow_id ts (complaint_tow_id c))
                   (lookup fine_id fs (complaint_fine_id c))) data))
      end
  end.

End MyComplaintsScreen.

(** ** FineDetailsScreen: reading, paying and displaying one fine

    Source: src/src/screens/FineDetailsScreen.tsx. *)

Module FineDetailsScreen.

(** The fine shown, with the plate, model and colour of its vehicle. *)
Record FineDetails := mkFineDetails {
  fd_fine : Fine;
  fd_license_plate : string;
  fd_model : string;
  fd_color : string
}.

Record State := mkState {
  fineDetails : option FineDetails;
  paymentModalVisible : bool
}.

Definition initial : State := mkState None false.

(** [fetchFineDetails()].  The fine is read by its identifier together
    with its vehicle; it is kept only when the vehicle's owner is the
    signed-in user. *)
Definition fetchFineDetails (id : option Id) (session : option Id)
    (s : State) : M State :=
  match id, session with
  | Some id, Some user =>
      r <- Store.selectSingle (SelectById TFines id)
             (fun d => map (fun f => (f, Store.findVehicle d (fine_vehicle_id f)))
                           (filter (fun f => Nat.eqb (fine_id f) id) (fines d))) ;;
      match r with
      | Error _ =>
          consoleError "Error fetching fine details:" ;;;
          alert "Error" "Failed to load fine details" ;;;
          router_back ;;;
          ret s
      | Data (_, None) =>
          consoleError "Error fetching fine details:" ;;;
          alert "Error" "Failed to load fine details" ;;;
          router_back ;;;
          ret s
      | Data (f, Some vehicleData) =>
          if negb (Store.optIdEqb (owner_id vehicleData) user) then
            consoleError "Error fetching fine details:" ;;;
            alert "Error" "You are not authorized to view this fine record" ;;;
            router_back ;;;
            ret s
          else
            ret (mkState
                   (Some (mkFineDetails f (license_plate vehicleData)
                            (model vehicleData) (color vehicleData)))
                   (paymentModalVisible s))
      end
  | _, _ => ret s
  end.

Definition isPaid (st : FineStatus) : bool :=
  match st with paid => true | _ => false end.

Definition isUnpaid (st : FineStatus) : bool :=
  match st with unpaid => true | _ => false end.

(** [handlePayFine()]: the "Pay Now" button. *)
Definition handlePayFine (s : State) : M State :=
  match fineDetails s with
  | Some fd =>
      if isPaid (fine_status (fd_fine fd)) then
        alert "Already Paid" "This fine has already been paid." ;;;
        ret s
      else ret (mkState (fineDetails s) true)
  | None => ret (mkState (fineDetails s) true)
  end.

(** [`TX-${Math.floor(Math.random() * 1000000)}-${Date.now()}`], with
    [rand] the value of [Math.floor(Math.random() * 1000000)]. *)
Definition mockTransactionId (rand : Z) (t : Z) : string :=
  "TX-" ++ Str.ofZ rand ++ "-" ++ Str.ofZ t.

(** [fineDetails.amount.toFixed(2)]: the text of the amount in a
    message; [None] when the amount is [null] and the call throws. *)
Definition amountText (f : Fine) : option string :=
  option_map (fun amount => Str.toFixed2 (Str.parseFloat amount)) (fine_amount f).

(** The fields one payment writes. *)
Definition markPaid (t : Z) (tx : string) (f : Fine) : Fine :=
  mkFine (fine_id f) (fine_vehicle_id f) (fine_amount f) (fine_description f)
         (issue_date f) (due_date f) paid (Some t) (Some tx)
         (fine_tow_id f) (fine_created_by f).

(** [update({ status, payment_date, transaction_id }).eq('id', id)
    .eq('vehicle_id', vid)] on the fines table. *)
Definition payRows (id vid : Id) (t : Z) (tx : string) (d : DB) : DB :=
  mkDB (profiles d) (vehicles d) (tows d)
       (map (fun f => if Nat.eqb (fine_id f) id && Nat.eqb (fine_vehicle_id f) vid
                      then markPaid t tx f else f) (fines d))
       (complaints d) (notifications d) (next_id d).

(** The state once a payment has gone through: the copy of the fine is
    paid and the modal is closed. *)
Definition settledState (t : Z) (tx : string) (fd : FineDetails) : State :=
  mkState (Some (mkFineDetails (markPaid t tx (fd_fine fd)) (fd_license_plate fd)
                   (fd_model fd) (fd_color fd)))
          false.

(** [processPayment()]: the "Confirm Payment" button of the modal.  The
    transaction identifier and the payment date sent to the store are
    computed before the update is sent, at the time of the clock;
    [settled] is the time read again, for the copy on the screen, once the
    update has been answered.  The success message is built after the
    copy has been set and the modal closed; when the amount is [null],
    building it throws, and the failure message is shown instead. *)
Definition processPayment (session : option Id) (rand settled : Z) (s : State)
    : M State :=
  match fineDetails s, session with
  | Some fd, Some _ =>
      t <- now ;;
      let tx := mockTransactionId rand t in
      let f := fd_fine fd in
      r <- Store.write (UpdateRow TFines (fine_id f))
             (payRows (fine_id f) (fine_vehicle_id f) t tx) (fun _ => tt) ;;
      match r with
      | Error _ =>
          consoleError "Error processing payment:" ;;;
          alert "Payment Failed" "Failed to process your payment. Please try again." ;;;
          ret s
      | Data _ =>
          match amountText f with
          | Some amount =>
              alert "Payment Successful"
                    ("Your payment of $" ++ amount ++ " has been processed successfully.") ;;;
              ret (settledState settled tx fd)
          | None =>
              consoleError "Error processing payment:" ;;;
              alert "Payment Failed" "Failed to process your payment. Please try again." ;;;
              ret (settledState settled tx fd)
          end
      end
  | _, _ => ret s
  end.

(** Closing the modal ("Cancel", the close icon, the back button). *)
Definition closeModal (s : State) : State := mkState (fineDetails s) false.

(** [isPastDue], evaluated at each render with [t] the current time:
    there is a due date, the current time is after it, and the status is
    'unpaid'. *)
Definition isPastDue (t : Z) (f : Fine) : bool :=
  match due_date f with
  | Some due => (due <? t)%Z && isUnpaid (fine_status f)
  | None => false
  end.

(** The status the badge of the screen shows:
    [isPastDue ? 'overdue' : fineDetails.status]. *)
Definition statusBadge (t : Z) (f : Fine) : FineStatus :=
  if isPastDue t f then overdue else fine_status f.

(** Which of the "PAID" mark and the "Pay Now" button the amount card
    shows: [true] for the mark. *)
Definition showsPaidMark (f : Fine) : bool := isPaid (fine_status f).

End FineDetailsScreen.

(** ** FineItem: one fine in the list of the fine history

    Sources: src/src/components/FineItem.tsx, and its use by
    [FineHistoryScreen] (src/src/screens/TowRequestsScreen.tsx, lines
    1557-1571). *)

Module FineItem.

(** The status the badge of a list item shows: the [status] property it
    is rendered with, which the fine history screen fills with the stored
    status of the row.  [t], the time of the render, plays no part. *)
Definition statusBadge (t : Z) (f : Fine) : FineStatus := fine_status f.

End FineItem.

(** ** TowDetailsScreen

    Source: src/app/tow-details.tsx, [fetchTowDetails]. *)

Module TowDetailsScreen.

(** [fetchTowDetails()]: the tow is read with its vehicle (an inner join:
    a tow without vehicle row does not match) and kept only when the
    vehicle's owner is the signed-in user. *)
Definition fetchTowDetails (id : option Id) (session : option Id)
    (towDetails : option (Tow * Vehicle)) : M (option (Tow * Vehicle)) :=
  match id, session with
  | Some id, Some user =>
      r <- Store.selectSingle (SelectById TTows id)
             (fun d => flat_map
                         (fun t => match tow_vehicle_id t with
                                   | Some vid =>
                                       match Store.findVehicle d vid with
                                       | Some v => [(t, v)]
                                       | None => []
                                       end
                                   | None => []
                                   end)
                         (filter (fun t => Nat.eqb (tow_id t) id) (tows d))) ;;
      match r with
      | Error _ =>
          consoleError "Error fetching tow details:" ;;;
          alert "Error" "Failed to load tow details" ;;;
          router_back ;;;
          ret towDetails
      | Data (t, vehicleData) =>
          if negb (Store.optIdEqb (owner_id vehicleData) user) then
            consoleError "Error fetching tow details:" ;;;
            alert "Error" "You are not authorized to view this tow record" ;;;
            router_back ;;;
            ret towDetails
          else ret (Some (t, vehicleData))
      end
  | _, _ => ret towDetails
  end.

End TowDetailsScreen.

(** ** FineHistoryScreen and TowHistoryScreen: the lists of an owner

    Sources: src/src/screens/TowRequestsScreen.tsx, lines 1299-1390
    ([FineHistoryScreen], [fetchFineHistory]) and src/unnamed/part_013,
    lines 71-115 ([TowHistoryScreen], [fetchTowHistory]).

    Both lists read their table with the vehicle of each row embedded
    ([vehicles:vehicles(license_plate, owner_id)]) and put the filter on
    the owner on the embedded table ([.eq('vehicles.owner_id', ...)]).
    The vehicles are not embedded with [!inner] (as [fetchTowDetails]
    embeds them), so the filter selects among the embedded vehicles: a row
    whose vehicle has another owner, or no vehicle, is still returned,
    with nothing embedded.  The handlers hand the rows to the screen
    without a test of their own. *)

Module FineHistoryScreen.

(** A row of the answer: the fine, and under [vehicles] its vehicle when
    the filter on the owner keeps it.  (The handler copies the plate of
    the embedded vehicle into the row when the embedded value is an array
    with an element; the row modelled keeps the embedded vehicle
    itself.) *)
Record FineRow := mkFineRow {
  fr_fine : Fine;
  fr_vehicles : option Vehicle
}.

(** The vehicle embedded in a row, under the filter on its owner. *)
Definition embedded (user : Id) (d : DB) (vid : option Id) : option Vehicle :=
  match vid with
  | Some vid =>
      match Store.findVehicle d vid with
      | Some v => if Store.optIdEqb (owner_id v) user then Some v else None
      | None => None
      end
  | None => None
  end.

Definition statusEqb (a b : FineStatus) : bool :=
  match a, b with
  | unpaid, unpaid | paid, paid | overdue, overdue => true
  | _, _ => false
  end.

(** The filters on the fines themselves: the vehicle chosen in the
    filter bar, when one is chosen, and the status chosen, when one is. *)
Definition chosen (selectedVehicleId : option Id) (statusFilter : option FineStatus)
    (f : Fine) : bool :=
  match selectedVehicleId with
  | Some vid => Nat.eqb (fine_vehicle_id f) vid
  | None => true
  end
  && match statusFilter with
     | Some st => statusEqb (fine_status f) st
     | None => true
     end.

(** [fetchFineHistory()]: the rows given to [setFines], or [None] when
    the state is left as it was. *)
Definition fetchFineHistory (session : option Id) (selectedVehicleId : option Id)
    (statusFilter : option FineStatus) : M (option (list FineRow)) :=
  match session with
  | None => ret None
  | Some user =>
      r <- Store.select (SelectEqId TFines "vehicles.owner_id" user)
             (fun d => map (fun f => mkFineRow f (embedded user d (Some (fine_vehicle_id f))))
                           (Store.orderDesc issue_date
                              (filter (chosen selectedVehicleId statusFilter) (fines d)))) ;;
      match r with
      | Error _ =>
          consoleError "Error fetching fine history:" ;;;
          alert "Error" "Failed to load fine history" ;;;
          ret None
      | Data rows => ret (Some rows)
      end
  end.

End FineHistoryScreen.

Module TowHistoryScreen.

Record TowRow := mkTowRow {
  tr_tow : Tow;
  tr_vehicles : option Vehicle
}.

Definition chosen (selectedVehicleId : option Id) (t : Tow) : bool :=
  match selectedVehicleId with
  | Some vid => Store.optIdEqb (tow_vehicle_id t) vid
  | None => true
  end.

(** [fetchTowHistory()]: the rows given to [setTows], or [None] when the
    state is left as it was. *)
Definition fetchTowHistory (session : option Id) (selectedVehicleId : option Id)
    : M (option (list TowRow)) :=
  match session with
  | None => ret None
  | Some user =>
      r <- Store.select (SelectEqId TTows "vehicles.owner_id" user)
             (fun d => map (fun t => mkTowRow t
                                       (FineHistoryScreen.embedded user d (tow_vehicle_id t)))
                           (Store.orderDesc tow_date
                              (filter (chosen selectedVehicleId) (tows d)))) ;;
      match r with
      | Error _ =>
          consoleError "Error fetching tow history:" ;;;
          alert "Error" "Failed to load tow history" ;;;
          ret None
      | Data rows => ret (Some rows)
      end
  end.

End TowHistoryScreen.

(** ** ComplaintReviewScreen: staff and officers answer complaints

    Source: src/unnamed/part_005, [updateComplaintStatus],
    [handleStatusChange] and [handleSubmitResponse]. *)

Module ComplaintReviewScreen.

Definition isResolved (st : ComplaintStatus) : bool :=
  match st with resolved => true | _ => false end.

(** [newStatus.replace('_', ' ')] *)
Definition statusText (st : ComplaintStatus) : string :=
  match st with
  | pending => "pending"
  | in_review => "in review"
  | resolved => "resolved"
  | rejected => "rejected"
  end.

(** The fields [updateData] carries: always the status; the response when
    one is given and not empty; the resolution time and the resolver when
    the new status is 'resolved'. *)
Definition applyUpdate (newStatus : ComplaintStatus) (resp : option string)
    (t : Z) (user : Id) (c : Complaint) : Complaint :=
  mkComplaint (complaint_id c) (complaint_user_id c) (complaint_subject c)
    (complaint_description c) (complaint_type c) (complaint_vehicle_id c)
    (complaint_fine_id c) (complaint_tow_id c)
    newStatus
    (complaint_created_at c)
    (if Str.truthyOpt resp then resp else response c)
    (if isResolved newStatus then Some t else resolved_at c)
    (if isResolved newStatus then Some user else resolved_by c).

(** [update(updateData).eq('id', id)] on the complaints table. *)
Definition updateRows (id : Id) (newStatus : ComplaintStatus) (resp : option string)
    (t : Z) (user : Id) (d : DB) : DB :=
  mkDB (profiles d) (vehicles d) (tows d) (fines d)
       (map (fun c => if Nat.eqb (complaint_id c) id
                      then applyUpdate newStatus resp t user c else c)
            (complaints d))
       (notifications d) (next_id d).

Definition addNotification (n : Notification) (d : DB) : DB :=
  mkDB (profiles d) (vehicles d) (tows d) (fines d) (complaints d)
       (notifications d ++ [n]) (next_id d).

Definition notificationFor (c : Complaint) (id : Id) (newStatus : ComplaintStatus)
    : Notification :=
  mkNotification (complaint_user_id c) "complaint_update"
    ("Complaint " ++ (if isResolved newStatus then "Resolved" else "Updated"))
    (if isResolved newStatus
     then "Your complaint " ++ Str.quote ++ complaint_subject c ++ Str.quote
          ++ " has been resolved."
     else "Your complaint " ++ Str.quote ++ complaint_subject c ++ Str.quote
          ++ " has been updated to " ++ statusText newStatus ++ ".")
    (Some id) false.

(** [updateComplaintStatus(id, newStatus, response?)].  [shown] is the
    list of complaints the screen holds.  Every caller passes one of the
    four statuses.  The refresh of the list started after the update is a
    read and is not modelled. *)
Definition updateComplaintStatus (session : option Id) (shown : list Complaint)
    (id : Id) (newStatus : ComplaintStatus) (resp : option string) : M unit :=
  match session with
  | None => ret tt
  | Some user =>
      t <- now ;;
      r <- Store.write (UpdateRow TComplaints id)
             (updateRows id newStatus resp t user) (fun _ => tt) ;;
      match r with
      | Error _ =>
          consoleError "Error updating complaint:" ;;;
          alert "Error" "Failed to update complaint. Please try again."
      | Data _ =>
          match find (fun c => Nat.eqb (complaint_id c) id) shown with
          | Some c =>
              _ <- Store.write (InsertRow TNotifications)
                     (addNotification (notificationFor c id newStatus)) (fun _ => tt) ;;
              ret tt
          | None => ret tt
          end ;;;
          if Str.truthyOpt resp
          then alert "Success" ("Response submitted and complaint updated to "
                                ++ statusText newStatus ++ ".")
          else alert "Success" ("Complaint status updated to "
                                ++ statusText newStatus ++ ".")
      end
  end.

(** [handleStatusChange(id, newStatus)]: the "Mark In Review" and
    "Resolve" buttons of a card.  For 'resolved' a dialog asks first;
    [confirmed] is the answer given. *)
Definition handleStatusChange (session : option Id) (shown : list Complaint)
    (id : Id) (newStatus : ComplaintStatus) (confirmed : bool) : M unit :=
  if isResolved newStatus then
    if confirmed then updateComplaintStatus session shown id newStatus None
    else ret tt
  else updateComplaintStatus session shown id newStatus None.

(** [handleSubmitResponse()]: the "Submit" button of the response form,
    with the complaint, the status and the text selected in it. *)
Definition handleSubmitResponse (session : option Id) (shown : list Complaint)
    (selectedComplaint : option Complaint) (selectedStatus : ComplaintStatus)
    (responseText : string) : M unit :=
  match selectedComplaint with
  | None => ret tt
  | Some c =>
      if negb (Str.truthy (Str.trim responseText)) then
        alert "Error" "Please enter a response before submitting."
      else
        updateComplaintStatus session shown (complaint_id c) selectedStatus
          (Some responseText)
  end.

End ComplaintReviewScreen.

(** ** ComplaintScreen: an owner files a complaint

    Source: src/ComplaintScreen.tsx, [handleSubmit]. *)

Module ComplaintScreen.

Definition addComplaint (c : Complaint) (d : DB) : DB :=
  mkDB (profiles d) (vehicles d) (tows d) (fines d) (complaints d ++ [c])
       (notifications d) (S (next_id d)).

(** [handleSubmit()], for a signed-in user. *)
Definition handleSubmit (user : Id) (subject description complaintType : string)
    (vehicleId fineId towId : option Id) : M unit :=
  if negb (Str.truthy (Str.trim subject)) then
    alert "Error" "Please enter a subject for your complaint"
  else if negb (Str.truthy (Str.trim description)) then
    alert "Error" "Please provide details about your complaint"
  else if negb (complaintType =? "general")
          && match vehicleId with Some _ => false | None => true end then
    alert "Error" "Please select a vehicle for your complaint"
  else
    t <- now ;;
    r <- Store.write (InsertRow TComplaints)
           (fun d => addComplaint
                       (mkComplaint (next_id d) user subject description complaintType
                          vehicleId fineId towId pending t None None None) d)
           (fun _ => tt) ;;
    match r with
    | Error _ =>
        consoleError "Error submitting complaint:" ;;;
        alert "Error" "Failed to submit your complaint. Please try again."
    | Data _ =>
        alert "Complaint Submitted"
          "Your complaint has been submitted successfully. Our team will review it soon."
    end.

End ComplaintScreen.

(** ** Looking a plate up in the store *)

Module Plates.

(** [from('vehicles').select().eq('license_plate', p)] *)
Definition vehiclesEq (p : string) : M (Resp (list Vehicle)) :=
  Store.select (SelectEq TVehicles "license_plate" p)
    (fun d => filter (fun v => license_plate v =? p) (vehicles d)).

(** [from('vehicles').select().ilike('license_plate', `%${p}%`)] *)
Definition vehiclesIlike (p : string) : M (Resp (list Vehicle)) :=
  Store.select (SelectIlike TVehicles "license_plate" ("%" ++ p ++ "%"))
    (fun d => filter (fun v => Store.ilike p (license_plate v)) (vehicles d)).

(** [from('tows').select('*').eq('license_plate', p)] *)
Definition towsEq (p : string) : M (Resp (list Tow)) :=
  Store.select (SelectEq TTows "license_plate" p)
    (fun d => filter (fun t => tow_license_plate t =? p) (tows d)).

(** [from('tows').select('*').ilike('license_plate', `%${p}%`)] *)
Definition towsIlike (p : string) : M (Resp (list Tow)) :=
  Store.select (SelectIlike TTows "license_plate" ("%" ++ p ++ "%"))
    (fun d => filter (fun t => Store.ilike p (tow_license_plate t)) (tows d)).

(** [licensePlate.trim().toUpperCase()] *)
Definition formatted (licensePlate : string) : string :=
  Str.toUpperCase (Str.trim licensePlate).

End Plates.

(** ** IssueFineScreen

    Source: src/src/screens/IssueFineScreen.tsx, lines 32-146:
    [searchVehicle] and [issueFine]. *)

Module IssueFineScreen.

Definition searchFailed : M unit :=
  consoleError "Error searching vehicle:" ;;;
  alert "Error" "Failed to search for vehicle".

(** [searchVehicle()]: the new value of the [vehicle] state. *)
Definition searchVehicle (session : option Id) (licensePlate : string)
    (vehicle : option Vehicle) : M (option Vehicle) :=
  match session with
  | None => ret vehicle
  | Some _ =>
      if negb (Str.truthy (Str.trim licensePlate)) then ret vehicle
      else
        let formattedLicensePlate := Plates.formatted licensePlate in
        exact <- Plates.vehiclesEq formattedLicensePlate ;;
        match exact with
        | Error _ => searchFailed ;;; ret vehicle
        | Data (v :: _) => ret (Some v)
        | Data [] =>
            partialMatch <- Plates.vehiclesIlike formattedLicensePlate ;;
            match partialMatch with
            | Error _ => searchFailed ;;; ret vehicle
            | Data [] =>
                alert "No Results" "No vehicle found with this license plate." ;;;
                ret None
            | Data [v] => ret (Some v)
            | Data (v :: _ :: _) =>
                alert "Multiple Matches"
                      "Multiple vehicles found. Showing the first match." ;;;
                ret (Some v)
            end
        end
  end.

Record FineForm := mkFineForm {
  amount : string;
  description : string;
  form_due_date : Z
}.

Definition addFine (f : Fine) (d : DB) : DB :=
  mkDB (profiles d) (vehicles d) (tows d) (fines d ++ [f]) (complaints d)
       (notifications d) (S (next_id d)).

(** [issueFine()] *)
Definition issueFine (session : option Id) (vehicle : option Vehicle)
    (form : FineForm) : M unit :=
  match vehicle, session with
  | Some v, Some user =>
      if negb (Str.truthy (amount form)) || negb (Str.truthy (description form)) then
        alert "Missing Information" "Please fill in all fine details"
      else
        t <- now ;;
        r <- Store.write (InsertRow TFines)
               (fun d => addFine
                           (mkFine (next_id d) (vehicle_id v)
                              (Str.toJSON (Str.parseFloat (amount form)))
                              (description form)
                              t (Some (form_due_date form)) unpaid None None
                              None (Some user)) d)
               (fun _ => tt) ;;
        match r with
        | Error _ =>
            consoleError "Error issuing fine:" ;;;
            alert "Error" "Failed to issue fine"
        | Data _ => alert "Success" "Fine has been issued successfully"
        end
  | _, _ => ret tt
  end.

End IssueFineScreen.

(** ** RecordTowScreen

    Source: src/src/screens/IssueFineScreen.tsx, lines 394-704 (the second
    screen of that file): [searchVehicle] and [handleSubmitTow]. *)

Module RecordTowScreen.

Record Form := mkForm {
  licensePlate : string;
  location : string;
  reason : string;
  towDate : Z;
  notes : string;
  vehicleMake : string;
  vehicleModel : string;
  vehicleColor : string;
  registeredName : string;
  vehicleFound : option Vehicle;
  vehicleNotFound : bool;
  issueFineToo : bool;
  fineAmount : string;
  fineDescription : string
}.

Definition blank : Form :=
  mkForm "" "" "" 0 "" "" "" "" "" None false false "" "".

(** The search part of the form after a search. *)
Definition withSearch (f : Form) (found : option Vehicle) (notFound : bool)
    (mk mdl col reg : string) : Form :=
  mkForm (licensePlate f) (location f) (reason f) (towDate f) (notes f)
         mk mdl col reg found notFound
         (issueFineToo f) (fineAmount f) (fineDescription f).

Definition standardColors : list string :=
  ["black"; "white"; "silver"; "gray"; "red"; "blue"; "green"; "yellow";
   "orange"; "brown"].

(** [s.match(new RegExp(standardColors.join('|')))]: the leftmost place
    where a colour starts, and there the first colour of the list. *)
Fixpoint colorMatch (s : string) : option string :=
  match find (fun c => prefix c s) standardColors with
  | Some c => Some c
  | None =>
      match s with
      | EmptyString => None
      | String _ s' => colorMatch s'
      end
  end.

(** The form once [v] is taken as the vehicle found; [several] tells
    whether it was picked among several rows. *)
Definition fill (f : Form) (v : Vehicle) (several : bool) : Form :=
  withSearch f (Some v) false
    (if several then make v
     else if Str.truthy (make v) then make v else vehicleMake f)
    (model v) (color v)
    (match registered_name v with
     | Some n => if Str.truthy n then n else registeredName f
     | None => registeredName f
     end).

(** [searchVehicle()]: the form after the search. *)
Definition searchVehicle (f : Form) : M Form :=
  if negb (Str.truthy (Str.trim (licensePlate f))) then
    alert "Error" "Please enter a license plate number" ;;;
    ret f
  else
    let f0 := withSearch f None false (vehicleMake f) (vehicleModel f)
                (vehicleColor f) (registeredName f) in
    let formattedLicensePlate := Plates.formatted (licensePlate f) in
    exact <- Plates.vehiclesEq formattedLicensePlate ;;
    final <- match exact with
             | Data [] =>
                 ilikeData <- Plates.vehiclesIlike formattedLicensePlate ;;
                 ret (match ilikeData with
                      | Data (v :: l) => Data (v :: l)
                      | _ => exact
                      end)
             | _ => ret exact
             end ;;
    match final with
    | Error _ =>
        consoleError "DEBUG: Error searching vehicle:" ;;;
        alert "Error" "Failed to search for the vehicle. Please try again." ;;;
        ret f0
    | Data [] =>
        ret (withSearch f0 None true (vehicleMake f0) (vehicleModel f0)
               (match colorMatch (Str.toLowerCase (licensePlate f)) with
                | Some c => c
                | None => vehicleColor f0
                end)
               (registeredName f0))
    | Data [v] => ret (fill f0 v false)
    | Data (v :: l) =>
        alert "Multiple Matches"
              ("Found " ++ Str.ofZ (Z.of_nat (S (List.length l)))
               ++ " vehicles with similar license plates. Using the first match.") ;;;
        ret (fill f0 v true)
    end.

Definition addVehicle (v : Vehicle) (d : DB) : DB :=
  mkDB (profiles d) (vehicles d ++ [v]) (tows d) (fines d) (complaints d)
       (notifications d) (S (next_id d)).

Definition addTow (t : Tow) (d : DB) : DB :=
  mkDB (profiles d) (vehicles d) (tows d ++ [t]) (fines d) (complaints d)
       (notifications d) (S (next_id d)).

(** [newVehicleData], with the identifier the store gives the row. *)
Definition newVehicleData (f : Form) (id : Id) : Vehicle :=
  mkVehicle id
    (Plates.formatted (licensePlate f))
    (Str.orElse (vehicleMake f) "Unknown")
    (Str.orElse (vehicleModel f) "Unknown")
    (Str.orElse (vehicleColor f) "unknown")
    (if Str.truthy (registeredName f) then Some (registeredName f) else None)
    None.

(** [towPayload], with the identifier the store gives the row. *)
Definition towPayload (session : option Id) (f : Form) (vehicleId : option Id)
    (id : Id) : Tow :=
  mkTow id vehicleId (Plates.formatted (licensePlate f))
    (Str.trim (location f)) (Str.trim (reason f)) (towDate f) "active"
    (Str.trim (notes f)) session.

Definition thirtyDays : Z := 30 * 24 * 60 * 60 * 1000.

(** [fineData], with the identifier the store gives the row. *)
Definition fineData (session : option Id) (f : Form) (vehicleId createdTow : Id)
    (t : Z) (id : Id) : Fine :=
  mkFine id vehicleId (Str.toJSON (Str.parseFloat (fineAmount f)))
    (Str.trim (fineDescription f))
    t (Some (t + thirtyDays)%Z) unpaid None None (Some createdTow) session.

Definition notificationData (f : Form) (owner createdTow : Id) : Notification :=
  mkNotification owner "tow" "Vehicle Towed"
    ("Your vehicle (" ++ licensePlate f ++ ") has been towed from " ++ location f)
    (Some createdTow) false.

Definition isNaN (x : Str.Num) : bool := Str.isNaN x.

Definition failed : M unit :=
  consoleError "Error recording tow:" ;;;
  alert "Error" "Failed to record the tow. Please try again.".

(** The vehicle the tow refers to: the one found by the search, or a row
    created from the form.  When the creation fails the operator is
    warned and the tow goes on without vehicle. *)
Definition resolveVehicle (f : Form) : M (option Id) :=
  match vehicleFound f with
  | Some v => ret (Some (vehicle_id v))
  | None =>
      r <- Store.write (InsertRow TVehicles)
             (fun d => addVehicle (newVehicleData f (next_id d)) d)
             (fun d => next_id d) ;;
      match r with
      | Error _ =>
          consoleError "Error creating vehicle:" ;;;
          alert "Warning"
                "Could not create vehicle record. Proceeding with tow record only." ;;;
          ret None
      | Data id => ret (Some id)
      end
  end.

(** The notification to the owner of a vehicle found in the store; its
    failure is logged and nothing else. *)
Definition notifyOwner (f : Form) (createdTow : Id) : M unit :=
  match vehicleFound f with
  | Some v =>
      match owner_id v with
      | Some owner =>
          r <- Store.write (InsertRow TNotifications)
                 (ComplaintReviewScreen.addNotification
                    (notificationData f owner createdTow))
                 (fun _ => tt) ;;
          match r with
          | Error _ => consoleError "Error creating notification:"
          | Data _ => ret tt
          end
      | None => ret tt
      end
  | None => ret tt
  end.

(** The [try] block of [handleSubmitTow()]: the writes, one after the
    other, once the form has passed validation. *)
Definition recordTow (session : option Id) (f : Form) : M unit :=
  vehicleId <- resolveVehicle f ;;
  tow <- Store.write (InsertRow TTows)
           (fun d => addTow (towPayload session f vehicleId (next_id d)) d)
           (fun d => next_id d) ;;
  match tow with
  | Error _ => failed
  | Data createdTow =>
      fine <- match issueFineToo f, vehicleId with
              | true, Some vid =>
                  t <- now ;;
                  Store.write (InsertRow TFines)
                    (fun d => IssueFineScreen.addFine
                                (fineData session f vid createdTow t (next_id d)) d)
                    (fun _ => tt)
              | _, _ => ret (Data tt)
              end ;;
      match fine with
      | Error _ => failed
      | Data _ =>
          notifyOwner f createdTow ;;;
          alert "Success"
                ("Tow record created successfully"
                 ++ (if issueFineToo f then " with associated fine" else ""))
      end
  end.

(** [handleSubmitTow()] *)
Definition handleSubmitTow (session : option Id) (f : Form) : M unit :=
  if negb (Str.truthy (Str.trim (licensePlate f))) then
    alert "Error" "Please enter a license plate number"
  else if negb (Str.truthy (Str.trim (location f))) then
    alert "Error" "Please enter the tow location"
  else if negb (Str.truthy (Str.trim (reason f))) then
    alert "Error" "Please provide a reason for towing"
  else if issueFineToo f
          && (negb (Str.truthy (Str.trim (fineAmount f)))
              || isNaN (Str.parseFloat (fineAmount f))) then
    alert "Error" "Please enter a valid fine amount"
  else if issueFineToo f && negb (Str.truthy (Str.trim (fineDescription f))) then
    alert "Error" "Please enter a description for the fine"
  else recordTow session f.

End RecordTowScreen.

(** ** VehicleSearchScreen: staff and officers look a vehicle up

    Source: src/unnamed/part_012, lines 53-254: [searchVehicle] and
    [fetchVehicleHistory]. *)

Module VehicleSearchScreen.

(** The vehicle shown: a row of the vehicles table, with its owner's
    profile when it could be read, or a stand-in built from a tow. *)
Record VehicleView := mkVehicleView {
  vv_id : option Id;
  vv_license_plate : string;
  vv_model : string;
  vv_color : string;
  vv_owner_id : option Id;
  vv_owner : option Profile
}.

Record State := mkState {
  vehicle : option VehicleView;
  vehicleNotFound : bool;
  towHistory : list Tow;
  fineHistory : list Fine
}.

Definition cleared : State := mkState None false [] [].

Definition ofVehicle (v : Vehicle) (owner : option Profile) : VehicleView :=
  mkVehicleView (Some (vehicle_id v)) (license_plate v) (model v) (color v)
                (owner_id v) owner.

(** The stand-in for a plate known from the tows table only. *)
Definition ofTow (t : Tow) : VehicleView :=
  mkVehicleView (tow_vehicle_id t) (tow_license_plate t) "Unknown Model" "gray"
                None None.

(** [fetchVehicleHistory(vehicleId)]: both histories are set when both
    reads succeed. *)
Definition fetchVehicleHistory (vehicleId : Id) (s : State) : M State :=
  towData <- Store.select (SelectEqId TTows "vehicle_id" vehicleId)
               (fun d => Store.orderDesc tow_date
                           (filter (fun t => Store.optIdEqb (tow_vehicle_id t) vehicleId)
                                   (tows d))) ;;
  match towData with
  | Error _ =>
      consoleError "Error fetching vehicle history:" ;;;
      alert "Error" "Failed to fetch vehicle history" ;;;
      ret s
  | Data ts =>
      fineData <- Store.select (SelectEqId TFines "vehicle_id" vehicleId)
                    (fun d => Store.orderDesc issue_date
                                (filter (fun f => Nat.eqb (fine_vehicle_id f) vehicleId)
                                        (fines d))) ;;
      match fineData with
      | Error _ =>
          consoleError "Error fetching vehicle history:" ;;;
          alert "Error" "Failed to fetch vehicle history" ;;;
          ret s
      | Data fs => ret (mkState (vehicle s) (vehicleNotFound s) ts fs)
      end
  end.

(** Rows of a first pass when it has some, else rows of the second pass
    when it has some, else nothing. *)
Definition orFallback {A} (first : Resp (list A)) (second : M (Resp (list A)))
    : M (list A) :=
  match first with
  | Data (x :: l) => ret (x :: l)
  | _ =>
      r <- second ;;
      ret (match r with Data l => l | Error _ => [] end)
  end.

(** [from('profiles').select(...).eq('id', owner).single()] *)
Definition ownerProfile (owner : Id) : M (Resp Profile) :=
  Store.selectSingle (SelectById TProfiles owner)
    (fun d => filter (fun p => Nat.eqb (profile_id p) owner) (profiles d)).

(** [searchVehicle()]: the state after the search. *)
Definition searchVehicle (licensePlate : string) (s : State) : M State :=
  if negb (Str.truthy (Str.trim licensePlate)) then
    alert "Error" "Please enter a license plate number" ;;;
    ret s
  else
    let formattedLicensePlate := Plates.formatted licensePlate in
    exact <- Plates.vehiclesEq formattedLicensePlate ;;
    vehicleData <- orFallback exact (Plates.vehiclesIlike formattedLicensePlate) ;;
    match vehicleData with
    | [] =>
        towExact <- Plates.towsEq formattedLicensePlate ;;
        towData <- orFallback towExact (Plates.towsIlike formattedLicensePlate) ;;
        match towData with
        | t :: _ =>
            let s1 := mkState (Some (ofTow t)) false [] [] in
            match tow_vehicle_id t with
            | Some vid => fetchVehicleHistory vid s1
            | None => ret (mkState (vehicle s1) false [t] [])
            end
        | [] => ret (mkState None true [] [])
        end
    | foundVehicle :: _ =>
        match owner_id foundVehicle with
        | Some owner =>
            ownerData <- ownerProfile owner ;;
            let s1 := mkState (Some (ofVehicle foundVehicle
                                       (match ownerData with
                                        | Data p => Some p
                                        | Error _ => None
                                        end)))
                              false [] [] in
            fetchVehicleHistory (vehicle_id foundVehicle) s1
        | None =>
            fetchVehicleHistory (vehicle_id foundVehicle)
              (mkState (Some (ofVehicle foundVehicle None)) false [] [])
        end
    end.

End VehicleSearchScreen.

(** * Vocabulary of the properties, and the examples they are tried on *)

(** ** The role router (C1) *)

(** The role values the router names. *)
Definition recognizedRoles : list string := ["owner"; "staff"; "officer"].

(** The router is a function of the role alone: it replaces the current
    screen by the one [destination] names. *)
Definition destination (role : option string) : string :=
  match current (run (navigateToDashboard role) (initWorld emptyDB)) with
  | Some p => p
  | None => ""
  end.

(** ** Scoped reads of an owner (C2) *)

(** The answer to the next request: [true] when the store answers. *)
Definition answers (w : World) : bool := hd true (net w).

(** The rows of each table an owner may read: own vehicles, own
    complaints, and the fines and tows of own vehicles. *)
Definition ownVehicle (self : Id) (v : Vehicle) : Prop := owner_id v = Some self.

Definition ownComplaint (self : Id) (c : Complaint) : Prop := complaint_user_id c = self.

Definition fineOfOwnVehicle (d : DB) (self : Id) (f : Fine) : Prop :=
  exists v, In v (vehicles d) /\ vehicle_id v = fine_vehicle_id f /\ ownVehicle self v.

Definition towOfOwnVehicle (d : DB) (self : Id) (t : Tow) : Prop :=
  exists v, In v (vehicles d) /\ Some (vehicle_id v) = tow_vehicle_id t /\ ownVehicle self v.

(** ** A small store for the examples *)

Module Sample.

Definition alice : Id := 1.
Definition bob : Id := 2.
Definition staffer : Id := 3.
Definition stranger : Id := 4.

Definition car1 : Vehicle := mkVehicle 10 "ABC123" "Toyota" "Corolla" "blue" None (Some alice).
Definition car2 : Vehicle := mkVehicle 11 "ABC456" "Honda" "Civic" "red" None (Some bob).

(** Two unpaid fines, due at time 1000. *)
Definition fine1 : Fine :=
  mkFine 20 10 (Some "50") "Parking" 0 (Some 1000%Z) unpaid None None None (Some staffer).
Definition fine2 : Fine :=
  mkFine 21 11 (Some "75") "Parking" 0 (Some 1000%Z) unpaid None None None (Some staffer).

Definition complaint1 : Complaint :=
  mkComplaint 30 alice "Wrong fine" "I was not parked there" "fine" (Some 10) (Some 20)
              None pending 5 None None None.

Definition store : DB :=
  mkDB [mkProfile alice "alice@example.org" None None (Some "owner");
        mkProfile bob "bob@example.org" None None (Some "owner");
        mkProfile staffer "staff@example.org" None None (Some "staff");
        mkProfile stranger "x@example.org" None None (Some "admin")]
       [car1; car2] [] [fine1; fine2] [complaint1] [] 100.

(** The store answering every request, at time 2000, on some screen
    reached from the owner dashboard. *)
Definition world : World := mkWorld store [] [] [] [] ["/screen"; "/owner"] 2000.

(** The same with the next request failing. *)
Definition offline : World := mkWorld store [false] [] [] [] ["/screen"; "/owner"] 2000.

End Sample.

(** ** The lists of an owner (C2) *)

(** Alice opens her fine history with no filter chosen. *)
Definition aliceFineHistory : option (list FineHistoryScreen.FineRow) :=
  result (FineHistoryScreen.fetchFineHistory (Some Sample.alice) None None) Sample.world.

(** Bob's car has been towed; Alice opens her tow history. *)
Definition bobsTow : Tow :=
  mkTow 40 (Some 11) "ABC456" "Main Street" "Blocking a driveway" 1500 "active" ""
        (Some Sample.staffer).

Definition towedStore : DB :=
  mkDB (profiles Sample.store) (vehicles Sample.store) [bobsTow] (fines Sample.store)
       (complaints Sample.store) (notifications Sample.store) (next_id Sample.store).

Definition towedWorld : World := mkWorld towedStore [] [] [] [] ["/screen"; "/owner"] 2000.

Definition aliceTowHistory : option (list TowHistoryScreen.TowRow) :=
  result (TowHistoryScreen.fetchTowHistory (Some Sample.alice) None) towedWorld.

(** ** The role lookup (C4) *)

(** The roles of the profile rows of a user. *)
Definition rolesOf (user : Id) (d : DB) : list (option string) :=
  map profile_role (filter (fun p => Nat.eqb (profile_id p) user) (profiles d)).

(** What the profile lookup gets back. *)
Definition lookupAnswer (user : Id) (w : World) : Resp (option string) :=
  if answers w then Store.single (rolesOf user (db w)) else Error Store.unreachable.

(** ** Invariants of the tables *)

(** [keeps P m]: the handler [m] takes a store satisfying [P] to a store
    satisfying [P], whatever it returns and whether or not its requests are
    answered. *)

Definition keeps {A} (P : DB -> Prop) (m : M A) : Prop :=
  forall w, P (db w) -> P (db (snd (m w))).

(** ** The life cycle of a fine (C5) *)

(** The payment fields of a fine agree with its status: both absent on an
    unpaid fine, both present on a paid one; no other status is stored. *)
Definition paymentPaired (f : Fine) : Prop :=
  match fine_status f with
  | unpaid => payment_date f = None /\ transaction_id f = None
  | paid => payment_date f <> None /\ transaction_id f <> None
  | overdue => False
  end.

Definition finesPaired (d : DB) : Prop := Forall paymentPaired (fines d).

(** The handlers that write fines or complaints, as steps of the world.
    Everything else (reads, navigation, the passing of time, changes of
    connectivity, writes to the other tables) is a step that leaves the
    fines and the complaints as they are. *)
Inductive step : World -> World -> Prop :=
| step_elsewhere w w' :
    fines (db w') = fines (db w) -> complaints (db w') = complaints (db w) ->
    step w w'
| step_issueFine session vehicle form w :
    step w (run (IssueFineScreen.issueFine session vehicle form) w)
| step_submitTow session f w :
    step w (run (RecordTowScreen.handleSubmitTow session f) w)
| step_processPayment session rand settled s w :
    step w (run (FineDetailsScreen.processPayment session rand settled s) w)
| step_fileComplaint user subject description type vehicleId fineId towId w :
    step w (run (ComplaintScreen.handleSubmit user subject description type
                   vehicleId fineId towId) w)
| step_statusChange session shown id newStatus confirmed w :
    (** the two buttons of a card: "Mark In Review" and "Resolve" *)
    newStatus = in_review \/ newStatus = resolved ->
    step w (run (ComplaintReviewScreen.handleStatusChange session shown id
                   newStatus confirmed) w)
| step_submitResponse session shown selected status text w :
    step w (run (ComplaintReviewScreen.handleSubmitResponse session shown selected
                   status text) w).

Inductive reachable (w0 : World) : World -> Prop :=
| reach_here : reachable w0 w0
| reach_step w w' : reachable w0 w -> step w w' -> reachable w0 w'.

(** Alice opens her fine. *)
Definition aliceOpens : M FineDetailsScreen.State :=
  FineDetailsScreen.fetchFineDetails (Some 20) (Some Sample.alice)
    FineDetailsScreen.initial.

(** Text without a hyphen. *)
Fixpoint hyphenFree (s : string) : bool :=
  match s with
  | EmptyString => true
  | String c r => negb (Ascii.eqb c "-") && hyphenFree r
  end.

(** ** Paying twice (C6) *)

(** The pay operation of the screen: "Pay Now", then "Confirm Payment" in
    the modal when it has opened. *)
Definition pay (session : option Id) (rand settled : Z)
    (s : FineDetailsScreen.State) : M FineDetailsScreen.State :=
  s1 <- FineDetailsScreen.handlePayFine s ;;
  if FineDetailsScreen.paymentModalVisible s1
  then FineDetailsScreen.processPayment session rand settled s1
  else ret s1.

(** Time passes. *)
Definition later (t : Z) (w : World) : World :=
  mkWorld (db w) (net w) (reqs w) (alerts w) (console w) (nav w) t.

(** The status of the fine a screen holds. *)
Definition copyStatus (s : FineDetailsScreen.State) : option FineStatus :=
  option_map (fun fd => fine_status (FineDetailsScreen.fd_fine fd))
             (FineDetailsScreen.fineDetails s).

(** The stored fine with an identifier. *)
Definition storedFine (id : Id) (w : World) : option Fine :=
  find (fun f => Nat.eqb (fine_id f) id) (fines (db w)).

(** Alice has her fine open on two devices; she pays on the first and,
    later, on the second, whose copy of the fine is still unpaid. *)
Definition afterFirstPayment : World :=
  run (pay (Some Sample.alice) 42 2003 (result aliceOpens Sample.world)) Sample.world.

Definition afterSecondPayment : World :=
  run (pay (Some Sample.alice) 77 5004 (result aliceOpens Sample.world))
      (later 5000 afterFirstPayment).

(** Bob has his fine open too and pays it in the millisecond in which
    Alice pays hers; the two draws of [Math.random] agree. *)
Definition bobOpens : M FineDetailsScreen.State :=
  FineDetailsScreen.fetchFineDetails (Some 21) (Some Sample.bob)
    FineDetailsScreen.initial.

Definition afterBothPaid : World :=
  run (pay (Some Sample.bob) 42 2002 (result bobOpens Sample.world)) afterFirstPayment.

(** ** Closing a complaint (C8) *)

(** The staff member presses "Resolve" on Alice's pending complaint, which
    has no response, and confirms. *)
Definition afterQuickResolve : World :=
  run (ComplaintReviewScreen.handleStatusChange (Some Sample.staffer)
         [Sample.complaint1] 30 resolved true) Sample.world.

(** The staff member rejects it through the response form instead. *)
Definition afterRejection : World :=
  run (ComplaintReviewScreen.handleSubmitResponse (Some Sample.staffer)
         [Sample.complaint1] (Some Sample.complaint1) rejected "No grounds")
      Sample.world.

(** What closing leaves on a complaint: a resolved one has its resolver
    and its resolution time, a rejected one a response that is not empty. *)
Definition closedProperly (c : Complaint) : Prop :=
  match complaint_status c with
  | resolved => resolved_at c <> None /\ resolved_by c <> None
  | rejected => Str.truthyOpt (response c) = true
  | _ => True
  end.

Definition complaintsClosedProperly (d : DB) : Prop :=
  Forall closedProperly (complaints d).

(** ** Recording a tow for an unknown plate (C9) *)

(** The form passes the validation of [handleSubmitTow]. *)
Definition valid (f : RecordTowScreen.Form) : bool :=
  Str.truthy (Str.trim (RecordTowScreen.licensePlate f))
  && Str.truthy (Str.trim (RecordTowScreen.location f))
  && Str.truthy (Str.trim (RecordTowScreen.reason f))
  && negb (RecordTowScreen.issueFineToo f
           && (negb (Str.truthy (Str.trim (RecordTowScreen.fineAmount f)))
               || RecordTowScreen.isNaN (Str.parseFloat (RecordTowScreen.fineAmount f))))
  && negb (RecordTowScreen.issueFineToo f
           && negb (Str.truthy (Str.trim (RecordTowScreen.fineDescription f)))).

(** The outcome of the request after the next [n]. *)
Definition answersAt (n : nat) (w : World) : bool := nth n (net w) true.

(** An operator records a tow for the plate " xyz999 " that no row
    matches, giving a colour and neither make nor model. *)
Definition unknownPlateForm : RecordTowScreen.Form :=
  RecordTowScreen.mkForm " xyz999 " "Main Street" "Blocking a driveway" 1500 ""
    "" "" "green" "" None true false "" "".




(** ** Partial failure while recording a tow (C10) *)





(** The store accepts the tow and then fails on the fine. *)
Definition fineForm : RecordTowScreen.Form :=
  RecordTowScreen.mkForm "ABC123" "Main Street" "Blocking a driveway" 1500 ""
    "Toyota" "Corolla" "blue" "" (Some Sample.car1) false true "80" "Towing fee".

(** ** Looking a plate up in two passes (C3) *)

(** The rows each pass finds. *)
Definition exactRows (p : string) (d : DB) : list Vehicle :=
  filter (fun v => license_plate v =? p) (vehicles d).

Definition similarRows (p : string) (d : DB) : list Vehicle :=
  filter (fun v => Store.ilike p (license_plate v)) (vehicles d).

Definition exactPass (p : string) : Request := SelectEq TVehicles "license_plate" p.

Definition fallbackPass (p : string) : Request :=
  SelectIlike TVehicles "license_plate" ("%" ++ p ++ "%").

(** The store of the example holds the plates "ABC123" and "ABC456"; the
    plate looked up is "abc". *)
Definition searchedOnVehicleSearch : VehicleSearchScreen.State * World :=
  VehicleSearchScreen.searchVehicle "abc" VehicleSearchScreen.cleared Sample.world.

Definition searchedOnIssueFine : option Vehicle * World :=
  IssueFineScreen.searchVehicle (Some Sample.staffer) "abc" None Sample.world.

Definition searchedOnRecordTow : RecordTowScreen.Form * World :=
  RecordTowScreen.searchVehicle
    (RecordTowScreen.mkForm "abc" "" "" 0 "" "" "" "" "" None false false "" "")
    Sample.world.

(** * More of the application

    The handlers below are the neighbours of the ones above: the other
    functions of the same screens, and the screens that feed them or read
    what they write. *)

(** ** Email addresses as the forms test them *)

Module Email.

(** The longest prefix without white space, and the rest. *)
Fixpoint takeRun (s : string) : string * string :=
  match s with
  | EmptyString => (EmptyString, EmptyString)
  | String c s' =>
      if Str.isSpace c then (EmptyString, s)
      else let (r, rest) := takeRun s' in (String c r, rest)
  end.

(** A dot that has something after it. *)
Fixpoint dotThenMore (s : string) : bool :=
  match s with
  | EmptyString => false
  | String c s' =>
      (Ascii.eqb c "." && Str.truthy s') || dotThenMore s'
  end.

(** [\S+\.\S+] matched at the start of a run without white space: a dot
    of the run with a character before it and one after it. *)
Definition domainLike (run : string) : bool :=
  match run with
  | EmptyString => false
  | String _ r => dotThenMore r
  end.

(** [/\S+@\S+\.\S+/.test(s)], with [prev] telling whether the character
    before [s] exists and is no white space: somewhere an at sign with a
    character that is no white space before it, and after it a run
    without white space holding a dot with a character on either side. *)
Fixpoint testFrom (prev : bool) (s : string) : bool :=
  match s with
  | EmptyString => false
  | String c s' =>
      (prev && Ascii.eqb c "@" && domainLike (fst (takeRun s')))
      || testFrom (negb (Str.isSpace c)) s'
  end.

Definition test (s : string) : bool := testFrom false s.

End Email.

(** ** LoginScreen: the validation of the form

    Source: src/unnamed/part_003, [validateForm] (lines 13-39). *)

Module LoginForm.

Record Errors := mkErrors { emailError : string; passwordError : string }.

(** [validateForm()]: the two error texts and whether the form is valid. *)
Definition validateForm (email password : string) : Errors * bool :=
  let emailError :=
    if negb (Str.truthy (Str.trim email)) then "Email is required"
    else if negb (Email.test email) then "Email is invalid"
    else "" in
  let passwordError :=
    if negb (Str.truthy password) then "Password is required"
    else if Nat.ltb (String.length password) 6 then "Password must be at least 6 characters"
    else "" in
  (mkErrors emailError passwordError,
   negb (Str.truthy emailError) && negb (Str.truthy passwordError)).

(** [handleLogin()] on the form as typed. *)
Definition submit (email password : string) (auth : Resp (option Id)) : M unit :=
  LoginScreen.handleLogin (snd (validateForm email password)) auth.

End LoginForm.

(** ** SignupScreen

    Source: src/unnamed/part_002, [validateForm] and [handleSignup]. *)

Module SignupScreen.

Record Form := mkForm {
  email : string;
  password : string;
  confirmPassword : string;
  fullName : string;
  (** one of the three role buttons; 'owner' at first *)
  role : string
}.

Record Errors := mkErrors {
  emailError : string;
  passwordError : string;
  confirmPasswordError : string;
  fullNameError : string
}.

Definition validateForm (f : Form) : Errors * bool :=
  let emailError :=
    if negb (Str.truthy (Str.trim (email f))) then "Email is required"
    else if negb (Email.test (email f)) then "Email is invalid"
    else "" in
  let fullNameError :=
    if negb (Str.truthy (Str.trim (fullName f))) then "Full name is required" else "" in
  let passwordError :=
    if negb (Str.truthy (password f)) then "Password is required"
    else if Nat.ltb (String.length (password f)) 6 then "Password must be at least 6 characters"
    else "" in
  let confirmPasswordError :=
    if negb (password f =? confirmPassword f) then "Passwords do not match" else "" in
  (mkErrors emailError passwordError confirmPasswordError fullNameError,
   negb (Str.truthy emailError) && negb (Str.truthy fullNameError)
   && negb (Str.truthy passwordError) && negb (Str.truthy confirmPasswordError)).

(** What the auth service says of the user it has created. *)
Record SignedUp := mkSignedUp {
  user_id : Id;
  (** [user.identities.length] *)
  identities : nat;
  (** whether [user.confirmed_at] is set *)
  confirmed : bool
}.

Definition addProfile (p : Profile) (d : DB) : DB :=
  mkDB (profiles d ++ [p]) (vehicles d) (tows d) (fines d) (complaints d)
       (notifications d) (next_id d).

(** [handleSignup()].  [auth] is the auth service's answer to [signUp]:
    an error, or the user created if any. *)
Definition handleSignup (f : Form) (auth : Resp (option SignedUp)) : M unit :=
  if negb (snd (validateForm f)) then ret tt
  else
    match auth with
    | Error message =>
        consoleError "Signup error:" ;;;
        consoleError "Caught signup error:" ;;;
        alert "Signup Error" (Str.orElse message "Failed to sign up")
    | Data None => alert "Signup Error" "Failed to create user account"
    | Data (Some user) =>
        r <- Store.write (InsertRow TProfiles)
               (addProfile (mkProfile (user_id user) (email f) (Some (fullName f))
                              None (Some (role f))))
               (fun _ => tt) ;;
        match r with
        | Error message =>
            consoleError "Profile creation error:" ;;;
            consoleError "Caught signup error:" ;;;
            alert "Signup Error" (Str.orElse message "Failed to sign up")
        | Data _ =>
            if Nat.eqb (identities user) 0 then
              alert "User Already Exists" "A user with this email already exists."
            else
              alert "Registration Successful"
                (if confirmed user
                 then "Your account has been created successfully! You can now log in."
                 else "Your account has been created! Please check your email to confirm your account before logging in.")
        end
    end.

End SignupScreen.

(** ** AddVehicleScreen: an owner registers a vehicle

    Source: src/unnamed/part_010, [validateForm] and [handleAddVehicle]. *)

Module AddVehicleScreen.

Record Form := mkForm {
  licensePlate : string;
  make : string;
  model : string;
  selectedColor : string;
  registeredName : string
}.

Record Errors := mkErrors {
  licensePlateError : string;
  makeError : string;
  modelError : string;
  colorError : string
}.

Definition validateForm (f : Form) : Errors * bool :=
  (mkErrors
     (if negb (Str.truthy (Str.trim (licensePlate f))) then "License plate is required" else "")
     (if negb (Str.truthy (Str.trim (make f))) then "Vehicle make is required" else "")
     (if negb (Str.truthy (Str.trim (model f))) then "Vehicle model is required" else "")
     (if negb (Str.truthy (selectedColor f)) then "Please select a color" else ""),
   Str.truthy (Str.trim (licensePlate f))
   && Str.truthy (Str.trim (make f))
   && Str.truthy (Str.trim (model f))
   && Str.truthy (selectedColor f)).




End AddVehicleScreen.

(** ** VehicleDetailsScreen: deleting the vehicle shown

    Source: src/app/vehicle-details.tsx, [confirmDeleteVehicle] (lines
    85-108). *)

Module DeleteVehicle.

(** [delete().eq('id', id).eq('owner_id', user)] on the vehicles table. *)
Definition deleteRows (id user : Id) (d : DB) : DB :=
  mkDB (profiles d)
       (filter (fun v => negb (Nat.eqb (vehicle_id v) id
                               && Store.optIdEqb (owner_id v) user))
               (vehicles d))
       (tows d) (fines d) (complaints d) (notifications d) (next_id d).

(** [confirmDeleteVehicle()], with [vehicle] the vehicle the screen
    shows. *)
Definition confirmDeleteVehicle (session : option Id) (vehicle : option Vehicle)
    : M unit :=
  match vehicle, session with
  | Some v, Some user =>
      r <- Store.write (DeleteRow TVehicles (vehicle_id v))
             (deleteRows (vehicle_id v) user) (fun _ => tt) ;;
      match r with
      | Error _ =>
          consoleError "Error deleting vehicle:" ;;;
          alert "Error" "Failed to delete vehicle"
      | Data _ =>
          alert "Success" "Vehicle deleted successfully" ;;;
          router_back
      end
  | _, _ => ret tt
  end.

End DeleteVehicle.

(** ** VehicleListScreen: the search box

    Source: src/src/screens/VehicleListScreen.tsx, the [useEffect] of
    lines 77-90. *)

Module VehicleFilter.

(** The value given to [setFilteredVehicles]. *)
Definition filtered (searchQuery : string) (shown : list Vehicle) : list Vehicle :=
  if Str.trim searchQuery =? "" then shown
  else
    let query := Str.toLowerCase searchQuery in
    filter (fun vehicle =>
              Str.includes query (Str.toLowerCase (license_plate vehicle))
              || Str.includes query (Str.toLowerCase (model vehicle))
              || (Str.truthy (make vehicle)
                  && Str.includes query (Str.toLowerCase (make vehicle)))
              || Str.includes query (Str.toLowerCase (color vehicle)))
           shown.

End VehicleFilter.

(** ** FineDetailsScreen: leaving for the complaint form or the tow

    Source: src/src/screens/FineDetailsScreen.tsx, [handleSubmitComplaint]
    and [handleViewTow] (lines 111-131). *)

Module FineDetailsLinks.

(** The parameters a screen is pushed with. *)
Record ComplaintParams := mkComplaintParams {
  param_fine_id : option Id;
  param_tow_id : option Id;
  param_vehicle_id : option Id;
  param_type : string
}.

(** [handleSubmitComplaint()]: the parameters the complaint form is
    opened with, if it is opened. *)
Definition handleSubmitComplaint (s : FineDetailsScreen.State)
    : M (option ComplaintParams) :=
  match FineDetailsScreen.fineDetails s with
  | None => ret None
  | Some fd =>
      router_push "/complaint" ;;;
      ret (Some (mkComplaintParams
                   (Some (fine_id (FineDetailsScreen.fd_fine fd))) None
                   (Some (fine_vehicle_id (FineDetailsScreen.fd_fine fd))) "fine"))
  end.


(** The complaint form opened with parameters and submitted with the
    subject and description typed: [ComplaintScreen.handleSubmit] on the
    initial state the parameters give. *)
Definition fileComplaint (user : Id) (p : ComplaintParams)
    (subject description : string) : M unit :=
  ComplaintScreen.handleSubmit user subject description
    (Str.orElse (param_type p) "general")
    (param_vehicle_id p) (param_fine_id p) (param_tow_id p).

End FineDetailsLinks.

(** ** Vocabulary of the further properties *)

(** Whether a string starts with white space. *)
Definition startsWithSpace (s : string) : bool :=
  match s with
  | EmptyString => false
  | String c _ => Str.isSpace c
  end.

(** The world once the request [q] has been sent. *)
Definition sent (q : Request) (w : World) : World :=
  mkWorld (db w) (tl (net w)) (q :: reqs w) (alerts w) (console w) (nav w) (clock w).

(** The world with the tables replaced by [d]. *)
Definition stored (d : DB) (w : World) : World :=
  mkWorld d (net w) (reqs w) (alerts w) (console w) (nav w) (clock w).

(** A fine screen opened on the fine [id] by [user]. *)
Definition openFine (id user : Id) : M FineDetailsScreen.State :=
  FineDetailsScreen.fetchFineDetails (Some id) (Some user) FineDetailsScreen.initial.

(** The world once an alert has been shown. *)
Definition alerted (title message : string) (w : World) : World :=
  mkWorld (db w) (net w) (reqs w) (mkAlert title message :: alerts w) (console w)
          (nav w) (clock w).

(** The complaints a list of views shows. *)
Definition complaintsOf (views : list MyComplaintsScreen.ComplaintView) : list Complaint :=
  map MyComplaintsScreen.cv_complaint views.

(** The rows of the tows table each pass of a lookup finds. *)
Definition exactTows (p : string) (d : DB) : list Tow :=
  filter (fun t => tow_license_plate t =? p) (tows d).

Definition similarTows (p : string) (d : DB) : list Tow :=
  filter (fun t => Store.ilike p (tow_license_plate t)) (tows d).

(** A character a [LIKE] pattern reads as other than itself. *)
Definition patternChar (c : ascii) : bool :=
  Ascii.eqb c "%" || Ascii.eqb c "*" || Ascii.eqb c "_" || Ascii.eqb c "\".

(** Text without such characters. *)
Fixpoint patternFree (s : string) : bool :=
  match s with
  | EmptyString => true
  | String c r => negb (patternChar c) && patternFree r
  end.

(** The pattern that stands for a text itself. *)
Fixpoint literals (s : string) : list Store.Token :=
  match s with
  | EmptyString => []
  | String c r => Store.Literal c :: literals r
  end.

(** * Properties *)

(** ** Running a handler against the store *)

Lemma bind_run {A B} (m : M A) (k : A -> M B) (w w' : World) (a : A) :
  m w = (a, w') -> bind m k w = k a w'.
Proof. intros H. unfold bind. now rewrite H. Qed.

Lemma answers_hd (w : World) :
  match net w with [] => true | b :: _ => b end = answers w.
Proof. unfold answers. destruct (net w); reflexivity. Qed.

Lemma answers_sent (q : Request) (w : World) : answers (sent q w) = answersAt 1 w.
Proof. unfold answers, answersAt, sent. simpl. destruct (net w) as [|a [|b l]]; reflexivity. Qed.

Lemma answers_tl (w w' : World) : net w' = tl (net w) -> answers w' = answersAt 1 w.
Proof.
  unfold answers, answersAt. intros ->. destruct (net w) as [|a [|b l]]; reflexivity.
Qed.

Lemma answers_tl2 (w w' : World) :
  net w' = tl (tl (net w)) -> answers w' = answersAt 2 w.
Proof.
  unfold answers, answersAt. intros ->.
  destruct (net w) as [|a [|b [|c l]]]; reflexivity.
Qed.

Lemma select_answered {A} (q : Request) (rows : DB -> A) (w : World) :
  answers w = true -> Store.select q rows w = (Data (rows (db w)), sent q w).
Proof.
  intros H. unfold Store.select, bind, request, getDb, ret.
  rewrite answers_hd, H. reflexivity.
Qed.

Lemma select_failed {A} (q : Request) (rows : DB -> A) (w : World) :
  answers w = false -> Store.select q rows w = (Error Store.unreachable, sent q w).
Proof.
  intros H. unfold Store.select, bind, request, getDb, ret.
  rewrite answers_hd, H. reflexivity.
Qed.

Lemma selectSingle_answered {A} (q : Request) (rows : DB -> list A) (w : World) :
  answers w = true ->
  Store.selectSingle q rows w = (Store.single (rows (db w)), sent q w).
Proof.
  intros H. unfold Store.selectSingle, bind, request, getDb, ret.
  rewrite answers_hd, H. reflexivity.
Qed.

Lemma selectSingle_failed {A} (q : Request) (rows : DB -> list A) (w : World) :
  answers w = false ->
  Store.selectSingle q rows w = (Error Store.unreachable, sent q w).
Proof.
  intros H. unfold Store.selectSingle, bind, request, getDb, ret.
  rewrite answers_hd, H. reflexivity.
Qed.

Lemma write_answered {A} (q : Request) (upd : DB -> DB) (answer : DB -> A) (w : World) :
  answers w = true ->
  Store.write q upd answer w = (Data (answer (db w)), stored (upd (db w)) (sent q w)).
Proof.
  intros H. unfold Store.write, bind, request, getDb, setDb, ret.
  rewrite answers_hd, H. reflexivity.
Qed.

Lemma write_failed {A} (q : Request) (upd : DB -> DB) (answer : DB -> A) (w : World) :
  answers w = false ->
  Store.write q upd answer w = (Error Store.unreachable, sent q w).
Proof.
  intros H. unfold Store.write, bind, request, getDb, setDb, ret.
  rewrite answers_hd, H. reflexivity.
Qed.

Lemma filter_none {A} (p : A -> bool) (l : list A) :
  (forall x, In x l -> p x = false) -> filter p l = [].
Proof.
  induction l as [|x l IH]; simpl; intros H; [reflexivity|].
  rewrite (H x (or_introl eq_refl)). apply IH. intros y Hy. apply H. now right.
Qed.

Lemma filter_map_commute {A} (p : A -> bool) (g : A -> A) (l : list A) :
  (forall x, p (g x) = p x) -> filter p (map g l) = map g (filter p l).
Proof.
  intros H. induction l as [|x l IH]; simpl; [reflexivity|].
  rewrite H. destruct (p x); simpl; now rewrite IH.
Qed.

(** Handlers evaluated on a world given by its fields. *)
Ltac world_cbv :=
  cbv beta iota zeta delta
    [bind now Store.select Store.selectSingle Store.write request getDb setDb ret
     alert consoleError Plates.vehiclesEq Plates.vehiclesIlike Plates.towsEq
     Plates.towsIlike IssueFineScreen.searchFailed
     db net reqs alerts console nav clock tl snd fst result run negb].

(** ** The role router (C1) *)

Lemma router_replace_current (p : string) (w : World) :
  current (run (router_replace p) w) = Some p.
Proof. reflexivity. Qed.

Lemma router_replace_twice (p : string) (w : World) :
  run (router_replace p) (run (router_replace p) w) = run (router_replace p) w.
Proof. reflexivity. Qed.

Lemma router_replace_db (p : string) (w : World) :
  db (run (router_replace p) w) = db w.
Proof. reflexivity. Qed.

Lemma navigate_is_replace (role : option string) (w : World) :
  run (navigateToDashboard role) w = run (router_replace (destination role)) w.
Proof.
  unfold destination, navigateToDashboard.
  destruct role as [r|]; simpl; [|reflexivity].
  destruct (Str.truthy r); simpl; [|reflexivity].
  destruct (Str.toLowerCase r =? "owner"); [reflexivity|].
  destruct (Str.toLowerCase r =? "staff"); [reflexivity|].
  destruct (Str.toLowerCase r =? "officer"); reflexivity.
Qed.

Lemma destination_recognized (r : string) :
  In (Str.toLowerCase r) recognizedRoles ->
  destination (Some r) = "/" ++ Str.toLowerCase r.
Proof.
  unfold destination, navigateToDashboard, recognizedRoles.
  intros Hin.
  assert (Ht : Str.truthy r = true).
  { destruct r; [|reflexivity]. simpl in Hin.
    destruct Hin as [H|[H|[H|[]]]]; discriminate H. }
  simpl. rewrite Ht. simpl.
  destruct Hin as [H|[H|[H|[]]]]; rewrite <- H; reflexivity.
Qed.

Lemma destination_unrecognized (r : string) :
  ~ In (Str.toLowerCase r) recognizedRoles ->
  destination (Some r) = "/login".
Proof.
  unfold destination, navigateToDashboard, recognizedRoles.
  intros Hnin. simpl.
  destruct (Str.truthy r); simpl; [|reflexivity].
  destruct (Str.toLowerCase r =? "owner") eqn:E1.
  { apply String.eqb_eq in E1. exfalso. apply Hnin. rewrite E1. simpl. auto. }
  destruct (Str.toLowerCase r =? "staff") eqn:E2.
  { apply String.eqb_eq in E2. exfalso. apply Hnin. rewrite E2. simpl. auto. }
  destruct (Str.toLowerCase r =? "officer") eqn:E3.
  { apply String.eqb_eq in E3. exfalso. apply Hnin. rewrite E3. simpl. auto. }
  reflexivity.
Qed.

(** C1, as stated, fails: the role "OWNER" is none of the three values
    'owner', 'staff', 'officer', and a session holding it is routed to the
    owner dashboard, not to the login screen. *)
Lemma navigate_uppercase_role_reaches_dashboard :
  ~ In "OWNER" recognizedRoles /\
  current (run (navigateToDashboard (Some "OWNER")) (initWorld emptyDB)) = Some "/owner" /\
  current (run (SplashScreen.effect (Some 7) false (Some "OWNER")) (initWorld emptyDB))
    = Some "/owner".
Proof.
  split; [|split; reflexivity].
  unfold recognizedRoles. simpl.
  intros [H|[H|[H|[]]]]; discriminate H.
Qed.

(** C1, amended: roles are compared after lower-casing.  A session whose
    role is missing, or whose lower-cased role is none of 'owner', 'staff',
    'officer', is routed to the login screen; a role whose lower-cased form
    is one of the three is routed to that dashboard; the splash screen
    routes a finished load without session to the login screen, with a
    session as the router says, and does nothing while loading; routing is
    a function of the role and routing twice is routing once. *)
Theorem navigate_by_lowercased_role (role : option string) (w : World) :
  let w' := run (navigateToDashboard role) w in
  (forall r, role = Some r -> In (Str.toLowerCase r) recognizedRoles ->
             current w' = Some ("/" ++ Str.toLowerCase r)) /\
  ((role = None \/ exists r, role = Some r /\ ~ In (Str.toLowerCase r) recognizedRoles) ->
   current w' = Some "/login") /\
  current w' = Some (destination role) /\
  run (navigateToDashboard role) w' = w' /\
  db w' = db w /\
  (forall user, run (SplashScreen.effect (Some user) false role) w = w') /\
  current (run (SplashScreen.effect None false role) w) = Some "/login" /\
  (forall session, run (SplashScreen.effect session true role) w = w).
Proof.
  intros w'. subst w'.
  rewrite !navigate_is_replace.
  repeat split.
  - intros r -> Hin. rewrite router_replace_current.
    now rewrite destination_recognized.
  - intros [-> | [r [-> Hnin]]]; rewrite router_replace_current.
    + reflexivity.
    + now rewrite destination_unrecognized.
  - intros user. simpl. now rewrite navigate_is_replace.
Qed.

Lemma navigate_by_lowercased_role_witness :
  current (run (navigateToDashboard (Some "Staff")) (initWorld emptyDB)) = Some "/staff" /\
  current (run (navigateToDashboard (Some "admin")) (initWorld emptyDB)) = Some "/login".
Proof.
  split.
  - apply (proj1 (navigate_by_lowercased_role (Some "Staff") (initWorld emptyDB)) "Staff" eq_refl).
    simpl. auto.
  - apply (proj1 (proj2 (navigate_by_lowercased_role (Some "admin") (initWorld emptyDB)))).
    right. exists "admin". split; [reflexivity|].
    simpl. intros [H|[H|[H|[]]]]; discriminate H.
Defined.

(** ** Scoped reads of an owner (C2) *)

(** What a handler reads from the store and what it leaves behind. *)
Lemma select_spec {A} (q : Request) (rows : DB -> A) (w : World) :
  exists ok : bool,
    Store.select q rows w =
      (if ok then Data (rows (db w)) else Error Store.unreachable,
       mkWorld (db w) (tl (net w)) (q :: reqs w) (alerts w) (console w) (nav w) (clock w)).
Proof.
  unfold Store.select, bind, request, getDb, ret. simpl.
  destruct (net w) as [|b n]; [exists true | exists b]; reflexivity.
Qed.

Lemma selectSingle_spec {A} (q : Request) (rows : DB -> list A) (w : World) :
  exists ok : bool,
    Store.selectSingle q rows w =
      (if ok then Store.single (rows (db w)) else Error Store.unreachable,
       mkWorld (db w) (tl (net w)) (q :: reqs w) (alerts w) (console w) (nav w) (clock w)).
Proof.
  unfold Store.selectSingle, bind, request, getDb, ret. simpl.
  destruct (net w) as [|b n]; [exists true | exists b]; reflexivity.
Qed.

Lemma write_spec {A} (q : Request) (upd : DB -> DB) (answer : DB -> A) (w : World) :
  exists ok : bool,
    answers w = ok /\
    Store.write q upd answer w =
      if ok
      then (Data (answer (db w)),
            mkWorld (upd (db w)) (tl (net w)) (q :: reqs w) (alerts w) (console w)
                    (nav w) (clock w))
      else (Error Store.unreachable,
            mkWorld (db w) (tl (net w)) (q :: reqs w) (alerts w) (console w)
                    (nav w) (clock w)).
Proof.
  unfold Store.write, answers. unfold bind, request, getDb, setDb, ret. simpl.
  destruct (net w) as [|b n]; simpl; [exists true | exists b; destruct b]; auto.
Qed.

Lemma single_Data {A} (rows : list A) (r : A) :
  Store.single rows = Data r -> rows = [r].
Proof.
  destruct rows as [|x [|y l]]; simpl; intros H; inversion H; reflexivity.
Qed.

Lemma optIdEqb_true (o : option Id) (i : Id) :
  Store.optIdEqb o i = true <-> o = Some i.
Proof.
  destruct o as [x|]; simpl.
  - rewrite Nat.eqb_eq. split; [intros ->; reflexivity | intros H; now inversion H].
  - split; discriminate.
Qed.

Lemma insertDesc_In {A} (key : A -> Z) (x y : A) (l : list A) :
  In y (Store.insertDesc key x l) <-> y = x \/ In y l.
Proof.
  induction l as [|z l IH]; simpl.
  - intuition.
  - destruct (key z <? key x)%Z; simpl; [intuition|].
    rewrite IH. intuition.
Qed.

Lemma orderDesc_In {A} (key : A -> Z) (y : A) (l : list A) :
  In y (Store.orderDesc key l) <-> In y l.
Proof.
  unfold Store.orderDesc.
  induction l as [|x l IH]; simpl; [reflexivity|].
  rewrite insertDesc_In, IH. intuition.
Qed.

Lemma findVehicle_In (d : DB) (vid : Id) (v : Vehicle) :
  Store.findVehicle d vid = Some v -> In v (vehicles d) /\ vehicle_id v = vid.
Proof.
  unfold Store.findVehicle. intros H. apply find_some in H.
  destruct H as [Hin He]. apply Nat.eqb_eq in He. auto.
Qed.

Lemma fetchVehicles_scoped (user : Id) (w : World) (rows : list Vehicle) :
  result (VehicleListScreen.fetchVehicles (Some user)) w = Some rows ->
  forall v, In v rows -> In v (vehicles (db w)) /\ ownVehicle user v.
Proof.
  unfold result, VehicleListScreen.fetchVehicles, bind.
  destruct (select_spec (SelectEqId TVehicles "owner_id" user)
              (fun d => filter (fun v => Store.optIdEqb (owner_id v) user) (vehicles d)) w)
    as [ok ->].
  destruct ok; simpl; intros H; inversion H; subst.
  intros v Hin. apply filter_In in Hin. destruct Hin as [Hin Ho].
  split; [assumption | now apply optIdEqb_true].
Qed.

Lemma fetchVehicleDetails_scoped (id user : Id) (w : World) (v : Vehicle) :
  result (VehicleDetailsScreen.fetchVehicleDetails (Some id) (Some user) None) w = Some v ->
  In v (vehicles (db w)) /\ vehicle_id v = id /\ ownVehicle user v.
Proof.
  unfold result, VehicleDetailsScreen.fetchVehicleDetails, bind.
  destruct (selectSingle_spec (SelectById TVehicles id)
              (fun d => filter (fun v => Nat.eqb (vehicle_id v) id
                                         && Store.optIdEqb (owner_id v) user)
                               (vehicles d)) w) as [ok ->].
  destruct ok; simpl; [|discriminate].
  destruct (Store.single _) as [r|e] eqn:Hs; simpl; [|discriminate].
  intros H; inversion H; subst. apply single_Data in Hs.
  assert (Hin : In v (filter (fun v => Nat.eqb (vehicle_id v) id
                                       && Store.optIdEqb (owner_id v) user)
                             (vehicles (db w)))) by (rewrite Hs; simpl; auto).
  apply filter_In in Hin. destruct Hin as [Hin Hb].
  apply andb_true_iff in Hb. destruct Hb as [Hi Ho].
  apply Nat.eqb_eq in Hi. apply optIdEqb_true in Ho. auto.
Qed.

Lemma fetchComplaints_scoped (user : Id) (w : World)
    (views : list MyComplaintsScreen.ComplaintView) :
  result (MyComplaintsScreen.fetchComplaints (Some user)) w = Some views ->
  forall cv, In cv views ->
    In (MyComplaintsScreen.cv_complaint cv) (complaints (db w)) /\
    ownComplaint user (MyComplaintsScreen.cv_complaint cv).
Proof.
  unfold result, MyComplaintsScreen.fetchComplaints.
  unfold bind at 1.
  destruct (select_spec (SelectEqId TComplaints "user_id" user)
              (fun d => Store.orderDesc complaint_created_at
                          (filter (fun c => Nat.eqb (complaint_user_id c) user)
                                  (complaints d))) w) as [ok ->].
  destruct ok; [|simpl; discriminate].
  set (data := Store.orderDesc complaint_created_at
                 (filter (fun c => Nat.eqb (complaint_user_id c) user) (complaints (db w)))).
  assert (Hdata : forall c, In c data -> In c (complaints (db w)) /\ ownComplaint user c).
  { intros c Hc. apply orderDesc_In in Hc. apply filter_In in Hc.
    destruct Hc as [Hin He]. apply Nat.eqb_eq in He. auto. }
  destruct data as [|c0 data'] eqn:Ed.
  - simpl. intros H; inversion H; subst. intros cv [].
  - unfold bind.
    destruct (MyComplaintsScreen.related TVehicles _ vehicle_id vehicles _) as [vs w1].
    destruct (MyComplaintsScreen.related TTows _ tow_id tows _) as [ts w2].
    destruct (MyComplaintsScreen.related TFines _ fine_id fines _) as [fs w3].
    simpl. intros H; inversion H; subst. clear H.
    intros cv [Hcv | Hcv].
    + subst cv. simpl. apply Hdata. simpl; auto.
    + apply in_map_iff in Hcv. destruct Hcv as [c [Hc Hin]].
      subst cv. simpl. apply Hdata. simpl; auto.
Qed.

(** An owner's read of one fine: the fine is kept only with its vehicle
    owned by the reader. *)
Lemma fetchFineDetails_scoped (id user : Id) (w : World)
    (fd : FineDetailsScreen.FineDetails) :
  FineDetailsScreen.fineDetails
    (result (FineDetailsScreen.fetchFineDetails (Some id) (Some user)
               FineDetailsScreen.initial) w) = Some fd ->
  In (FineDetailsScreen.fd_fine fd) (fines (db w)) /\
  fine_id (FineDetailsScreen.fd_fine fd) = id /\
  fineOfOwnVehicle (db w) user (FineDetailsScreen.fd_fine fd).
Proof.
  unfold result, FineDetailsScreen.fetchFineDetails, bind.
  destruct (selectSingle_spec (SelectById TFines id)
              (fun d => map (fun f => (f, Store.findVehicle d (fine_vehicle_id f)))
                            (filter (fun f => Nat.eqb (fine_id f) id) (fines d))) w)
    as [ok ->].
  destruct ok; simpl; [|discriminate].
  destruct (Store.single _) as [[f [v|]]|e] eqn:Hs; simpl; try discriminate.
  destruct (Store.optIdEqb (owner_id v) user) eqn:Ho; simpl; [|discriminate].
  intros H; inversion H; subst; simpl. clear H.
  apply single_Data in Hs.
  assert (Hin : In (f, Some v)
                   (map (fun f => (f, Store.findVehicle (db w) (fine_vehicle_id f)))
                        (filter (fun f => Nat.eqb (fine_id f) id) (fines (db w)))))
    by (rewrite Hs; simpl; auto).
  apply in_map_iff in Hin. destruct Hin as [f' [Hf Hin]].
  inversion Hf; subst f'. apply filter_In in Hin. destruct Hin as [Hin Hi].
  apply Nat.eqb_eq in Hi. apply findVehicle_In in H1. destruct H1 as [Hv Hvid].
  apply optIdEqb_true in Ho.
  repeat split; auto. exists v. auto.
Qed.

(** An owner reading a fine on somebody else's vehicle: the store answers
    with the row, and the handler shows an error, goes back and keeps no
    row. *)
Lemma fetchFineDetails_foreign (id user : Id) (w : World) (f : Fine) (v : Vehicle) :
  hd true (net w) = true ->
  filter (fun f => Nat.eqb (fine_id f) id) (fines (db w)) = [f] ->
  Store.findVehicle (db w) (fine_vehicle_id f) = Some v ->
  owner_id v <> Some user ->
  let out := FineDetailsScreen.fetchFineDetails (Some id) (Some user)
               FineDetailsScreen.initial w in
  FineDetailsScreen.fineDetails (fst out) = None /\
  alerts (snd out) =
    mkAlert "Error" "You are not authorized to view this fine record" :: alerts w /\
  nav (snd out) = tl (nav w) /\
  db (snd out) = db w.
Proof.
  intros Hnet Hrow Hveh Hown.
  unfold FineDetailsScreen.fetchFineDetails, Store.selectSingle, bind, request, getDb, ret.
  simpl.
  assert (Hok : match net w with [] => true | b :: _ => b end = true)
    by (destruct (net w); simpl in *; auto).
  rewrite Hok, Hrow. simpl. rewrite Hveh.
  destruct (Store.optIdEqb (owner_id v) user) eqn:Ho.
  - apply optIdEqb_true in Ho. contradiction.
  - simpl. auto.
Qed.

Lemma fetchTowDetails_scoped (id user : Id) (w : World) (t : Tow) (v : Vehicle) :
  result (TowDetailsScreen.fetchTowDetails (Some id) (Some user) None) w = Some (t, v) ->
  In t (tows (db w)) /\ tow_id t = id /\ towOfOwnVehicle (db w) user t.
Proof.
  unfold result, TowDetailsScreen.fetchTowDetails, bind.
  match goal with
  | |- context [Store.selectSingle ?q ?rows w] =>
      destruct (selectSingle_spec q rows w) as [ok ->]
  end.
  destruct ok; simpl; [|discriminate].
  destruct (Store.single _) as [[t' v']|e] eqn:Hs; simpl; [|discriminate].
  destruct (Store.optIdEqb (owner_id v') user) eqn:Ho; simpl; [|discriminate].
  intros H; inversion H; subst; clear H.
  apply single_Data in Hs.
  match type of Hs with
  | ?l = _ => assert (Hin : In (t, v) l) by (rewrite Hs; simpl; auto)
  end.
  apply in_flat_map in Hin. destruct Hin as [t0 [Hin0 Hin]].
  apply filter_In in Hin0. destruct Hin0 as [Hint Hid]. apply Nat.eqb_eq in Hid.
  destruct (tow_vehicle_id t0) as [vid|] eqn:Ev; [|destruct Hin].
  destruct (Store.findVehicle (db w) vid) as [v0|] eqn:Ef; [|destruct Hin].
  destruct Hin as [Hin|[]]. inversion Hin; subst t0 v0; clear Hin.
  apply findVehicle_In in Ef. destruct Ef as [Hv Hvid].
  apply optIdEqb_true in Ho.
  repeat split; auto. exists v. rewrite Ev, Hvid. auto.
Qed.

(** The lists of an owner hand every fine and every tow that passes the
    filter bar to the screen, whoever owns the vehicle. *)
Lemma fetchFineHistory_rows (user : Id) (selectedVehicleId : option Id)
    (statusFilter : option FineStatus) (w : World) :
  answers w = true ->
  exists rows,
    result (FineHistoryScreen.fetchFineHistory (Some user) selectedVehicleId statusFilter) w
      = Some rows /\
    forall f, In f (fines (db w)) ->
              FineHistoryScreen.chosen selectedVehicleId statusFilter f = true ->
              In f (map FineHistoryScreen.fr_fine rows).
Proof.
  intros Hnet. unfold result, FineHistoryScreen.fetchFineHistory.
  erewrite bind_run by (apply select_answered; exact Hnet).
  cbv beta. eexists. split; [reflexivity|].
  intros f Hin Hc. rewrite map_map. cbn [FineHistoryScreen.fr_fine].
  rewrite map_id. apply orderDesc_In. apply filter_In. auto.
Qed.

Lemma fetchTowHistory_rows (user : Id) (selectedVehicleId : option Id) (w : World) :
  answers w = true ->
  exists rows,
    result (TowHistoryScreen.fetchTowHistory (Some user) selectedVehicleId) w = Some rows /\
    forall t, In t (tows (db w)) ->
              TowHistoryScreen.chosen selectedVehicleId t = true ->
              In t (map TowHistoryScreen.tr_tow rows).
Proof.
  intros Hnet. unfold result, TowHistoryScreen.fetchTowHistory.
  erewrite bind_run by (apply select_answered; exact Hnet).
  cbv beta. eexists. split; [reflexivity|].
  intros t Hin Hc. rewrite map_map. cbn [TowHistoryScreen.tr_tow].
  rewrite map_id. apply orderDesc_In. apply filter_In. auto.
Qed.

(** C2, the claim against the code: the fine list and the tow list of an
    owner are not scoped.  In the store of the example Alice owns car 10
    and Bob car 11; fine 21 is on Bob's car and tow 40 is a tow of Bob's
    car.  Alice's fine history lists fine 21, with no vehicle embedded,
    next to her own fine 20; her tow history lists tow 40.  Neither row is
    one the scoping rules permit her.  The screens that read one record
    do scope: asked for fine 21, the fine details screen shows "not
    authorized" and keeps no row, and asked for tow 40 so does the tow
    details screen. *)
Theorem owner_lists_not_scoped :
  (exists rows,
     aliceFineHistory = Some rows /\
     In (FineHistoryScreen.mkFineRow Sample.fine2 None) rows /\
     In (FineHistoryScreen.mkFineRow Sample.fine1 (Some Sample.car1)) rows) /\
  In Sample.fine2 (fines Sample.store) /\
  ~ fineOfOwnVehicle Sample.store Sample.alice Sample.fine2 /\
  aliceTowHistory = Some [TowHistoryScreen.mkTowRow bobsTow None] /\
  ~ towOfOwnVehicle towedStore Sample.alice bobsTow /\
  (let out := FineDetailsScreen.fetchFineDetails (Some 21) (Some Sample.alice)
                FineDetailsScreen.initial Sample.world in
   FineDetailsScreen.fineDetails (fst out) = None /\
   alerts (snd out) = [mkAlert "Error" "You are not authorized to view this fine record"]) /\
  (let out := TowDetailsScreen.fetchTowDetails (Some 40) (Some Sample.alice) None
                towedWorld in
   fst out = None /\
   alerts (snd out) = [mkAlert "Error" "You are not authorized to view this tow record"]).
Proof.
  split; [eexists; split; [reflexivity|]; split; simpl; auto|].
  split; [simpl; auto|].
  split.
  { intros [v [Hin [Hid Hown]]]. simpl in Hin.
    destruct Hin as [<-|[<-|[]]]; [discriminate Hid|discriminate Hown]. }
  split; [reflexivity|].
  split.
  { intros [v [Hin [Hid Hown]]]. simpl in Hin.
    destruct Hin as [<-|[<-|[]]]; [discriminate Hid|discriminate Hown]. }
  split; split; reflexivity.
Qed.

(** ** The role lookup (C4) *)

Lemma profileRole_spec (user : Id) (w : World) :
  SessionContext.profileRole user w =
    (lookupAnswer user w,
     mkWorld (db w) (tl (net w)) (SelectById TProfiles user :: reqs w)
             (alerts w) (console w) (nav w) (clock w)).
Proof.
  unfold SessionContext.profileRole, Store.selectSingle, lookupAnswer, answers,
    bind, request, getDb, ret, rolesOf.
  simpl. destruct (net w) as [|b n]; reflexivity.
Qed.

Lemma fetchUserRole_spec (user : Id) (w : World) :
  result (SessionContext.fetchUserRole user) w =
    match lookupAnswer user w with
    | Data role => if Str.truthyOpt role then role else None
    | Error _ => None
    end /\
  alerts (run (SessionContext.fetchUserRole user) w) = alerts w /\
  nav (run (SessionContext.fetchUserRole user) w) = nav w.
Proof.
  unfold result, run, SessionContext.fetchUserRole, bind.
  rewrite profileRole_spec.
  destruct (lookupAnswer user w) as [role|e]; simpl; auto.
Qed.

(** C4, as stated, fails on [fetchUserRole]: an unrecognized role is not
    turned into [null] but kept as it is, and a lookup that fails because
    the store is unreachable ends exactly like one that finds no profile
    row: the role is [null], one line is logged, nothing is shown. *)
Lemma fetchUserRole_keeps_unknown_and_folds_failure :
  (~ In "admin" recognizedRoles /\
   result (SessionContext.fetchUserRole Sample.stranger) Sample.world = Some "admin") /\
  (rolesOf 99 Sample.store = [] /\
   result (SessionContext.fetchUserRole 99) Sample.world = None /\
   result (SessionContext.fetchUserRole Sample.alice) Sample.offline = None /\
   alerts (run (SessionContext.fetchUserRole Sample.alice) Sample.offline)
     = alerts (run (SessionContext.fetchUserRole 99) Sample.world) /\
   console (run (SessionContext.fetchUserRole Sample.alice) Sample.offline)
     = console (run (SessionContext.fetchUserRole 99) Sample.world)).
Proof.
  split.
  - split; [|reflexivity].
    simpl. intros [H|[H|[H|[]]]]; discriminate H.
  - repeat split; reflexivity.
Qed.

(** C4, amended.  [fetchUserRole] yields [null] when the lookup comes back
    with an error, which is the case both when no profile row exists and
    when the store does not answer, and when the role stored is [null] or
    empty; any other role stored, recognized or not, is yielded as it is
    (the router sends an unrecognized one to the login screen); nothing is
    shown to the user.  [handleLogin] shows "Profile Error" and stays on
    the login screen when its lookup comes back with an error, shows "Role
    Error" and stays when the role is missing, empty or unrecognized, and
    replaces the screen by the dashboard of a recognized role. *)
Theorem role_lookup_outcomes (user : Id) (w : World) :
  let role := result (SessionContext.fetchUserRole user) w in
  let w1 := run (SessionContext.fetchUserRole user) w in
  let w2 := run (LoginScreen.handleLogin true (Data (Some user))) w in
  (* the lookup comes back with an error *)
  ((answers w = false \/ rolesOf user (db w) = []) ->
   role = None /\
   alerts w2 = mkAlert "Profile Error" "Could not fetch user profile" :: alerts w /\
   nav w2 = nav w) /\
  (* the lookup comes back with the one profile row *)
  (forall stored, answers w = true -> rolesOf user (db w) = [stored] ->
     (Str.truthyOpt stored = false ->
      role = None /\
      alerts w2 = mkAlert "Role Error" "No role assigned to user" :: alerts w /\
      nav w2 = nav w) /\
     (forall r, stored = Some r -> r <> "" ->
        role = Some r /\
        current (run (navigateToDashboard role) w) = Some (destination (Some r)) /\
        (In (Str.toLowerCase r) recognizedRoles ->
         nav w2 = ("/" ++ Str.toLowerCase r) :: tl (nav w) /\ alerts w2 = alerts w) /\
        (~ In (Str.toLowerCase r) recognizedRoles ->
         destination (Some r) = "/login" /\
         alerts w2 = mkAlert "Role Error" ("Unknown role: " ++ r) :: alerts w /\
         nav w2 = nav w))) /\
  (* the session context shows nothing and does not navigate *)
  alerts w1 = alerts w /\ nav w1 = nav w.
Proof.
  intros role w1 w2. subst role w1 w2.
  destruct (fetchUserRole_spec user w) as [Hr [Ha Hn]].
  rewrite Hr.
  unfold run, LoginScreen.handleLogin. simpl. unfold bind.
  rewrite profileRole_spec.
  unfold lookupAnswer.
  split; [|split; [|auto]].
  - intros [Hf | Hnone].
    + rewrite Hf. simpl. auto.
    + rewrite Hnone. destruct (answers w); simpl; auto.
  - intros stored Hok Hrow. rewrite Hok, Hrow. simpl.
    split.
    + intros Hfalsy. rewrite Hfalsy. simpl. auto.
    + intros r -> Hne.
      assert (Ht : Str.truthy r = true) by (destruct r; [contradiction|reflexivity]).
      simpl. rewrite Ht. simpl.
      split; [reflexivity|].
      split; [pose proof (navigate_is_replace (Some r) w) as Hnav; unfold run in Hnav;
              rewrite Hnav; reflexivity|].
      split.
      * intros Hin. unfold recognizedRoles in Hin.
        destruct Hin as [H|[H|[H|[]]]]; rewrite <- H; simpl; auto.
      * intros Hnin. split; [now apply destination_unrecognized|].
        destruct (Str.toLowerCase r =? "owner") eqn:E1.
        { apply String.eqb_eq in E1. exfalso. apply Hnin. rewrite E1. simpl. auto. }
        destruct (Str.toLowerCase r =? "staff") eqn:E2.
        { apply String.eqb_eq in E2. exfalso. apply Hnin. rewrite E2. simpl. auto. }
        destruct (Str.toLowerCase r =? "officer") eqn:E3.
        { apply String.eqb_eq in E3. exfalso. apply Hnin. rewrite E3. simpl. auto. }
        simpl. auto.
Qed.

Lemma role_lookup_outcomes_witness :
  result (SessionContext.fetchUserRole Sample.alice) Sample.offline = None /\
  result (SessionContext.fetchUserRole Sample.staffer) Sample.world = Some "staff".
Proof.
  split.
  - apply (proj1 (role_lookup_outcomes Sample.alice Sample.offline)).
    left. reflexivity.
  - apply (proj2 (proj1 (proj2 (role_lookup_outcomes Sample.staffer Sample.world))
                    (Some "staff") eq_refl eq_refl) "staff" eq_refl).
    discriminate.
Defined.

(** ** Invariants of the tables *)

Section Keeps.

Variable P : DB -> Prop.

Lemma keeps_ret {A} (a : A) : keeps P (ret a).
Proof. intros w H. exact H. Qed.

Lemma keeps_bind {A B} (m : M A) (k : A -> M B) :
  keeps P m -> (forall a, keeps P (k a)) -> keeps P (bind m k).
Proof.
  intros Hm Hk w H. unfold bind.
  specialize (Hm w H). destruct (m w) as [a w1]. simpl in Hm.
  exact (Hk a w1 Hm).
Qed.

Lemma keeps_alert (t m : string) : keeps P (alert t m).
Proof. intros w H. exact H. Qed.

Lemma keeps_consoleError (l : string) : keeps P (consoleError l).
Proof. intros w H. exact H. Qed.

Lemma keeps_router_replace (p : string) : keeps P (router_replace p).
Proof. intros w H. exact H. Qed.

Lemma keeps_router_back : keeps P router_back.
Proof. intros w H. exact H. Qed.

Lemma keeps_now : keeps P now.
Proof. intros w H. exact H. Qed.

Lemma keeps_getDb : keeps P getDb.
Proof. intros w H. exact H. Qed.

Lemma keeps_request (q : Request) : keeps P (request q).
Proof. intros w H. exact H. Qed.

Lemma keeps_select {A} (q : Request) (rows : DB -> A) : keeps P (Store.select q rows).
Proof.
  intros w H. destruct (select_spec q rows w) as [ok ->]. exact H.
Qed.

Lemma keeps_selectSingle {A} (q : Request) (rows : DB -> list A) :
  keeps P (Store.selectSingle q rows).
Proof.
  intros w H. destruct (selectSingle_spec q rows w) as [ok ->]. exact H.
Qed.

Lemma keeps_write {A} (q : Request) (upd : DB -> DB) (answer : DB -> A) :
  (forall d, P d -> P (upd d)) -> keeps P (Store.write q upd answer).
Proof.
  intros Hupd w H.
  unfold Store.write, bind, request, getDb, setDb, ret. simpl.
  destruct (match net w with [] => true | b :: _ => b end); simpl; auto.
Qed.

End Keeps.

(** Handlers are taken apart along their binds and case distinctions;
    what is left are the writes. *)
Ltac keeps_step :=
  lazymatch goal with
  | |- keeps _ (bind _ _) => apply keeps_bind; [|intros ?]
  | |- keeps _ (ret _) => apply keeps_ret
  | |- keeps _ (alert _ _) => apply keeps_alert
  | |- keeps _ (consoleError _) => apply keeps_consoleError
  | |- keeps _ (router_replace _) => apply keeps_router_replace
  | |- keeps _ router_back => apply keeps_router_back
  | |- keeps _ now => apply keeps_now
  | |- keeps _ getDb => apply keeps_getDb
  | |- keeps _ (request _) => apply keeps_request
  | |- keeps _ (Store.select _ _) => apply keeps_select
  | |- keeps _ (Store.selectSingle _ _) => apply keeps_selectSingle
  | |- keeps _ (match ?x with _ => _ end) => destruct x
  end.

Ltac keeps_auto := repeat keeps_step.

(** ** The life cycle of a fine (C5) *)

Lemma markPaid_paired (t : Z) (tx : string) (f : Fine) :
  paymentPaired (FineDetailsScreen.markPaid t tx f).
Proof. unfold paymentPaired. simpl. split; discriminate. Qed.

Lemma payRows_paired (id vid : Id) (t : Z) (tx : string) (d : DB) :
  finesPaired d -> finesPaired (FineDetailsScreen.payRows id vid t tx d).
Proof.
  unfold finesPaired. simpl. intros H.
  induction H as [|f l Hf Hl IH]; simpl; constructor; auto.
  destruct (Nat.eqb (fine_id f) id && Nat.eqb (fine_vehicle_id f) vid); auto.
  apply markPaid_paired.
Qed.

Lemma addFine_paired (f : Fine) (d : DB) :
  paymentPaired f -> finesPaired d -> finesPaired (IssueFineScreen.addFine f d).
Proof.
  unfold finesPaired. simpl. intros Hf H.
  apply Forall_app. split; auto.
Qed.

Lemma processPayment_keeps (session : option Id) (rand settled : Z)
    (s : FineDetailsScreen.State) :
  keeps finesPaired (FineDetailsScreen.processPayment session rand settled s).
Proof.
  unfold FineDetailsScreen.processPayment. keeps_auto.
  apply keeps_write. intros d. apply payRows_paired.
Qed.

Lemma issueFine_keeps (session : option Id) (vehicle : option Vehicle)
    (form : IssueFineScreen.FineForm) :
  keeps finesPaired (IssueFineScreen.issueFine session vehicle form).
Proof.
  unfold IssueFineScreen.issueFine. keeps_auto.
  apply keeps_write. intros d. apply addFine_paired.
  unfold paymentPaired. simpl. auto.
Qed.

Lemma handleSubmitTow_keeps (session : option Id) (f : RecordTowScreen.Form) :
  keeps finesPaired (RecordTowScreen.handleSubmitTow session f).
Proof.
  unfold RecordTowScreen.handleSubmitTow, RecordTowScreen.recordTow,
    RecordTowScreen.resolveVehicle, RecordTowScreen.notifyOwner, RecordTowScreen.failed.
  keeps_auto; try (apply keeps_write; intros d Hd; exact Hd).
  apply keeps_write. intros d. apply addFine_paired.
  unfold paymentPaired. simpl. auto.
Qed.

Lemma updateComplaintStatus_keeps_fines session shown id newStatus resp :
  keeps finesPaired
    (ComplaintReviewScreen.updateComplaintStatus session shown id newStatus resp).
Proof.
  unfold ComplaintReviewScreen.updateComplaintStatus.
  keeps_auto; apply keeps_write; intros d Hd; exact Hd.
Qed.

Lemma step_keeps_finesPaired (w w' : World) :
  step w w' -> finesPaired (db w) -> finesPaired (db w').
Proof.
  intros Hs H. destruct Hs.
  - unfold finesPaired in *. congruence.
  - now apply issueFine_keeps.
  - now apply handleSubmitTow_keeps.
  - now apply processPayment_keeps.
  - revert H. unfold run. generalize w. fold (keeps finesPaired
      (ComplaintScreen.handleSubmit user subject description type vehicleId fineId towId)).
    unfold ComplaintScreen.handleSubmit.
    keeps_auto. apply keeps_write. intros d Hd. exact Hd.
  - revert H. unfold run. generalize w. fold (keeps finesPaired
      (ComplaintReviewScreen.handleStatusChange session shown id newStatus confirmed)).
    unfold ComplaintReviewScreen.handleStatusChange.
    keeps_auto; apply updateComplaintStatus_keeps_fines.
  - revert H. unfold run. generalize w. fold (keeps finesPaired
      (ComplaintReviewScreen.handleSubmitResponse session shown selected status text)).
    unfold ComplaintReviewScreen.handleSubmitResponse.
    keeps_auto. apply updateComplaintStatus_keeps_fines.
Qed.

Lemma reachable_finesPaired (w0 w : World) :
  finesPaired (db w0) -> reachable w0 w -> finesPaired (db w).
Proof.
  intros H0 Hr. induction Hr as [|w w' Hr IH Hs]; [assumption|].
  eapply step_keeps_finesPaired; eauto.
Qed.

(** What one payment does to the store: one update request, which marks
    the rows with the identifier and the vehicle of the fine on the screen
    paid when the store answers, and changes nothing when it does not. *)
Lemma processPayment_answered (user : Id) (rand settled : Z)
    (s : FineDetailsScreen.State) (fd : FineDetailsScreen.FineDetails) (w : World) :
  FineDetailsScreen.fineDetails s = Some fd ->
  answers w = true ->
  let f := FineDetailsScreen.fd_fine fd in
  let w' := run (FineDetailsScreen.processPayment (Some user) rand settled s) w in
  db w' = FineDetailsScreen.payRows (fine_id f) (fine_vehicle_id f) (clock w)
            (FineDetailsScreen.mockTransactionId rand (clock w)) (db w) /\
  reqs w' = UpdateRow TFines (fine_id f) :: reqs w.
Proof.
  intros Hfd Hnet f w'. subst f w'.
  unfold run, FineDetailsScreen.processPayment. rewrite Hfd.
  erewrite (@bind_run _ _ now) by reflexivity. cbv beta zeta.
  erewrite bind_run by (apply write_answered; exact Hnet).
  cbv beta.
  destruct (FineDetailsScreen.amountText (FineDetailsScreen.fd_fine fd)); split; reflexivity.
Qed.

Lemma processPayment_unanswered (user : Id) (rand settled : Z)
    (s : FineDetailsScreen.State) (fd : FineDetailsScreen.FineDetails) (w : World) :
  FineDetailsScreen.fineDetails s = Some fd ->
  answers w = false ->
  let w' := run (FineDetailsScreen.processPayment (Some user) rand settled s) w in
  db w' = db w /\
  reqs w' = UpdateRow TFines (fine_id (FineDetailsScreen.fd_fine fd)) :: reqs w.
Proof.
  intros Hfd Hnet w'. subst w'.
  unfold run, FineDetailsScreen.processPayment. rewrite Hfd.
  erewrite (@bind_run _ _ now) by reflexivity. cbv beta zeta.
  erewrite bind_run by (apply write_failed; exact Hnet).
  split; reflexivity.
Qed.

Lemma payRows_rows (id vid : Id) (t : Z) (tx : string) (l : list Fine) :
  Forall2 (fun g g' =>
             if Nat.eqb (fine_id g) id && Nat.eqb (fine_vehicle_id g) vid
             then g' = FineDetailsScreen.markPaid t tx g
             else g' = g)
          l
          (map (fun f => if Nat.eqb (fine_id f) id && Nat.eqb (fine_vehicle_id f) vid
                         then FineDetailsScreen.markPaid t tx f else f) l).
Proof.
  induction l as [|g l IH]; cbn [map]; constructor; [|exact IH].
  destruct (Nat.eqb (fine_id g) id && Nat.eqb (fine_vehicle_id g) vid); reflexivity.
Qed.

(** The text of a number has no hyphen unless the number is negative. *)
Lemma string_of_uint_hyphenFree (d : Decimal.uint) :
  hyphenFree (NilEmpty.string_of_uint d) = true.
Proof. induction d; cbn [NilEmpty.string_of_uint hyphenFree]; auto. Qed.

Lemma ofZ_hyphenFree (z : Z) : (0 <= z)%Z -> hyphenFree (Str.ofZ z) = true.
Proof.
  intros Hz. unfold Str.ofZ. destruct z as [|p|p]; [reflexivity| |lia].
  cbn [Z.to_int NilZero.string_of_int]. unfold NilZero.string_of_uint.
  destruct (Pos.to_uint p) eqn:E; [reflexivity|..]; apply string_of_uint_hyphenFree.
Qed.

Lemma ofZ_inj (a b : Z) : Str.ofZ a = Str.ofZ b -> a = b.
Proof.
  unfold Str.ofZ. intros H. apply DecimalZ.to_int_inj.
  assert (Hn : forall z, Z.to_int z <> Decimal.Pos Decimal.Nil /\
                         Z.to_int z <> Decimal.Neg Decimal.Nil).
  { intros [|p|p]; cbn [Z.to_int]; split; try discriminate;
      intros Heq; injection Heq; apply Unsigned.to_uint_nonnil. }
  apply (f_equal NilZero.int_of_string) in H.
  rewrite !NilZero.isi in H by apply Hn.
  now injection H.
Qed.

Lemma hyphen_splits (a a' b b' : string) :
  hyphenFree a = true -> hyphenFree a' = true ->
  a ++ "-" ++ b = a' ++ "-" ++ b' -> a = a' /\ b = b'.
Proof.
  revert a'. induction a as [|c a IH]; intros [|c' a'] Ha Ha' H.
  - cbn in H. injection H as H. auto.
  - cbn in H. injection H as Hc _. cbn in Ha'. rewrite <- Hc in Ha'. discriminate Ha'.
  - cbn in H. injection H as Hc _. cbn in Ha. rewrite Hc in Ha. discriminate Ha.
  - cbn [append] in H. injection H as Hc H.
    cbn [hyphenFree] in Ha, Ha'.
    apply andb_true_iff in Ha. apply andb_true_iff in Ha'.
    destruct (IH a' (proj2 Ha) (proj2 Ha') H) as [-> ->]. subst c'. auto.
Qed.

Lemma mockTransactionId_inj (rand t rand' t' : Z) :
  (0 <= rand)%Z -> (0 <= rand')%Z ->
  FineDetailsScreen.mockTransactionId rand t = FineDetailsScreen.mockTransactionId rand' t' ->
  rand = rand' /\ t = t'.
Proof.
  intros Hr Hr'. unfold FineDetailsScreen.mockTransactionId.
  cbn [append]. intros H. injection H as H.
  apply hyphen_splits in H; [|now apply ofZ_hyphenFree..].
  destruct H as [H1 H2]. split; now apply ofZ_inj.
Qed.

(** C5, as stated, fails: the transaction identifier is a mock,
    "TX-", a draw of [Math.random] below a million, "-" and the clock in
    milliseconds, and is not unique.  Alice pays fine 20 and Bob pays fine
    21 within the same millisecond with equal draws: both fines are stored
    paid with the transaction identifier "TX-42-2000". *)
Lemma transaction_identifier_repeats :
  option_map fine_status (storedFine 20 afterBothPaid) = Some paid /\
  option_map fine_status (storedFine 21 afterBothPaid) = Some paid /\
  option_map transaction_id (storedFine 20 afterBothPaid) = Some (Some "TX-42-2000") /\
  option_map transaction_id (storedFine 21 afterBothPaid) = Some (Some "TX-42-2000").
Proof. repeat split; vm_compute; reflexivity. Qed.

(** C5, amended: the transaction identifier is generated but not unique.
    With a fine on the screen and a session, a payment sends one update
    request.  When the store answers, the update marks exactly the fines
    with the identifier and the vehicle of the fine on the screen: each of
    them gets the status 'paid', the payment time (the clock when the
    request is sent) and the transaction identifier together, every other
    fine is left as it is, and the fine on the screen, when stored, is
    stored paid.  When the store does not answer, the tables are left as
    they are.  Without a fine on the screen or without session nothing
    happens.  In every state reached by the handlers of the application
    from a store whose fines have their payment fields paired (an empty
    one, say), every fine is either unpaid with neither payment date nor
    transaction identifier, or paid with both.  Two transaction
    identifiers are equal only when both the draws and the clock readings
    they are made of are equal. *)
Theorem payment_is_one_paired_update :
  (forall user rand settled s fd w,
     FineDetailsScreen.fineDetails s = Some fd ->
     let f := FineDetailsScreen.fd_fine fd in
     let tx := FineDetailsScreen.mockTransactionId rand (clock w) in
     let w' := run (FineDetailsScreen.processPayment (Some user) rand settled s) w in
     reqs w' = UpdateRow TFines (fine_id f) :: reqs w /\
     (answers w = true ->
      Forall2 (fun g g' =>
                 if Nat.eqb (fine_id g) (fine_id f)
                    && Nat.eqb (fine_vehicle_id g) (fine_vehicle_id f)
                 then g' = FineDetailsScreen.markPaid (clock w) tx g /\
                      fine_status g' = paid /\
                      payment_date g' = Some (clock w) /\
                      transaction_id g' = Some tx
                 else g' = g)
              (fines (db w)) (fines (db w')) /\
      (In f (fines (db w)) ->
       In (FineDetailsScreen.markPaid (clock w) tx f) (fines (db w'))) /\
      profiles (db w') = profiles (db w) /\
      vehicles (db w') = vehicles (db w) /\
      tows (db w') = tows (db w) /\
      complaints (db w') = complaints (db w) /\
      notifications (db w') = notifications (db w)) /\
     (answers w = false -> db w' = db w)) /\
  (forall session rand settled s w,
     FineDetailsScreen.fineDetails s = None \/ session = None ->
     FineDetailsScreen.processPayment session rand settled s w = (s, w)) /\
  (forall w0 w,
     finesPaired (db w0) -> reachable w0 w ->
     forall f, In f (fines (db w)) ->
       (fine_status f = unpaid /\ payment_date f = None /\ transaction_id f = None) \/
       (fine_status f = paid /\ payment_date f <> None /\ transaction_id f <> None)) /\
  (forall rand t rand' t',
     (0 <= rand)%Z -> (0 <= rand')%Z ->
     FineDetailsScreen.mockTransactionId rand t
       = FineDetailsScreen.mockTransactionId rand' t' ->
     rand = rand' /\ t = t').
Proof.
  split; [|split; [|split]].
  - intros user rand settled s fd w Hfd f tx w'.
    split; [|split].
    + destruct (answers w) eqn:Hnet.
      * apply (@processPayment_answered user rand settled s fd w Hfd Hnet).
      * apply (@processPayment_unanswered user rand settled s fd w Hfd Hnet).
    + intros Hnet.
      destruct (@processPayment_answered user rand settled s fd w Hfd Hnet) as [Hdb _].
      fold f tx w' in Hdb. rewrite Hdb.
      unfold FineDetailsScreen.payRows. cbn [fines profiles vehicles tows complaints
                                               notifications].
      split; [|split; [|repeat split]].
      * eapply Forall2_impl; [|apply payRows_rows].
        intros g g'. cbv beta.
        destruct (Nat.eqb (fine_id g) (fine_id f)
                  && Nat.eqb (fine_vehicle_id g) (fine_vehicle_id f));
          [intros ->; repeat split|auto].
      * intros Hin. apply in_map_iff. exists f. split; [|exact Hin].
        now rewrite !Nat.eqb_refl.
    + intros Hnet.
      apply (@processPayment_unanswered user rand settled s fd w Hfd Hnet).
  - intros session rand settled s w [Hn | ->];
      unfold FineDetailsScreen.processPayment.
    + now rewrite Hn.
    + destruct (FineDetailsScreen.fineDetails s); reflexivity.
  - intros w0 w H0 Hr f Hin.
    pose proof (reachable_finesPaired H0 Hr) as Hp.
    unfold finesPaired in Hp. rewrite Forall_forall in Hp.
    specialize (Hp f Hin). unfold paymentPaired in Hp.
    destruct (fine_status f); [left | right | contradiction]; tauto.
  - intros rand t rand' t'. apply mockTransactionId_inj.
Qed.

Lemma payment_is_one_paired_update_witness :
  In (FineDetailsScreen.markPaid 2000 "TX-42-2000" Sample.fine1)
     (fines (db (run (FineDetailsScreen.processPayment (Some Sample.alice) 42 2003
                        (result aliceOpens Sample.world)) Sample.world))).
Proof.
  apply (proj1 (proj2 (proj1 (proj2 (proj1 payment_is_one_paired_update Sample.alice 42%Z
                                       2003%Z (result aliceOpens Sample.world)
                                       (FineDetailsScreen.mkFineDetails Sample.fine1
                                          "ABC123" "Corolla" "blue")
                                       Sample.world eq_refl)) eq_refl))).
  simpl. auto.
Defined.

(** ** Paying twice (C6) *)

(** C6, as stated, fails: the guard reads the screen's copy of the fine,
    not the stored fine.  A fine already paid in the store is paid again
    from a screen that loaded it before: no "Already Paid" is shown, and
    the stored payment date and transaction identifier are overwritten. *)
Lemma pay_overwrites_from_stale_copy :
  option_map fine_status (storedFine 20 afterFirstPayment) = Some paid /\
  option_map payment_date (storedFine 20 afterFirstPayment) = Some (Some 2000%Z) /\
  option_map transaction_id (storedFine 20 afterFirstPayment) = Some (Some "TX-42-2000") /\
  option_map payment_date (storedFine 20 afterSecondPayment) = Some (Some 5000%Z) /\
  option_map transaction_id (storedFine 20 afterSecondPayment) = Some (Some "TX-77-5000") /\
  alerts afterSecondPayment =
    [mkAlert "Payment Successful" "Your payment of $50.00 has been processed successfully.";
     mkAlert "Payment Successful" "Your payment of $50.00 has been processed successfully."].
Proof. repeat split; vm_compute; reflexivity. Qed.

Lemma handlePayFine_rejects (s : FineDetailsScreen.State) (w : World) :
  copyStatus s = Some paid ->
  FineDetailsScreen.handlePayFine s w =
    (s, mkWorld (db w) (net w) (reqs w)
                (mkAlert "Already Paid" "This fine has already been paid." :: alerts w)
                (console w) (nav w) (clock w)).
Proof.
  unfold copyStatus, FineDetailsScreen.handlePayFine.
  destruct (FineDetailsScreen.fineDetails s) as [fd|]; simpl; [|discriminate].
  intros H. inversion H as [H1]. rewrite H1. reflexivity.
Qed.

Lemma pay_rejects (session : option Id) (rand settled : Z)
    (s : FineDetailsScreen.State) (w : World) :
  copyStatus s = Some paid ->
  FineDetailsScreen.paymentModalVisible s = false ->
  pay session rand settled s w =
    (s, mkWorld (db w) (net w) (reqs w)
                (mkAlert "Already Paid" "This fine has already been paid." :: alerts w)
                (console w) (nav w) (clock w)).
Proof.
  intros Hc Hm. unfold pay, bind.
  rewrite (handlePayFine_rejects s w Hc). rewrite Hm. reflexivity.
Qed.

Lemma pay_succeeds (user : Id) (rand settled : Z) (s : FineDetailsScreen.State)
    (w : World) (st : FineStatus) :
  copyStatus s = Some st -> st <> paid -> answers w = true ->
  copyStatus (result (pay (Some user) rand settled s) w) = Some paid /\
  FineDetailsScreen.paymentModalVisible (result (pay (Some user) rand settled s) w) = false.
Proof.
  unfold copyStatus at 1.
  destruct (FineDetailsScreen.fineDetails s) as [fd|] eqn:Hfd; simpl; [|discriminate].
  intros H Hst Hok. inversion H as [H1]. clear H.
  assert (Hp : FineDetailsScreen.isPaid (fine_status (FineDetailsScreen.fd_fine fd)) = false).
  { rewrite H1. destruct st; auto. contradiction. }
  assert (E : exists w',
             pay (Some user) rand settled s w =
               (FineDetailsScreen.settledState settled
                  (FineDetailsScreen.mockTransactionId rand (clock w)) fd, w')).
  { unfold pay.
    erewrite bind_run
      by (unfold FineDetailsScreen.handlePayFine; rewrite Hfd, Hp; reflexivity).
    cbn [FineDetailsScreen.paymentModalVisible].
    unfold FineDetailsScreen.processPayment. cbn [FineDetailsScreen.fineDetails].
    erewrite (@bind_run _ _ now) by reflexivity. cbv beta zeta.
    erewrite bind_run by (apply write_answered; exact Hok).
    cbv beta.
    destruct (FineDetailsScreen.amountText (FineDetailsScreen.fd_fine fd));
      eexists; reflexivity. }
  destruct E as [w' E]. unfold result. rewrite E.
  split; reflexivity.
Qed.

(** C6, amended: the guard is on the screen's copy of the fine.  When the
    copy a screen holds is paid -- it is once a payment made on the screen
    has gone through, and whenever the fine was loaded paid -- the pay
    operation shows "Already Paid", opens no modal, sends no request and
    leaves the store as it is, so the payment date and the transaction
    identifier stored are not overwritten from that screen. *)
Theorem pay_guarded_by_screen_copy :
  (forall session rand settled s w,
     copyStatus s = Some paid ->
     FineDetailsScreen.paymentModalVisible s = false ->
     result (pay session rand settled s) w = s /\
     db (run (pay session rand settled s) w) = db w /\
     reqs (run (pay session rand settled s) w) = reqs w /\
     alerts (run (pay session rand settled s) w) =
       mkAlert "Already Paid" "This fine has already been paid." :: alerts w) /\
  (forall user rand settled s w st,
     copyStatus s = Some st -> st <> paid -> answers w = true ->
     copyStatus (result (pay (Some user) rand settled s) w) = Some paid /\
     FineDetailsScreen.paymentModalVisible (result (pay (Some user) rand settled s) w) = false) /\
  (forall id user w fd,
     FineDetailsScreen.fineDetails
       (result (FineDetailsScreen.fetchFineDetails (Some id) (Some user)
                  FineDetailsScreen.initial) w) = Some fd ->
     In (FineDetailsScreen.fd_fine fd) (fines (db w)) /\
     FineDetailsScreen.paymentModalVisible
       (result (FineDetailsScreen.fetchFineDetails (Some id) (Some user)
                  FineDetailsScreen.initial) w) = false).
Proof.
  split; [|split].
  - intros session rand settled s w Hc Hm.
    unfold result, run. rewrite (@pay_rejects session rand settled s w Hc Hm). simpl. auto.
  - intros user rand settled s w st Hc Hst Hok. eapply pay_succeeds; eauto.
  - intros id user w fd H. split.
    + now apply fetchFineDetails_scoped in H.
    + revert H. unfold result, FineDetailsScreen.fetchFineDetails, bind.
      match goal with
      | |- context [Store.selectSingle ?q ?rows w] =>
          destruct (selectSingle_spec q rows w) as [ok ->]
      end.
      destruct ok; simpl; [|discriminate].
      destruct (Store.single _) as [[f [v|]]|e]; simpl; try discriminate.
      destruct (Store.optIdEqb (owner_id v) user); simpl; [reflexivity|discriminate].
Qed.

Lemma pay_guarded_by_screen_copy_witness :
  db (run (pay (Some Sample.alice) 77 5004
             (result (pay (Some Sample.alice) 42 2003 (result aliceOpens Sample.world))
                     Sample.world))
          (later 5000 afterFirstPayment))
  = db afterFirstPayment.
Proof.
  apply (proj1 (proj2 (proj1 pay_guarded_by_screen_copy (Some Sample.alice) 77%Z 5004%Z
                         (result (pay (Some Sample.alice) 42 2003
                                    (result aliceOpens Sample.world)) Sample.world)
                         (later 5000 afterFirstPayment) eq_refl eq_refl))).
Defined.

(** ** The status a fine is displayed with (C7) *)

(** C7, as stated, fails on the list of the fine history: an unpaid fine
    due at time 1000 and displayed at time 2000 shows 'unpaid' there, while
    the detail screen shows it 'overdue'. *)
Lemma list_item_shows_stored_status :
  fine_status Sample.fine1 = unpaid /\
  due_date Sample.fine1 = Some 1000%Z /\
  (1000 < 2000)%Z /\
  FineItem.statusBadge 2000 Sample.fine1 = unpaid /\
  FineDetailsScreen.statusBadge 2000 Sample.fine1 = overdue.
Proof. repeat split; reflexivity. Qed.

Lemma reachable_never_stores_overdue (w0 w : World) (f : Fine) :
  finesPaired (db w0) -> reachable w0 w -> In f (fines (db w)) ->
  fine_status f <> overdue.
Proof.
  intros H0 Hr Hin Ho.
  pose proof (reachable_finesPaired H0 Hr) as Hp.
  unfold finesPaired in Hp. rewrite Forall_forall in Hp.
  specialize (Hp f Hin). unfold paymentPaired in Hp. rewrite Ho in Hp. exact Hp.
Qed.

Lemma isPastDue_iff (t : Z) (f : Fine) :
  FineDetailsScreen.isPastDue t f = true <->
  fine_status f = unpaid /\ exists due, due_date f = Some due /\ (due < t)%Z.
Proof.
  unfold FineDetailsScreen.isPastDue.
  destruct (due_date f) as [due|].
  - rewrite andb_true_iff, Z.ltb_lt. split.
    + intros [Hlt Hu]. split; [|eauto].
      destruct (fine_status f); simpl in Hu; congruence.
    + intros [Hu [d [Hd Hlt]]]. inversion Hd; subst d. rewrite Hu. auto.
  - split; [discriminate|]. intros [_ [d [Hd _]]]. discriminate.
Qed.

(** C7, amended to the fine detail screen.  The handlers never store
    'overdue'; at every render of the detail screen, with the time of the
    render, a fine stored 'unpaid' or 'paid' shows as overdue exactly when
    its status is 'unpaid', it has a due date and the time is past it; the
    same stored fine shows differently before and after its due date; and a
    paid fine shows as paid whatever its due date. *)
Theorem detail_screen_derives_overdue :
  (forall w0 w f,
     finesPaired (db w0) -> reachable w0 w -> In f (fines (db w)) ->
     fine_status f <> overdue) /\
  (forall t f,
     fine_status f <> overdue ->
     (FineDetailsScreen.statusBadge t f = overdue <->
      fine_status f = unpaid /\ exists due, due_date f = Some due /\ (due < t)%Z)) /\
  (forall t1 t2 f due,
     fine_status f = unpaid -> due_date f = Some due -> (t1 <= due < t2)%Z ->
     FineDetailsScreen.statusBadge t1 f = unpaid /\
     FineDetailsScreen.statusBadge t2 f = overdue) /\
  (forall t f,
     fine_status f = paid ->
     FineDetailsScreen.statusBadge t f = paid /\
     FineDetailsScreen.showsPaidMark f = true).
Proof.
  split; [|split; [|split]].
  - intros w0 w f. apply reachable_never_stores_overdue.
  - intros t f Hno. unfold FineDetailsScreen.statusBadge.
    rewrite <- isPastDue_iff.
    destruct (FineDetailsScreen.isPastDue t f); split; intros H; auto; try discriminate;
      try contradiction.
  - intros t1 t2 f due Hu Hd [H1 H2].
    unfold FineDetailsScreen.statusBadge, FineDetailsScreen.isPastDue.
    rewrite Hd, Hu. simpl.
    replace (due <? t1)%Z with false by (symmetry; apply Z.ltb_ge; lia).
    replace (due <? t2)%Z with true by (symmetry; apply Z.ltb_lt; lia).
    auto.
  - intros t f Hp.
    unfold FineDetailsScreen.statusBadge, FineDetailsScreen.isPastDue,
      FineDetailsScreen.showsPaidMark.
    rewrite Hp. destruct (due_date f) as [due|]; simpl; [rewrite andb_false_r|]; auto.
Qed.

Lemma detail_screen_derives_overdue_witness :
  FineDetailsScreen.statusBadge 1000 Sample.fine1 = unpaid /\
  FineDetailsScreen.statusBadge 1001 Sample.fine1 = overdue.
Proof.
  apply (proj1 (proj2 (proj2 detail_screen_derives_overdue)) 1000%Z 1001%Z Sample.fine1
           1000%Z eq_refl eq_refl).
  lia.
Defined.

(** ** Closing a complaint (C8) *)

(** C8, as stated, fails: the "Resolve" button resolves a complaint
    without writing a response, and a rejection writes neither resolver nor
    resolution time. *)
Lemma resolve_button_writes_no_response :
  map (fun c => (complaint_status c, response c, resolved_by c, resolved_at c))
      (complaints (db afterQuickResolve))
    = [(resolved, None, Some Sample.staffer, Some 2000%Z)] /\
  map (fun c => (complaint_status c, response c, resolved_by c, resolved_at c))
      (complaints (db afterRejection))
    = [(rejected, Some "No grounds", None, None)].
Proof. split; vm_compute; reflexivity. Qed.

Lemma applyUpdate_closedProperly newStatus resp t user c :
  (newStatus = rejected -> Str.truthyOpt resp = true) ->
  closedProperly (ComplaintReviewScreen.applyUpdate newStatus resp t user c).
Proof.
  intros Hrej. unfold closedProperly. simpl.
  destruct newStatus; simpl; auto.
  - split; discriminate.
  - rewrite (Hrej eq_refl). now apply Hrej.
Qed.

Lemma updateRows_closedProperly id newStatus resp t user d :
  (newStatus = rejected -> Str.truthyOpt resp = true) ->
  complaintsClosedProperly d ->
  complaintsClosedProperly (ComplaintReviewScreen.updateRows id newStatus resp t user d).
Proof.
  unfold complaintsClosedProperly. simpl. intros Hrej H.
  induction H as [|c l Hc Hl IH]; simpl; constructor; auto.
  destruct (Nat.eqb (complaint_id c) id); auto.
  now apply applyUpdate_closedProperly.
Qed.

Lemma updateComplaintStatus_keeps_closed session shown id newStatus resp :
  (newStatus = rejected -> Str.truthyOpt resp = true) ->
  keeps complaintsClosedProperly
    (ComplaintReviewScreen.updateComplaintStatus session shown id newStatus resp).
Proof.
  intros Hrej. unfold ComplaintReviewScreen.updateComplaintStatus.
  keeps_auto; apply keeps_write; intros d Hd; try exact Hd.
  now apply updateRows_closedProperly.
Qed.

Lemma trim_truthy (s : string) :
  Str.truthy (Str.trim s) = true -> Str.truthy s = true.
Proof. destruct s; simpl; auto. Qed.

Lemma handleSubmitResponse_keeps_closed session shown selected status text :
  keeps complaintsClosedProperly
    (ComplaintReviewScreen.handleSubmitResponse session shown selected status text).
Proof.
  unfold ComplaintReviewScreen.handleSubmitResponse.
  destruct selected as [c|]; [|apply keeps_ret].
  destruct (Str.truthy (Str.trim text)) eqn:Ht; simpl; [|apply keeps_alert].
  apply updateComplaintStatus_keeps_closed. intros _. simpl.
  now apply trim_truthy.
Qed.

Lemma handleStatusChange_keeps_closed session shown id newStatus confirmed :
  newStatus = in_review \/ newStatus = resolved ->
  keeps complaintsClosedProperly
    (ComplaintReviewScreen.handleStatusChange session shown id newStatus confirmed).
Proof.
  intros Hst. unfold ComplaintReviewScreen.handleStatusChange.
  keeps_auto; apply updateComplaintStatus_keeps_closed;
    intros ->; destruct Hst; discriminate.
Qed.

Lemma step_keeps_closed (w w' : World) :
  step w w' -> complaintsClosedProperly (db w) -> complaintsClosedProperly (db w').
Proof.
  intros Hs H. destruct Hs.
  - unfold complaintsClosedProperly in *. congruence.
  - revert H. unfold run. generalize w.
    fold (keeps complaintsClosedProperly (IssueFineScreen.issueFine session vehicle form)).
    unfold IssueFineScreen.issueFine.
    keeps_auto. apply keeps_write. intros d Hd. exact Hd.
  - revert H. unfold run. generalize w.
    fold (keeps complaintsClosedProperly (RecordTowScreen.handleSubmitTow session f)).
    unfold RecordTowScreen.handleSubmitTow, RecordTowScreen.recordTow,
      RecordTowScreen.resolveVehicle, RecordTowScreen.notifyOwner, RecordTowScreen.failed.
    keeps_auto; apply keeps_write; intros d Hd; exact Hd.
  - revert H. unfold run. generalize w.
    fold (keeps complaintsClosedProperly
            (FineDetailsScreen.processPayment session rand settled s)).
    unfold FineDetailsScreen.processPayment.
    keeps_auto. apply keeps_write. intros d Hd. exact Hd.
  - revert H. unfold run. generalize w.
    fold (keeps complaintsClosedProperly
            (ComplaintScreen.handleSubmit user subject description type vehicleId
               fineId towId)).
    unfold ComplaintScreen.handleSubmit.
    keeps_auto. apply keeps_write. intros d Hd.
    unfold complaintsClosedProperly in *. simpl.
    apply Forall_app. split; [exact Hd|]. repeat constructor.
  - now apply handleStatusChange_keeps_closed.
  - now apply handleSubmitResponse_keeps_closed.
Qed.

Lemma reachable_closedProperly (w0 w : World) :
  complaintsClosedProperly (db w0) -> reachable w0 w -> complaintsClosedProperly (db w).
Proof.
  intros H0 Hr. induction Hr as [|w w' Hr IH Hs]; [assumption|].
  eapply step_keeps_closed; eauto.
Qed.

(** The complaints after a status update the store has accepted. *)
Lemma updateComplaintStatus_rows (user : Id) (shown : list Complaint) (id : Id)
    (newStatus : ComplaintStatus) (resp : option string) (w : World) :
  answers w = true ->
  complaints (db (run (ComplaintReviewScreen.updateComplaintStatus (Some user) shown
                         id newStatus resp) w))
  = map (fun c => if Nat.eqb (complaint_id c) id
                  then ComplaintReviewScreen.applyUpdate newStatus resp (clock w) user c
                  else c)
        (complaints (db w)).
Proof.
  intros Hok. unfold answers in Hok.
  unfold run, ComplaintReviewScreen.updateComplaintStatus.
  cbv beta iota zeta delta [bind now Store.write request getDb setDb ret alert consoleError].
  simpl.
  replace (match net w with [] => true | b :: _ => b end) with true
    by (destruct (net w); simpl in *; auto).
  simpl.
  destruct (find (fun c => Nat.eqb (complaint_id c) id) shown) as [c|]; simpl.
  - destruct (match tl (net w) with [] => true | b :: _ => b end); simpl;
      destruct (Str.truthyOpt resp); reflexivity.
  - destruct (Str.truthyOpt resp); reflexivity.
Qed.

(** C8, amended.  A transition to 'resolved' writes the resolver and the
    resolution time in the same update as the status.  A response is part
    of that update only when one is given: the response form gives one and
    refuses a blank one, the "Resolve" button gives none and leaves the
    response of the complaint as it was.  A transition to 'rejected' is
    made through the response form only.  So in every state reached from a
    store with that property, a resolved complaint has its resolver and its
    resolution time, and a rejected complaint has a response that is not
    empty. *)
Theorem closing_a_complaint :
  (forall user shown id newStatus resp w c',
     answers w = true ->
     In c' (complaints (db (run (ComplaintReviewScreen.updateComplaintStatus
                                   (Some user) shown id newStatus resp) w))) ->
     In c' (complaints (db w)) \/
     (complaint_id c' = id /\ complaint_status c' = newStatus /\
      (newStatus = resolved ->
       resolved_at c' = Some (clock w) /\ resolved_by c' = Some user) /\
      (Str.truthyOpt resp = true -> response c' = resp) /\
      (Str.truthyOpt resp = false ->
       exists c, In c (complaints (db w)) /\ complaint_id c = id /\
                 response c' = response c))) /\
  (forall session shown c status text,
     (Str.truthy (Str.trim text) = false ->
      forall w, db (run (ComplaintReviewScreen.handleSubmitResponse session shown
                           (Some c) status text) w) = db w) /\
     (Str.truthy (Str.trim text) = true ->
      text <> "" /\
      ComplaintReviewScreen.handleSubmitResponse session shown (Some c) status text
      = ComplaintReviewScreen.updateComplaintStatus session shown (complaint_id c)
          status (Some text))) /\
  (forall session shown id,
     ComplaintReviewScreen.handleStatusChange session shown id resolved true
     = ComplaintReviewScreen.updateComplaintStatus session shown id resolved None) /\
  (forall w0 w c,
     complaintsClosedProperly (db w0) -> reachable w0 w -> In c (complaints (db w)) ->
     (complaint_status c = resolved -> resolved_at c <> None /\ resolved_by c <> None) /\
     (complaint_status c = rejected ->
      exists r, response c = Some r /\ r <> "")).
Proof.
  split; [|split; [|split]].
  - intros user shown id newStatus resp w c' Hok Hin.
    rewrite (updateComplaintStatus_rows user shown id newStatus resp w Hok) in Hin.
    apply in_map_iff in Hin. destruct Hin as [c [Hc Hin]].
    destruct (Nat.eqb (complaint_id c) id) eqn:Hid; [|left; now subst].
    apply Nat.eqb_eq in Hid. right. subst c'. simpl.
    split; [exact Hid|]. split; [reflexivity|]. split; [|split].
    + intros ->. simpl. auto.
    + intros Ht. rewrite Ht. reflexivity.
    + intros Hf. rewrite Hf. exists c. auto.
  - intros session shown c status text. split.
    + intros Hb w. unfold run, ComplaintReviewScreen.handleSubmitResponse.
      rewrite Hb. reflexivity.
    + intros Ht. split.
      * intros ->. discriminate Ht.
      * unfold ComplaintReviewScreen.handleSubmitResponse. rewrite Ht. reflexivity.
  - reflexivity.
  - intros w0 w c H0 Hr Hin.
    pose proof (reachable_closedProperly H0 Hr) as Hp.
    unfold complaintsClosedProperly in Hp. rewrite Forall_forall in Hp.
    specialize (Hp c Hin). unfold closedProperly in Hp.
    split; intros Hs; rewrite Hs in Hp; [exact Hp|].
    destruct (response c) as [r|]; simpl in Hp; [|discriminate].
    exists r. split; [reflexivity|]. intros ->. discriminate.
Qed.

Lemma closing_a_complaint_witness :
  Some 2000%Z <> None /\ Some Sample.staffer <> None.
Proof.
  refine (proj1 (proj2 (proj2 (proj2 closing_a_complaint)) Sample.world afterQuickResolve
                   (mkComplaint 30 Sample.alice "Wrong fine" "I was not parked there" "fine"
                      (Some 10) (Some 20) None resolved 5 None (Some 2000%Z)
                      (Some Sample.staffer)) _ _ _) eq_refl).
  - repeat constructor.
  - eapply reach_step; [apply reach_here|].
    apply step_statusChange. right. reflexivity.
  - vm_compute. auto.
Defined.

(** ** Recording a tow for an unknown plate (C9) *)

Lemma handleSubmitTow_valid (session : option Id) (f : RecordTowScreen.Form) :
  valid f = true ->
  RecordTowScreen.handleSubmitTow session f = RecordTowScreen.recordTow session f.
Proof.
  unfold valid, RecordTowScreen.handleSubmitTow.
  rewrite !andb_true_iff. intros [[[[H1 H2] H3] H4] H5].
  rewrite H1, H2, H3. simpl.
  apply negb_true_iff in H4. apply negb_true_iff in H5.
  rewrite H4, H5. reflexivity.
Qed.

Lemma upperChar_idem (c : ascii) : Str.upperChar (Str.upperChar c) = Str.upperChar c.
Proof. destruct c as [[] [] [] [] [] [] [] []]; reflexivity. Qed.

Lemma toUpperCase_idem (s : string) :
  Str.toUpperCase (Str.toUpperCase s) = Str.toUpperCase s.
Proof.
  unfold Str.toUpperCase.
  induction s as [|c s IH]; simpl; [reflexivity|].
  now rewrite upperChar_idem, IH.
Qed.









(** ** Partial failure while recording a tow (C10) *)












(** ** Looking a plate up in two passes (C3) *)

(** The lookup of the issue-fine screen. *)
Lemma issueFine_search_two_passes (user : Id) (plate : string)
    (old : option Vehicle) (w : World) :
  Str.truthy (Str.trim plate) = true ->
  let p := Plates.formatted plate in
  let out := IssueFineScreen.searchVehicle (Some user) plate old w in
  (reqs (snd out) = exactPass p :: reqs w \/
   (answers w = true /\ exactRows p (db w) = [] /\
    reqs (snd out) = fallbackPass p :: exactPass p :: reqs w)) /\
  (forall v l, answers w = true -> exactRows p (db w) = v :: l ->
     fst out = Some v /\ reqs (snd out) = exactPass p :: reqs w) /\
  (forall v v' l,
     answers w = true -> exactRows p (db w) = [] ->
     answersAt 1 w = true -> similarRows p (db w) = v :: v' :: l ->
     fst out = Some v /\
     alerts (snd out) =
       mkAlert "Multiple Matches" "Multiple vehicles found. Showing the first match."
       :: alerts w).
Proof.
  intros Hp p out. subst out.
  unfold IssueFineScreen.searchVehicle. rewrite Hp. simpl negb. cbv iota.
  fold p. unfold exactRows, similarRows, exactPass, fallbackPass, answers, answersAt.
  destruct w as [d n r a c nv t].
  destruct (filter (fun v => license_plate v =? p) (vehicles d)) as [|e es] eqn:E;
    destruct (filter (fun v => Store.ilike p (license_plate v)) (vehicles d))
      as [|i0 [|i1 irest]] eqn:I;
    destruct n as [|b0 [|b1 n]]; try destruct b0; try destruct b1; world_cbv;
    rewrite ?E; cbv beta iota; rewrite ?I; cbv beta iota;
    (split; [auto 6 | split; intros; try discriminate; try congruence]);
    repeat match goal with H : _ :: _ = _ :: _ |- _ => inversion H; clear H; subst end;
    auto.
Qed.

(** The lookup of the record-tow screen. *)
Lemma recordTow_search_two_passes (f : RecordTowScreen.Form) (w : World) :
  Str.truthy (Str.trim (RecordTowScreen.licensePlate f)) = true ->
  let p := Plates.formatted (RecordTowScreen.licensePlate f) in
  let out := RecordTowScreen.searchVehicle f w in
  (reqs (snd out) = exactPass p :: reqs w \/
   (answers w = true /\ exactRows p (db w) = [] /\
    reqs (snd out) = fallbackPass p :: exactPass p :: reqs w)) /\
  (forall v l, answers w = true -> exactRows p (db w) = v :: l ->
     RecordTowScreen.vehicleFound (fst out) = Some v /\
     reqs (snd out) = exactPass p :: reqs w) /\
  (forall v v' l,
     answers w = true -> exactRows p (db w) = [] ->
     answersAt 1 w = true -> similarRows p (db w) = v :: v' :: l ->
     RecordTowScreen.vehicleFound (fst out) = Some v /\
     alerts (snd out) =
       mkAlert "Multiple Matches"
         ("Found " ++ Str.ofZ (Z.of_nat (S (S (List.length l))))
          ++ " vehicles with similar license plates. Using the first match.")
       :: alerts w).
Proof.
  intros Hp p out. subst out.
  unfold RecordTowScreen.searchVehicle. rewrite Hp.
  fold p. unfold exactRows, similarRows, exactPass, fallbackPass, answers, answersAt.
  destruct w as [d n r a c nv t].
  destruct (filter (fun v => license_plate v =? p) (vehicles d)) as [|e [|e' es]] eqn:E;
    destruct (filter (fun v => Store.ilike p (license_plate v)) (vehicles d))
      as [|i0 [|i1 irest]] eqn:I;
    destruct n as [|b0 [|b1 n]]; try destruct b0; try destruct b1; world_cbv;
    rewrite ?E; cbv beta iota; rewrite ?I; cbv beta iota;
    (split; [auto 6 | split; intros; try discriminate; try congruence]);
    repeat match goal with H : _ :: _ = _ :: _ |- _ => inversion H; clear H; subst end;
    auto.
Qed.

(** C3 on the code: the lookups of the issue-fine and of the record-tow
    screen run the exact pass first, on the trimmed plate in upper case,
    run the fallback pass only when the exact pass has answered with no
    row, and warn when the fallback pass returns several rows.  The lookup
    of the vehicle search screen takes the first of several rows of the
    fallback pass without any warning: looking up "abc" in a store holding
    "ABC123" and "ABC456", the exact pass finds nothing, the fallback pass
    finds both, the screen shows "ABC123" and no alert, where the two other
    screens show "Multiple Matches". *)
Theorem vehicle_search_screen_picks_silently :
  Plates.formatted "abc" = "ABC" /\
  exactRows "ABC" Sample.store = [] /\
  map license_plate (similarRows "ABC" Sample.store) = ["ABC123"; "ABC456"] /\
  (* the vehicle search screen *)
  option_map VehicleSearchScreen.vv_license_plate
    (VehicleSearchScreen.vehicle (fst searchedOnVehicleSearch)) = Some "ABC123" /\
  alerts (snd searchedOnVehicleSearch) = [] /\
  console (snd searchedOnVehicleSearch) = [] /\
  firstn 2 (rev (reqs (snd searchedOnVehicleSearch))) = [exactPass "ABC"; fallbackPass "ABC"] /\
  (* the issue-fine screen *)
  option_map license_plate (fst searchedOnIssueFine) = Some "ABC123" /\
  alerts (snd searchedOnIssueFine) =
    [mkAlert "Multiple Matches" "Multiple vehicles found. Showing the first match."] /\
  (* the record-tow screen *)
  option_map license_plate (RecordTowScreen.vehicleFound (fst searchedOnRecordTow))
    = Some "ABC123" /\
  alerts (snd searchedOnRecordTow) =
    [mkAlert "Multiple Matches"
       "Found 2 vehicles with similar license plates. Using the first match."].
Proof.
  assert (Hp : Plates.formatted "abc" = "ABC") by reflexivity.
  assert (He : exactRows "ABC" Sample.store = []) by reflexivity.
  assert (Hs : similarRows "ABC" Sample.store = [Sample.car1; Sample.car2]) by reflexivity.
  split; [exact Hp|]. split; [exact He|]. split; [now rewrite Hs|].
  repeat split; vm_compute; reflexivity.
Qed.

(** The vehicle search screen never warns of several matches: whatever
    the plate and the store, it shows no "Multiple Matches" alert. *)
Lemma vehicle_search_screen_never_warns (plate : string)
    (s : VehicleSearchScreen.State) (w : World) (a : Alert) :
  In a (alerts (snd (VehicleSearchScreen.searchVehicle plate s w))) ->
  In a (alerts w) \/ alert_title a = "Error".
Proof.
  assert (Hist : forall vid s0 w0,
             In a (alerts (snd (VehicleSearchScreen.fetchVehicleHistory vid s0 w0))) ->
             In a (alerts w0) \/ alert_title a = "Error").
  { intros vid s0 w0. unfold VehicleSearchScreen.fetchVehicleHistory.
    destruct w0 as [d n r al c nv t].
    destruct n as [|b0 [|b1 n]]; try destruct b0; try destruct b1; world_cbv;
      intros H; try (destruct H as [H|H]; [subst; simpl; auto|]); auto. }
  unfold VehicleSearchScreen.searchVehicle.
  destruct (Str.truthy (Str.trim plate)); unfold negb.
  2:{ world_cbv. intros [H|H]; subst; simpl; auto. }
  unfold bind at 1.
  destruct (Plates.vehiclesEq (Plates.formatted plate) w) as [exact w1] eqn:E1.
  assert (A1 : alerts w1 = alerts w).
  { unfold Plates.vehiclesEq in E1.
    destruct (select_spec (SelectEq TVehicles "license_plate" (Plates.formatted plate))
                (fun d => filter (fun v => license_plate v =? Plates.formatted plate)
                                 (vehicles d)) w) as [ok Hsel].
    rewrite Hsel in E1. inversion E1. reflexivity. }
  unfold bind at 1.
  destruct (VehicleSearchScreen.orFallback exact
              (Plates.vehiclesIlike (Plates.formatted plate)) w1) as [vehicleData w2] eqn:E2.
  assert (A2 : alerts w2 = alerts w).
  { unfold VehicleSearchScreen.orFallback in E2.
    destruct exact as [[|x l]|e].
    - unfold bind, Plates.vehiclesIlike in E2.
      match type of E2 with
      | context [Store.select ?q ?rows w1] =>
          destruct (select_spec q rows w1) as [ok Hsel]; rewrite Hsel in E2
      end.
      inversion E2. simpl. exact A1.
    - inversion E2. subst. exact A1.
    - unfold bind, Plates.vehiclesIlike in E2.
      match type of E2 with
      | context [Store.select ?q ?rows w1] =>
          destruct (select_spec q rows w1) as [ok Hsel]; rewrite Hsel in E2
      end.
      inversion E2. simpl. exact A1. }
  destruct vehicleData as [|foundVehicle rest].
  - unfold bind at 1.
    destruct (Plates.towsEq (Plates.formatted plate) w2) as [towExact w3] eqn:E3.
    assert (A3 : alerts w3 = alerts w).
    { unfold Plates.towsEq in E3.
      match type of E3 with
      | context [Store.select ?q ?rows w2] =>
          destruct (select_spec q rows w2) as [ok Hsel]; rewrite Hsel in E3
      end.
      inversion E3. simpl. exact A2. }
    unfold bind at 1.
    destruct (VehicleSearchScreen.orFallback towExact
                (Plates.towsIlike (Plates.formatted plate)) w3) as [towData w4] eqn:E4.
    assert (A4 : alerts w4 = alerts w).
    { unfold VehicleSearchScreen.orFallback in E4.
      destruct towExact as [[|x l]|e].
      - unfold bind, Plates.towsIlike in E4.
        match type of E4 with
        | context [Store.select ?q ?rows w3] =>
            destruct (select_spec q rows w3) as [ok Hsel]; rewrite Hsel in E4
        end.
        inversion E4. simpl. exact A3.
      - inversion E4. subst. exact A3.
      - unfold bind, Plates.towsIlike in E4.
        match type of E4 with
        | context [Store.select ?q ?rows w3] =>
            destruct (select_spec q rows w3) as [ok Hsel]; rewrite Hsel in E4
        end.
        inversion E4. simpl. exact A3. }
    destruct towData as [|t0 ts].
    + simpl. rewrite A4. auto.
    + destruct (tow_vehicle_id t0) as [vid|].
      * intros H. apply Hist in H. rewrite A4 in H. exact H.
      * simpl. rewrite A4. auto.
  - destruct (owner_id foundVehicle) as [owner|].
    + unfold bind at 1.
      destruct (VehicleSearchScreen.ownerProfile owner w2) as [ownerData w3] eqn:E3.
      assert (A3 : alerts w3 = alerts w).
      { unfold VehicleSearchScreen.ownerProfile in E3.
        match type of E3 with
        | context [Store.selectSingle ?q ?rows w2] =>
            destruct (selectSingle_spec q rows w2) as [ok Hsel]; rewrite Hsel in E3
        end.
        inversion E3. simpl. exact A2. }
      intros H. apply Hist in H. rewrite A3 in H. exact H.
    + intros H. apply Hist in H. rewrite A2 in H. exact H.
Qed.

(** * Further properties *)

(** ** Plates in normal form *)

Lemma isSpace_upperChar (c : ascii) : Str.isSpace (Str.upperChar c) = Str.isSpace c.
Proof. destruct c as [[] [] [] [] [] [] [] []]; reflexivity. Qed.

Lemma lowerChar_upperChar (c : ascii) :
  Str.lowerChar (Str.upperChar c) = Str.lowerChar c.
Proof. destruct c as [[] [] [] [] [] [] [] []]; reflexivity. Qed.

Lemma isSpace_lowerChar (c : ascii) : Str.isSpace (Str.lowerChar c) = Str.isSpace c.
Proof. destruct c as [[] [] [] [] [] [] [] []]; reflexivity. Qed.

Lemma trimStart_idem (s : string) : Str.trimStart (Str.trimStart s) = Str.trimStart s.
Proof.
  induction s as [|c s IH]; simpl; [reflexivity|].
  destruct (Str.isSpace c) eqn:E; [exact IH|].
  simpl. now rewrite E.
Qed.

Lemma trimEnd_idem (s : string) : Str.trimEnd (Str.trimEnd s) = Str.trimEnd s.
Proof.
  induction s as [|c s IH]; simpl; [reflexivity|].
  destruct (Str.trimEnd s) as [|d t] eqn:E.
  - destruct (Str.isSpace c) eqn:Ec; simpl; [reflexivity|now rewrite Ec].
  - simpl in IH. simpl. destruct (Str.trimEnd t) as [|d' t'] eqn:Et.
    + destruct (Str.isSpace d) eqn:Ed; [discriminate IH|].
      now rewrite IH.
    + now rewrite IH.
Qed.

Lemma trimStart_fixed (s : string) : startsWithSpace s = false -> Str.trimStart s = s.
Proof. destruct s as [|c s]; simpl; [reflexivity|]. now intros ->. Qed.

Lemma trimStart_starts (s : string) : startsWithSpace (Str.trimStart s) = false.
Proof.
  induction s as [|c s IH]; simpl; [reflexivity|].
  destruct (Str.isSpace c) eqn:E; [exact IH|]. simpl. exact E.
Qed.

Lemma trimEnd_starts (s : string) :
  startsWithSpace s = false -> startsWithSpace (Str.trimEnd s) = false.
Proof.
  destruct s as [|c s]; simpl; [reflexivity|].
  intros E. destruct (Str.trimEnd s); [rewrite E|]; simpl; auto.
Qed.

Lemma trim_idem (s : string) : Str.trim (Str.trim s) = Str.trim s.
Proof.
  unfold Str.trim.
  rewrite (trimStart_fixed (Str.trimEnd (Str.trimStart s))).
  - apply trimEnd_idem.
  - apply trimEnd_starts, trimStart_starts.
Qed.

Lemma trimStart_toUpperCase (s : string) :
  Str.trimStart (Str.toUpperCase s) = Str.toUpperCase (Str.trimStart s).
Proof.
  unfold Str.toUpperCase.
  induction s as [|c s IH]; simpl; [reflexivity|].
  rewrite isSpace_upperChar. destruct (Str.isSpace c); [exact IH|reflexivity].
Qed.

Lemma trimEnd_toUpperCase (s : string) :
  Str.trimEnd (Str.toUpperCase s) = Str.toUpperCase (Str.trimEnd s).
Proof.
  unfold Str.toUpperCase.
  induction s as [|c s IH]; simpl; [reflexivity|].
  rewrite IH, isSpace_upperChar.
  destruct (Str.trimEnd s); simpl; [destruct (Str.isSpace c)|]; reflexivity.
Qed.

Lemma trim_toUpperCase (s : string) :
  Str.trim (Str.toUpperCase s) = Str.toUpperCase (Str.trim s).
Proof.
  unfold Str.trim. now rewrite trimStart_toUpperCase, trimEnd_toUpperCase.
Qed.

Lemma truthy_toUpperCase (s : string) : Str.truthy (Str.toUpperCase s) = Str.truthy s.
Proof. destruct s; reflexivity. Qed.

(** X1: the plate every lookup and every tow recording works with,
    [licensePlate.trim().toUpperCase()], is in normal form: trimming it,
    upper-casing it or formatting it again changes nothing, and it is
    empty exactly when the text typed is blank. *)
Theorem formatted_plate_normal_form (licensePlate : string) :
  let p := Plates.formatted licensePlate in
  Str.trim p = p /\
  Str.toUpperCase p = p /\
  Plates.formatted p = p /\
  Str.truthy p = Str.truthy (Str.trim licensePlate).
Proof.
  intros p. subst p. unfold Plates.formatted.
  assert (Ht : Str.trim (Str.toUpperCase (Str.trim licensePlate))
               = Str.toUpperCase (Str.trim licensePlate))
    by (now rewrite trim_toUpperCase, trim_idem).
  split; [exact Ht|].
  split; [apply toUpperCase_idem|].
  split; [rewrite Ht; apply toUpperCase_idem|].
  apply truthy_toUpperCase.
Qed.

(** ** The lookups when nothing or nothing good comes back *)

(** X2: the lookup of the issue-fine screen.  Without a signed-in user or
    with a blank plate it does nothing.  When a pass fails, "Failed to
    search for vehicle" is shown and the vehicle shown before stays.  When
    both passes answer and find no row, "No Results" is shown and the
    vehicle shown before is cleared.  When the fallback pass finds exactly
    one row, that row is shown without any alert. *)
Theorem issueFine_search_edges (user : Id) (plate : string) (old : option Vehicle)
    (w : World) :
  let p := Plates.formatted plate in
  IssueFineScreen.searchVehicle None plate old w = (old, w) /\
  (Str.truthy (Str.trim plate) = false ->
   IssueFineScreen.searchVehicle (Some user) plate old w = (old, w)) /\
  (Str.truthy (Str.trim plate) = true ->
   let out := IssueFineScreen.searchVehicle (Some user) plate old w in
   (answers w = false ->
    fst out = old /\
    alerts (snd out) = mkAlert "Error" "Failed to search for vehicle" :: alerts w /\
    reqs (snd out) = exactPass p :: reqs w) /\
   (answers w = true -> exactRows p (db w) = [] -> answersAt 1 w = false ->
    fst out = old /\
    alerts (snd out) = mkAlert "Error" "Failed to search for vehicle" :: alerts w) /\
   (answers w = true -> exactRows p (db w) = [] ->
    answersAt 1 w = true -> similarRows p (db w) = [] ->
    fst out = None /\
    alerts (snd out)
      = mkAlert "No Results" "No vehicle found with this license plate." :: alerts w) /\
   (forall v, answers w = true -> exactRows p (db w) = [] ->
    answersAt 1 w = true -> similarRows p (db w) = [v] ->
    fst out = Some v /\ alerts (snd out) = alerts w)).
Proof.
  intros p. split; [reflexivity|]. split.
  - intros Hb. unfold IssueFineScreen.searchVehicle. rewrite Hb. reflexivity.
  - intros Hp out. subst out.
    unfold IssueFineScreen.searchVehicle. rewrite Hp.
    fold p. unfold exactRows, similarRows, exactPass, answers, answersAt.
    destruct w as [d n r a c nv t].
    destruct (filter (fun v => license_plate v =? p) (vehicles d)) as [|e es] eqn:E;
      destruct (filter (fun v => Store.ilike p (license_plate v)) (vehicles d))
        as [|i0 [|i1 irest]] eqn:I;
      destruct n as [|b0 [|b1 n]]; try destruct b0; try destruct b1; world_cbv;
      rewrite ?E; cbv beta iota; rewrite ?I; cbv beta iota;
      repeat split; intros; try discriminate; try congruence;
      repeat match goal with H : _ :: _ = _ :: _ |- _ => inversion H; clear H; subst end;
      auto.
Qed.

Lemma issueFine_search_edges_witness :
  fst (IssueFineScreen.searchVehicle (Some Sample.staffer) "zzz" (Some Sample.car1)
         Sample.world) = None /\
  alerts (snd (IssueFineScreen.searchVehicle (Some Sample.staffer) "zzz" (Some Sample.car1)
                 Sample.world))
    = mkAlert "No Results" "No vehicle found with this license plate."
      :: alerts Sample.world.
Proof.
  apply (proj1 (proj2 (proj2 (proj2 (proj2 (issueFine_search_edges Sample.staffer "zzz"
           (Some Sample.car1) Sample.world)) eq_refl)))); reflexivity.
Defined.

(** X3: the lookup of the record-tow screen.  With a blank plate it asks
    for one and changes nothing.  When the exact pass fails, an error is
    shown, the fallback pass is not run and the form holds no vehicle.  When
    the fallback pass fails, nothing is shown: the plate counts as not
    found, exactly as when the fallback pass finds no row.  The search never
    touches the plate, the place, the reason, the date, the notes or the
    fine part of the form. *)
Theorem recordTow_search_edges (f : RecordTowScreen.Form) (w : World) :
  let p := Plates.formatted (RecordTowScreen.licensePlate f) in
  let out := RecordTowScreen.searchVehicle f w in
  (Str.truthy (Str.trim (RecordTowScreen.licensePlate f)) = false ->
   fst out = f /\ reqs (snd out) = reqs w /\ db (snd out) = db w /\
   alerts (snd out) = mkAlert "Error" "Please enter a license plate number" :: alerts w) /\
  (Str.truthy (Str.trim (RecordTowScreen.licensePlate f)) = true ->
   (answers w = false ->
    RecordTowScreen.vehicleFound (fst out) = None /\
    RecordTowScreen.vehicleNotFound (fst out) = false /\
    reqs (snd out) = exactPass p :: reqs w /\
    alerts (snd out)
      = mkAlert "Error" "Failed to search for the vehicle. Please try again." :: alerts w) /\
   (answers w = true -> exactRows p (db w) = [] ->
    (answersAt 1 w = false \/ similarRows p (db w) = []) ->
    RecordTowScreen.vehicleFound (fst out) = None /\
    RecordTowScreen.vehicleNotFound (fst out) = true /\
    alerts (snd out) = alerts w)) /\
  (RecordTowScreen.licensePlate (fst out) = RecordTowScreen.licensePlate f /\
   RecordTowScreen.location (fst out) = RecordTowScreen.location f /\
   RecordTowScreen.reason (fst out) = RecordTowScreen.reason f /\
   RecordTowScreen.towDate (fst out) = RecordTowScreen.towDate f /\
   RecordTowScreen.notes (fst out) = RecordTowScreen.notes f /\
   RecordTowScreen.issueFineToo (fst out) = RecordTowScreen.issueFineToo f /\
   RecordTowScreen.fineAmount (fst out) = RecordTowScreen.fineAmount f /\
   RecordTowScreen.fineDescription (fst out) = RecordTowScreen.fineDescription f).
Proof.
  intros p out. subst out.
  unfold RecordTowScreen.searchVehicle.
  destruct (Str.truthy (Str.trim (RecordTowScreen.licensePlate f))) eqn:Hp.
  - fold p. unfold exactRows, similarRows, exactPass, answers, answersAt.
    destruct w as [d n r a c nv t].
    destruct (filter (fun v => license_plate v =? p) (vehicles d)) as [|e [|e' es]] eqn:E;
      destruct (filter (fun v => Store.ilike p (license_plate v)) (vehicles d))
        as [|i0 [|i1 irest]] eqn:I;
      destruct n as [|b0 [|b1 n]]; try destruct b0; try destruct b1; world_cbv;
      rewrite ?E; cbv beta iota; rewrite ?I; cbv beta iota;
      (split; [intros; discriminate|]);
      (split; [intros _; split; intros; try discriminate; try congruence;
               repeat match goal with H : _ \/ _ |- _ => destruct H end;
               try discriminate; try congruence; auto
              | repeat split; reflexivity ]).
  - world_cbv. split; [auto|]. split; [intros; discriminate|]. repeat split; reflexivity.
Qed.

Lemma recordTow_search_edges_witness :
  RecordTowScreen.vehicleNotFound
    (fst (RecordTowScreen.searchVehicle unknownPlateForm
            (mkWorld Sample.store [true; false] [] [] [] [] 0))) = true /\
  alerts (snd (RecordTowScreen.searchVehicle unknownPlateForm
                 (mkWorld Sample.store [true; false] [] [] [] [] 0))) = [].
Proof.
  destruct (proj2 (proj1 (proj2 (recordTow_search_edges unknownPlateForm
              (mkWorld Sample.store [true; false] [] [] [] [] 0))) eq_refl)
              eq_refl eq_refl (or_introl eq_refl)) as [_ [H1 H2]].
  split; assumption.
Defined.

(** ** The colour guessed from the plate *)

Lemma colorMatch_eq (s : string) :
  RecordTowScreen.colorMatch s =
    match find (fun c => prefix c s) RecordTowScreen.standardColors with
    | Some c => Some c
    | None => match s with
              | EmptyString => None
              | String _ s' => RecordTowScreen.colorMatch s'
              end
    end.
Proof. destruct s; reflexivity. Qed.

Lemma includes_eq (needle haystack : string) :
  Str.includes needle haystack =
    prefix needle haystack ||
    match haystack with
    | EmptyString => false
    | String _ h' => Str.includes needle h'
    end.
Proof. destruct haystack; reflexivity. Qed.

Lemma colorMatch_Some (s c : string) :
  RecordTowScreen.colorMatch s = Some c ->
  In c RecordTowScreen.standardColors /\ Str.includes c s = true.
Proof.
  induction s as [|a s IH]; rewrite colorMatch_eq, includes_eq;
    destruct (find _ RecordTowScreen.standardColors) as [c0|] eqn:E; intros H.
  - inversion H; subst. apply find_some in E. destruct E as [Hin Hp].
    split; [exact Hin|]. now rewrite Hp.
  - discriminate H.
  - inversion H; subst. apply find_some in E. destruct E as [Hin Hp].
    split; [exact Hin|]. now rewrite Hp.
  - destruct (IH H) as [Hin Hi]. split; [exact Hin|].
    rewrite Hi. apply orb_true_r.
Qed.

Lemma colorMatch_None (s : string) :
  RecordTowScreen.colorMatch s = None ->
  forall c, In c RecordTowScreen.standardColors -> Str.includes c s = false.
Proof.
  induction s as [|a s IH]; rewrite colorMatch_eq;
    destruct (find _ RecordTowScreen.standardColors) as [c0|] eqn:E;
    intros H c Hin.
  - discriminate H.
  - rewrite includes_eq, (find_none _ _ E c Hin). reflexivity.
  - discriminate H.
  - rewrite includes_eq, (find_none _ _ E c Hin). now apply IH.
Qed.

(** X4: after a search of the record-tow screen that finds no vehicle,
    the colour field of the form is guessed from the plate typed: when one
    of the ten standard colour words occurs in the lower-cased plate the
    field holds such a word, one that occurs in it; when none occurs the
    field keeps what the operator had typed.  Make, model and registered
    name keep what the operator had typed. *)
Theorem not_found_search_guesses_colour (f : RecordTowScreen.Form) (w : World) :
  Str.truthy (Str.trim (RecordTowScreen.licensePlate f)) = true ->
  RecordTowScreen.vehicleNotFound (result (RecordTowScreen.searchVehicle f) w) = true ->
  let f' := result (RecordTowScreen.searchVehicle f) w in
  let text := Str.toLowerCase (RecordTowScreen.licensePlate f) in
  ((exists c, In c RecordTowScreen.standardColors /\ Str.includes c text = true) ->
   In (RecordTowScreen.vehicleColor f') RecordTowScreen.standardColors /\
   Str.includes (RecordTowScreen.vehicleColor f') text = true) /\
  ((forall c, In c RecordTowScreen.standardColors -> Str.includes c text = false) ->
   RecordTowScreen.vehicleColor f' = RecordTowScreen.vehicleColor f) /\
  RecordTowScreen.vehicleMake f' = RecordTowScreen.vehicleMake f /\
  RecordTowScreen.vehicleModel f' = RecordTowScreen.vehicleModel f /\
  RecordTowScreen.registeredName f' = RecordTowScreen.registeredName f.
Proof.
  intros Hp. unfold result, RecordTowScreen.searchVehicle. rewrite Hp.
  set (p := Plates.formatted (RecordTowScreen.licensePlate f)).
  destruct w as [d n r a c nv t].
  destruct (filter (fun v => license_plate v =? p) (vehicles d)) as [|e [|e' es]] eqn:E;
    destruct (filter (fun v => Store.ilike p (license_plate v)) (vehicles d))
      as [|i0 [|i1 irest]] eqn:I;
    destruct n as [|b0 [|b1 n]]; try destruct b0; try destruct b1; world_cbv;
    rewrite ?E; cbv beta iota; rewrite ?I; cbv beta iota;
    cbv beta iota zeta delta [RecordTowScreen.fill RecordTowScreen.withSearch
      RecordTowScreen.vehicleNotFound RecordTowScreen.vehicleColor
      RecordTowScreen.vehicleMake RecordTowScreen.vehicleModel
      RecordTowScreen.registeredName];
    intros Hnf; try discriminate Hnf;
    (destruct (RecordTowScreen.colorMatch
                 (Str.toLowerCase (RecordTowScreen.licensePlate f))) as [col|] eqn:Ec;
     [ apply colorMatch_Some in Ec; destruct Ec as [Hin Hinc];
       split; [intros _; split; assumption|];
       split; [intros Hno; rewrite (Hno col Hin) in Hinc; discriminate|];
       repeat split; reflexivity
     | split; [intros [c0 [Hin Hinc]];
               rewrite (@colorMatch_None _ Ec c0 Hin) in Hinc; discriminate|];
       repeat split; reflexivity ]).
Qed.

Lemma not_found_search_guesses_colour_witness :
  RecordTowScreen.vehicleColor
    (result (RecordTowScreen.searchVehicle
               (RecordTowScreen.mkForm "zq-999" "" "" 0 "" "" "" "beige" "" None false false
                  "" "")) Sample.world) = "beige".
Proof.
  apply (proj1 (proj2 (not_found_search_guesses_colour
           (RecordTowScreen.mkForm "zq-999" "" "" 0 "" "" "" "beige" "" None false false
              "" "") Sample.world eq_refl eq_refl))).
  intros c Hin. simpl in Hin.
  repeat (destruct Hin as [<-|Hin]; [reflexivity|]). destruct Hin.
Defined.

(** ** Paying a fine: when no payment is taken, and what a payment leaves *)

(** X5: no payment is taken when the screen holds no fine or nobody is
    signed in (nothing happens at all), or when the store does not answer:
    then the store and the screen's copy of the fine are as before, the
    modal is as it was, and "Payment Failed" is shown. *)
Theorem payment_not_taken (session : option Id) (rand settled : Z)
    (s : FineDetailsScreen.State) (w : World) :
  (FineDetailsScreen.fineDetails s = None \/ session = None ->
   FineDetailsScreen.processPayment session rand settled s w = (s, w)) /\
  (FineDetailsScreen.fineDetails s <> None -> session <> None -> answers w = false ->
   let out := FineDetailsScreen.processPayment session rand settled s w in
   fst out = s /\
   db (snd out) = db w /\
   nav (snd out) = nav w /\
   alerts (snd out)
     = mkAlert "Payment Failed" "Failed to process your payment. Please try again."
       :: alerts w).
Proof.
  unfold FineDetailsScreen.processPayment.
  destruct (FineDetailsScreen.fineDetails s) as [fd|]; destruct session as [user|].
  - split; [intros [H|H]; discriminate H|].
    intros _ _ Hfail.
    erewrite bind_run by reflexivity.
    cbv zeta. erewrite bind_run by (apply write_failed; exact Hfail).
    repeat split.
  - split; [reflexivity|]. intros _ H. now contradiction H.
  - split; [reflexivity|]. intros H. now contradiction H.
  - split; [reflexivity|]. intros H. now contradiction H.
Qed.

Lemma openFine_shown (id user : Id) (w : World) (fd : FineDetailsScreen.FineDetails) :
  answers w = true ->
  FineDetailsScreen.fineDetails (fst (openFine id user w)) = Some fd ->
  exists v,
    filter (fun f => Nat.eqb (fine_id f) id) (fines (db w)) = [FineDetailsScreen.fd_fine fd] /\
    Store.findVehicle (db w) (fine_vehicle_id (FineDetailsScreen.fd_fine fd)) = Some v /\
    Store.optIdEqb (owner_id v) user = true /\
    fd = FineDetailsScreen.mkFineDetails (FineDetailsScreen.fd_fine fd)
           (license_plate v) (model v) (color v) /\
    openFine id user w
      = (FineDetailsScreen.mkState (Some fd) false, sent (SelectById TFines id) w).
Proof.
  intros Hok. unfold openFine, FineDetailsScreen.fetchFineDetails.
  erewrite bind_run by (apply selectSingle_answered; exact Hok).
  cbv beta.
  assert (Hfail : forall (w0 : World),
            FineDetailsScreen.fineDetails
              (fst ((consoleError "Error fetching fine details:" ;;;
                     alert "Error" "Failed to load fine details" ;;;
                     router_back ;;;
                     ret FineDetailsScreen.initial) w0)) = Some fd -> False)
    by (intros w0 H; discriminate H).
  destruct (filter (fun f => Nat.eqb (fine_id f) id) (fines (db w))) as [|f [|f' l]];
    cbn [map Store.single]; try (intros H; exfalso; exact (Hfail _ H)).
  destruct (Store.findVehicle (db w) (fine_vehicle_id f)) as [v|] eqn:Hv;
    [|intros H; exfalso; exact (Hfail _ H)].
  destruct (Store.optIdEqb (owner_id v) user) eqn:Ho; [|intros H; discriminate H].
  intros H. cbn in H. inversion H; subst. exists v. cbn.
  repeat split; assumption || reflexivity.
Qed.

Lemma fine_id_filter_markPaid (id i vid : Id) (t : Z) (tx : string) (l : list Fine) :
  filter (fun f => Nat.eqb (fine_id f) id)
         (map (fun f => if Nat.eqb (fine_id f) i && Nat.eqb (fine_vehicle_id f) vid
                        then FineDetailsScreen.markPaid t tx f else f) l)
  = map (fun f => if Nat.eqb (fine_id f) i && Nat.eqb (fine_vehicle_id f) vid
                  then FineDetailsScreen.markPaid t tx f else f)
        (filter (fun f => Nat.eqb (fine_id f) id) l).
Proof.
  apply filter_map_commute with (p := fun f => Nat.eqb (fine_id f) id).
  intros x. destruct (Nat.eqb (fine_id x) i && Nat.eqb (fine_vehicle_id x) vid); reflexivity.
Qed.

(** X6: a payment that goes through on a screen just opened closes the
    modal and leaves a paid copy of the fine on the screen.  The stored
    fine carries the time at which the update was sent, the copy on the
    screen the time read again once the update has been answered: opening
    the fine again reads back the fine the screen shows with the stored
    payment time, which is exactly what the screen shows when the two
    readings of the time agree, and differs from it in the payment date
    when they do not.  Whatever its due date and whatever the time, both
    the copy and the fine read back are displayed as paid and are not past
    due. *)
Theorem payment_then_reload (id user : Id) (rand settled : Z) (w : World)
    (fd : FineDetailsScreen.FineDetails) :
  answers w = true -> answersAt 1 w = true -> answersAt 2 w = true ->
  FineDetailsScreen.fineDetails (fst (openFine id user w)) = Some fd ->
  let opened := openFine id user w in
  let paidOut :=
    FineDetailsScreen.processPayment (Some user) rand settled (fst opened) (snd opened) in
  let tx := FineDetailsScreen.mockTransactionId rand (clock w) in
  let reloaded := openFine id user (snd paidOut) in
  fst paidOut = FineDetailsScreen.settledState settled tx fd /\
  FineDetailsScreen.paymentModalVisible (fst paidOut) = false /\
  copyStatus (fst paidOut) = Some paid /\
  fst reloaded = FineDetailsScreen.settledState (clock w) tx fd /\
  (settled = clock w -> fst reloaded = fst paidOut) /\
  (settled <> clock w -> fst reloaded <> fst paidOut) /\
  alerts (snd reloaded) = alerts (snd paidOut) /\
  (forall s f t,
     s = fst paidOut \/ s = fst reloaded ->
     option_map FineDetailsScreen.fd_fine (FineDetailsScreen.fineDetails s) = Some f ->
     FineDetailsScreen.statusBadge t f = paid /\
     FineDetailsScreen.isPastDue t f = false /\
     FineDetailsScreen.showsPaidMark f = true).
Proof.
  intros H0 H1 H2 Hfd.
  destruct (openFine_shown id user w H0 Hfd) as [v [Hrow [Hveh [Hown [Hfdv Hopen]]]]].
  rewrite Hopen. cbn [fst snd]. cbv zeta.
  set (f := FineDetailsScreen.fd_fine fd) in *.
  set (tx := FineDetailsScreen.mockTransactionId rand (clock w)).
  set (w1 := sent (SelectById TFines id) w).
  assert (Hid : fine_id f = id).
  { assert (Hin : In f (filter (fun f => Nat.eqb (fine_id f) id) (fines (db w))))
      by (rewrite Hrow; now left).
    apply filter_In in Hin. now apply Nat.eqb_eq. }
  assert (Hpay : exists shown logged,
             FineDetailsScreen.processPayment (Some user) rand settled
               (FineDetailsScreen.mkState (Some fd) false) w1
             = (FineDetailsScreen.settledState settled tx fd,
                mkWorld (FineDetailsScreen.payRows (fine_id f) (fine_vehicle_id f)
                           (clock w) tx (db w))
                        (tl (tl (net w)))
                        (UpdateRow TFines (fine_id f) :: SelectById TFines id :: reqs w)
                        shown logged (nav w) (clock w))).
  { unfold FineDetailsScreen.processPayment. cbn [FineDetailsScreen.fineDetails].
    erewrite (@bind_run _ _ now) by reflexivity. cbv beta zeta.
    erewrite bind_run
      by (apply write_answered; unfold w1; rewrite answers_sent; exact H1).
    cbv beta. fold f.
    destruct (FineDetailsScreen.amountText f); do 2 eexists; reflexivity. }
  destruct Hpay as [shown [logged Hpay]].
  rewrite Hpay. cbn [fst snd].
  assert (Hagain : openFine id user
            (mkWorld (FineDetailsScreen.payRows (fine_id f) (fine_vehicle_id f)
                        (clock w) tx (db w))
                     (tl (tl (net w)))
                     (UpdateRow TFines (fine_id f) :: SelectById TFines id :: reqs w)
                     shown logged (nav w) (clock w))
          = (FineDetailsScreen.mkState
               (Some (FineDetailsScreen.mkFineDetails
                        (FineDetailsScreen.markPaid (clock w) tx f)
                        (license_plate v) (model v) (color v))) false,
             sent (SelectById TFines id)
               (mkWorld (FineDetailsScreen.payRows (fine_id f) (fine_vehicle_id f)
                        (clock w) tx (db w))
                     (tl (tl (net w)))
                     (UpdateRow TFines (fine_id f) :: SelectById TFines id :: reqs w)
                     shown logged (nav w) (clock w)))).
  { unfold openFine, FineDetailsScreen.fetchFineDetails.
    erewrite bind_run.
    2:{ apply selectSingle_answered. unfold answers, answersAt in *. cbn [net].
        destruct (net w) as [|a [|b [|c l]]]; cbn in *; auto. }
    cbv beta.
    cbn [db FineDetailsScreen.payRows fines].
    rewrite fine_id_filter_markPaid, Hrow. cbn [map Store.single].
    rewrite !Nat.eqb_refl. cbn [andb].
    unfold Store.findVehicle in *.
    cbn [vehicles FineDetailsScreen.payRows fine_vehicle_id FineDetailsScreen.markPaid].
    fold f. rewrite Hveh, Hown. reflexivity. }
  rewrite Hagain. cbn [fst snd].
  assert (Hre : FineDetailsScreen.mkState
                  (Some (FineDetailsScreen.mkFineDetails
                           (FineDetailsScreen.markPaid (clock w) tx f)
                           (license_plate v) (model v) (color v))) false
                = FineDetailsScreen.settledState (clock w) tx fd)
    by (rewrite Hfdv; reflexivity).
  rewrite Hre.
  split; [reflexivity|]. split; [reflexivity|]. split; [reflexivity|].
  split; [reflexivity|].
  split; [intros ->; reflexivity|].
  split.
  { intros Hne Heq. apply Hne.
    unfold FineDetailsScreen.settledState, FineDetailsScreen.markPaid in Heq.
    now inversion Heq. }
  split; [reflexivity|].
  intros s g t Hs Hg.
  assert (Hg' : exists t0, g = FineDetailsScreen.markPaid t0 tx f).
  { destruct Hs as [-> | ->]; cbn in Hg; inversion Hg; eauto. }
  destruct Hg' as [t0 ->].
  unfold FineDetailsScreen.statusBadge, FineDetailsScreen.isPastDue,
    FineDetailsScreen.showsPaidMark.
  cbn [FineDetailsScreen.markPaid fine_status due_date FineDetailsScreen.isUnpaid
       FineDetailsScreen.isPaid].
  destruct (due_date f); rewrite ?andb_false_r; auto.
Qed.

Lemma payment_then_reload_witness :
  fst (openFine 20 Sample.alice
         (snd (FineDetailsScreen.processPayment (Some Sample.alice) 42 2003
                 (fst (openFine 20 Sample.alice Sample.world))
                 (snd (openFine 20 Sample.alice Sample.world)))))
  = FineDetailsScreen.settledState 2000 "TX-42-2000"
      (FineDetailsScreen.mkFineDetails Sample.fine1 "ABC123" "Corolla" "blue").
Proof.
  refine (proj1 (proj2 (proj2 (proj2 (@payment_then_reload 20 Sample.alice 42 2003
            Sample.world _ eq_refl eq_refl eq_refl eq_refl))))).
Defined.

(** ** The detail screens of an owner when the record cannot be shown *)

(** X7: the fine screen when the fine cannot be shown.  Without a fine
    identifier or a signed-in user nothing happens.  When the store does not
    answer or holds no fine with the identifier, "Failed to load fine
    details" is shown; when the fine is there but its vehicle belongs to
    somebody else (or to nobody), "You are not authorized to view this fine
    record" is shown.  In both cases the screen goes back to the one before,
    keeps the state it had, and the store is as before. *)
Theorem fine_details_unavailable (id user : Id) (s : FineDetailsScreen.State)
    (w : World) :
  let out := FineDetailsScreen.fetchFineDetails (Some id) (Some user) s w in
  (forall session, FineDetailsScreen.fetchFineDetails None session s w = (s, w)) /\
  FineDetailsScreen.fetchFineDetails (Some id) None s w = (s, w) /\
  (answers w = false \/ (forall f, In f (fines (db w)) -> fine_id f <> id) ->
   fst out = s /\
   alerts (snd out) = mkAlert "Error" "Failed to load fine details" :: alerts w /\
   nav (snd out) = tl (nav w) /\
   db (snd out) = db w) /\
  (forall f v, answers w = true ->
   filter (fun f => Nat.eqb (fine_id f) id) (fines (db w)) = [f] ->
   Store.findVehicle (db w) (fine_vehicle_id f) = Some v ->
   owner_id v <> Some user ->
   fst out = s /\
   alerts (snd out)
     = mkAlert "Error" "You are not authorized to view this fine record" :: alerts w /\
   nav (snd out) = tl (nav w) /\
   db (snd out) = db w).
Proof.
  intros out. subst out.
  split; [intros session; reflexivity|]. split; [reflexivity|].
  unfold FineDetailsScreen.fetchFineDetails. split.
  - intros [Hfail|Hnone].
    + erewrite bind_run by (apply selectSingle_failed; exact Hfail).
      repeat split.
    + destruct (answers w) eqn:Hok.
      * erewrite bind_run by (apply selectSingle_answered; exact Hok).
        cbv beta. rewrite filter_none; [repeat split|].
        intros f Hin. apply Nat.eqb_neq. now apply Hnone.
      * erewrite bind_run by (apply selectSingle_failed; exact Hok).
        repeat split.
  - intros f v Hok Hrow Hveh Hown.
    erewrite bind_run by (apply selectSingle_answered; exact Hok).
    cbv beta. rewrite Hrow. cbn [map Store.single]. rewrite Hveh.
    destruct (Store.optIdEqb (owner_id v) user) eqn:Ho.
    + apply optIdEqb_true in Ho. contradiction.
    + repeat split.
Qed.

Lemma fine_details_unavailable_witness :
  alerts (snd (FineDetailsScreen.fetchFineDetails (Some 21) (Some Sample.alice)
                 FineDetailsScreen.initial Sample.world))
  = [mkAlert "Error" "You are not authorized to view this fine record"].
Proof.
  refine (proj1 (proj2 (proj2 (proj2 (proj2 (fine_details_unavailable 21 Sample.alice
            FineDetailsScreen.initial Sample.world))) Sample.fine2 Sample.car2
            eq_refl eq_refl eq_refl _))).
  discriminate.
Defined.

(** X8: the tow screen when the tow cannot be shown.  Without a tow
    identifier or a signed-in user nothing happens.  When the store does not
    answer, holds no tow with the identifier, or holds the tow without a
    vehicle row to go with it, "Failed to load tow details" is shown; when
    the tow's vehicle belongs to somebody else (or to nobody), "You are not
    authorized to view this tow record" is shown.  In both cases the screen
    goes back to the one before, keeps what it showed, and the store is as
    before. *)
Theorem tow_details_unavailable (id user : Id) (shown : option (Tow * Vehicle))
    (w : World) :
  let out := TowDetailsScreen.fetchTowDetails (Some id) (Some user) shown w in
  (forall session, TowDetailsScreen.fetchTowDetails None session shown w = (shown, w)) /\
  TowDetailsScreen.fetchTowDetails (Some id) None shown w = (shown, w) /\
  (answers w = false \/
   (forall t, In t (tows (db w)) -> tow_id t = id ->
      match tow_vehicle_id t with
      | Some vid => Store.findVehicle (db w) vid = None
      | None => True
      end) ->
   fst out = shown /\
   alerts (snd out) = mkAlert "Error" "Failed to load tow details" :: alerts w /\
   nav (snd out) = tl (nav w) /\
   db (snd out) = db w) /\
  (forall t vid v, answers w = true ->
   filter (fun t => Nat.eqb (tow_id t) id) (tows (db w)) = [t] ->
   tow_vehicle_id t = Some vid ->
   Store.findVehicle (db w) vid = Some v ->
   owner_id v <> Some user ->
   fst out = shown /\
   alerts (snd out)
     = mkAlert "Error" "You are not authorized to view this tow record" :: alerts w /\
   nav (snd out) = tl (nav w) /\
   db (snd out) = db w).
Proof.
  intros out. subst out.
  split; [intros session; reflexivity|]. split; [reflexivity|].
  unfold TowDetailsScreen.fetchTowDetails. split.
  - assert (Hnone : forall l : list Tow,
              (forall t, In t l -> tow_id t = id ->
                 match tow_vehicle_id t with
                 | Some vid => Store.findVehicle (db w) vid = None
                 | None => True
                 end) ->
              flat_map (fun t => match tow_vehicle_id t with
                                 | Some vid =>
                                     match Store.findVehicle (db w) vid with
                                     | Some v => [(t, v)]
                                     | None => []
                                     end
                                 | None => []
                                 end)
                       (filter (fun t => Nat.eqb (tow_id t) id) l) = []).
    { induction l as [|t l IH]; intros H; [reflexivity|]. cbn [filter].
      destruct (Nat.eqb (tow_id t) id) eqn:E.
      - cbn [flat_map]. rewrite IH by (intros t' Ht'; apply H; now right).
        apply Nat.eqb_eq in E. specialize (H t (or_introl eq_refl) E).
        destruct (tow_vehicle_id t) as [vid|]; [rewrite H|]; reflexivity.
      - apply IH. intros t' Ht'. apply H. now right. }
    intros [Hfail|Hmiss].
    + erewrite bind_run by (apply selectSingle_failed; exact Hfail).
      repeat split.
    + destruct (answers w) eqn:Hok.
      * erewrite bind_run by (apply selectSingle_answered; exact Hok).
        cbv beta. rewrite (Hnone _ Hmiss). repeat split.
      * erewrite bind_run by (apply selectSingle_failed; exact Hok).
        repeat split.
  - intros t vid v Hok Hrow Hvid Hveh Hown.
    erewrite bind_run by (apply selectSingle_answered; exact Hok).
    cbv beta. rewrite Hrow. cbn [flat_map]. rewrite Hvid, Hveh.
    cbn [app Store.single].
    destruct (Store.optIdEqb (owner_id v) user) eqn:Ho.
    + apply optIdEqb_true in Ho. contradiction.
    + repeat split.
Qed.

(** ** Filing a complaint *)

Lemma bind_post {A B} (m : M A) (k : A -> M B) (P : B -> Prop) (w : World) :
  (forall a w', P (fst (k a w'))) -> P (fst (bind m k w)).
Proof. intros H. unfold bind. destruct (m w) as [a w']. apply H. Qed.

(** X9: a complaint form is refused before anything is sent when the
    subject is blank, when the description is blank, or when the complaint
    is not a general one and names no vehicle: one alert titled "Error" is
    shown, no request goes to the store and the store is as before. *)
Theorem complaint_refused (user : Id) (subject description complaintType : string)
    (vehicleId fineId towId : option Id) (w : World) :
  Str.truthy (Str.trim subject) = false \/
  Str.truthy (Str.trim description) = false \/
  (complaintType <> "general" /\ vehicleId = None) ->
  exists message,
    ComplaintScreen.handleSubmit user subject description complaintType
      vehicleId fineId towId w = (tt, alerted "Error" message w).
Proof.
  intros H. unfold ComplaintScreen.handleSubmit.
  destruct (Str.truthy (Str.trim subject)) eqn:Hs; [|eexists; reflexivity].
  destruct (Str.truthy (Str.trim description)) eqn:Hd; [|eexists; reflexivity].
  destruct H as [H|[H|[Ht Hv]]]; try discriminate H.
  subst vehicleId. apply String.eqb_neq in Ht. rewrite Ht.
  eexists; reflexivity.
Qed.

Lemma complaint_refused_witness :
  exists message,
    ComplaintScreen.handleSubmit Sample.alice "Wrong fine" "Not mine" "fine"
      None (Some 20) None Sample.world = (tt, alerted "Error" message Sample.world).
Proof.
  apply complaint_refused. right. right. split; [discriminate|reflexivity].
Defined.

Lemma handleSubmit_accepted (user : Id) (subject description complaintType : string)
    (vehicleId fineId towId : option Id) (w : World) :
  Str.truthy (Str.trim subject) = true ->
  Str.truthy (Str.trim description) = true ->
  complaintType = "general" \/ vehicleId <> None ->
  answers w = true ->
  ComplaintScreen.handleSubmit user subject description complaintType
    vehicleId fineId towId w
  = (tt, alerted "Complaint Submitted"
           "Your complaint has been submitted successfully. Our team will review it soon."
           (stored (ComplaintScreen.addComplaint
                      (mkComplaint (next_id (db w)) user subject description complaintType
                         vehicleId fineId towId pending (clock w) None None None) (db w))
                   (sent (InsertRow TComplaints) w))).
Proof.
  intros Hs Hd Hv Hok. unfold ComplaintScreen.handleSubmit. rewrite Hs, Hd.
  assert (Hc : negb (complaintType =? "general")
               && match vehicleId with Some _ => false | None => true end = false).
  { destruct Hv as [->|Hv]; [reflexivity|].
    destruct vehicleId; [apply andb_false_r | now contradiction Hv]. }
  rewrite Hc. cbn [negb].
  erewrite bind_run by reflexivity.
  erewrite bind_run by (apply write_answered; exact Hok).
  reflexivity.
Qed.

Lemma fetchComplaints_lists (user : Id) (w : World) :
  answers w = true ->
  exists views,
    result (MyComplaintsScreen.fetchComplaints (Some user)) w = Some views /\
    complaintsOf views
      = Store.orderDesc complaint_created_at
          (filter (fun c => Nat.eqb (complaint_user_id c) user) (complaints (db w))).
Proof.
  intros Hok. unfold result, MyComplaintsScreen.fetchComplaints.
  erewrite bind_run by (apply select_answered; exact Hok).
  cbv beta.
  destruct (Store.orderDesc complaint_created_at
              (filter (fun c => Nat.eqb (complaint_user_id c) user) (complaints (db w))))
    as [|c0 data].
  - exists []. split; reflexivity.
  - repeat (apply bind_post; intros ? ?).
    eexists. split; [reflexivity|].
    unfold complaintsOf. rewrite map_map. cbn [MyComplaintsScreen.cv_complaint].
    apply map_id.
Qed.

(** X10: a complaint that passes the form's checks and is accepted by the
    store is added as a pending complaint of the user who filed it, with
    the subject, description, type and references of the form and with no
    response and no resolution; no complaint already stored is changed.
    From then on the list of that user's complaints shows it, and the list
    of no other user does. *)
Theorem complaint_filed_is_listed (user : Id) (subject description complaintType : string)
    (vehicleId fineId towId : option Id) (w : World) :
  Str.truthy (Str.trim subject) = true ->
  Str.truthy (Str.trim description) = true ->
  complaintType = "general" \/ vehicleId <> None ->
  answers w = true -> answersAt 1 w = true ->
  let w' := run (ComplaintScreen.handleSubmit user subject description complaintType
                   vehicleId fineId towId) w in
  let c := mkComplaint (next_id (db w)) user subject description complaintType
             vehicleId fineId towId pending (clock w) None None None in
  complaints (db w') = (complaints (db w) ++ [c])%list /\
  (exists views,
     result (MyComplaintsScreen.fetchComplaints (Some user)) w' = Some views /\
     In c (complaintsOf views)) /\
  (forall other views,
     other <> user ->
     result (MyComplaintsScreen.fetchComplaints (Some other)) w' = Some views ->
     ~ In c (complaintsOf views)).
Proof.
  intros Hs Hd Hv H0 H1 w' c. subst w'. unfold run.
  rewrite (@handleSubmit_accepted user subject description complaintType vehicleId
             fineId towId w Hs Hd Hv H0).
  fold c. cbn [snd]. split; [reflexivity|]. split.
  - destruct (fetchComplaints_lists user
               (alerted "Complaint Submitted"
                  "Your complaint has been submitted successfully. Our team will review it soon."
                  (stored (ComplaintScreen.addComplaint c (db w))
                          (sent (InsertRow TComplaints) w))))
      as [views [Hres Hviews]].
    { unfold answers, answersAt in *. cbn [net alerted stored sent].
      destruct (net w) as [|a [|b l]]; cbn in *; auto. }
    exists views. split; [exact Hres|]. rewrite Hviews.
    apply orderDesc_In. apply filter_In. split.
    + cbn. apply in_or_app. right. now left.
    + cbn. apply Nat.eqb_refl.
  - intros other views Hne Hres Hin.
    unfold complaintsOf in Hin. apply in_map_iff in Hin.
    destruct Hin as [cv [Hcv Hin]].
    destruct (@fetchComplaints_scoped _ _ _ Hres cv Hin) as [_ Hown].
    unfold ownComplaint in Hown. rewrite Hcv in Hown. cbn in Hown. congruence.
Qed.

Lemma complaint_filed_is_listed_witness :
  exists views,
    result (MyComplaintsScreen.fetchComplaints (Some Sample.bob))
      (run (ComplaintScreen.handleSubmit Sample.bob "Towed twice" "Same day" "general"
              None None None) Sample.world) = Some views /\
    In (mkComplaint 100 Sample.bob "Towed twice" "Same day" "general" None None None
          pending 2000 None None None) (complaintsOf views).
Proof.
  apply (proj1 (proj2 (@complaint_filed_is_listed Sample.bob "Towed twice" "Same day"
           "general" None None None Sample.world eq_refl eq_refl (or_introl eq_refl)
           eq_refl eq_refl))).
Defined.

(** X11: the "Submit Complaint" link of the fine screen opens the complaint
    form for the fine shown.  A complaint filed through it with a subject
    and a description is never refused for want of a vehicle; once the
    store has accepted it, it is a complaint of type 'fine' by the user,
    about the fine shown and about the vehicle of that fine, which is a
    vehicle of the user's own. *)
Theorem complaint_from_fine_screen (id user : Id) (subject description : string)
    (w : World) (fd : FineDetailsScreen.FineDetails) :
  answers w = true -> answersAt 1 w = true ->
  FineDetailsScreen.fineDetails (fst (openFine id user w)) = Some fd ->
  Str.truthy (Str.trim subject) = true ->
  Str.truthy (Str.trim description) = true ->
  let opened := openFine id user w in
  let link := FineDetailsLinks.handleSubmitComplaint (fst opened) (snd opened) in
  exists p,
    fst link = Some p /\
    current (snd link) = Some "/complaint" /\
    exists c v,
      complaints (db (run (FineDetailsLinks.fileComplaint user p subject description)
                          (snd link)))
        = (complaints (db w) ++ [c])%list /\
      complaint_user_id c = user /\
      complaint_type c = "fine" /\
      complaint_fine_id c = Some id /\
      complaint_vehicle_id c = Some (vehicle_id v) /\
      complaint_tow_id c = None /\
      complaint_status c = pending /\
      In v (vehicles (db w)) /\
      owner_id v = Some user /\
      In (FineDetailsScreen.fd_fine fd) (fines (db w)) /\
      fine_id (FineDetailsScreen.fd_fine fd) = id /\
      fine_vehicle_id (FineDetailsScreen.fd_fine fd) = vehicle_id v.
Proof.
  intros H0 H1 Hfd Hs Hd.
  destruct (openFine_shown id user w H0 Hfd) as [v [Hrow [Hveh [Hown [Hfdv Hopen]]]]].
  rewrite Hopen. cbn [fst snd]. cbv zeta.
  set (f := FineDetailsScreen.fd_fine fd) in *.
  assert (Hin : In f (fines (db w)) /\ fine_id f = id).
  { assert (Hf : In f (filter (fun f => Nat.eqb (fine_id f) id) (fines (db w))))
      by (rewrite Hrow; now left).
    apply filter_In in Hf. destruct Hf as [Hf He]. apply Nat.eqb_eq in He. auto. }
  destruct Hin as [Hin Hid].
  apply findVehicle_In in Hveh. destruct Hveh as [Hvin Hvid].
  apply optIdEqb_true in Hown.
  unfold FineDetailsLinks.handleSubmitComplaint.
  cbn [FineDetailsScreen.fineDetails].
  eexists. split; [reflexivity|]. split; [reflexivity|].
  unfold run, FineDetailsLinks.fileComplaint.
  cbn [FineDetailsLinks.param_type FineDetailsLinks.param_vehicle_id
       FineDetailsLinks.param_fine_id FineDetailsLinks.param_tow_id snd].
  erewrite handleSubmit_accepted;
    [ | exact Hs | exact Hd | right; discriminate
      | unfold answers, answersAt in *; cbn; destruct (net w) as [|a [|b l]]; cbn in *; auto ].
  eexists. exists v. cbn [snd db alerted stored complaints ComplaintScreen.addComplaint].
  split; [reflexivity|].
  cbn [complaint_user_id complaint_type complaint_fine_id complaint_vehicle_id
       complaint_tow_id complaint_status].
  fold f. rewrite Hvid, Hid.
  repeat split; auto.
Qed.

Lemma complaint_from_fine_screen_witness :
  exists p,
    fst (FineDetailsLinks.handleSubmitComplaint (fst (openFine 20 Sample.alice Sample.world))
           (snd (openFine 20 Sample.alice Sample.world))) = Some p /\
    FineDetailsLinks.param_fine_id p = Some 20.
Proof.
  destruct (@complaint_from_fine_screen 20 Sample.alice "Wrong fine" "Not mine"
              Sample.world _ eq_refl eq_refl eq_refl eq_refl eq_refl)
    as [p [Hp _]].
  exists p. split; [exact Hp|].
  cbv in Hp. inversion Hp. reflexivity.
Defined.

(** ** Answering a complaint *)

(** X12: an update of a complaint's status that the store accepts changes
    the complaint with the identifier and no other, in the complaints table
    and nowhere else, and keeps its filer, subject, description, type,
    references and creation time.  When the screen's list holds the
    complaint, one unread notification of type 'complaint_update' is then
    sent to the filer named in the list, referring to the complaint; when
    it does not, none is sent.  "Success" is shown whether or not the
    notification was stored.  When the update itself is not answered,
    nothing is stored and no notification is sent. *)
Theorem complaint_update_notifies_filer (user id : Id) (shown : list Complaint)
    (newStatus : ComplaintStatus) (resp : option string) (w : World) :
  let w' := run (ComplaintReviewScreen.updateComplaintStatus (Some user) shown id
                   newStatus resp) w in
  (answers w = false ->
   db w' = db w /\ reqs w' = UpdateRow TComplaints id :: reqs w /\
   alerts w' = mkAlert "Error" "Failed to update complaint. Please try again." :: alerts w) /\
  (answers w = true ->
   (exists message, alerts w' = mkAlert "Success" message :: alerts w) /\
   profiles (db w') = profiles (db w) /\ vehicles (db w') = vehicles (db w) /\
   tows (db w') = tows (db w) /\ fines (db w') = fines (db w) /\
   Forall2 (fun c c' =>
              (complaint_id c <> id -> c' = c) /\
              complaint_id c' = complaint_id c /\
              complaint_user_id c' = complaint_user_id c /\
              complaint_subject c' = complaint_subject c /\
              complaint_description c' = complaint_description c /\
              complaint_type c' = complaint_type c /\
              complaint_vehicle_id c' = complaint_vehicle_id c /\
              complaint_fine_id c' = complaint_fine_id c /\
              complaint_tow_id c' = complaint_tow_id c /\
              complaint_created_at c' = complaint_created_at c)
           (complaints (db w)) (complaints (db w')) /\
   (find (fun c => Nat.eqb (complaint_id c) id) shown = None ->
    notifications (db w') = notifications (db w)) /\
   (forall c, find (fun c => Nat.eqb (complaint_id c) id) shown = Some c ->
      (answersAt 1 w = false -> notifications (db w') = notifications (db w)) /\
      (answersAt 1 w = true ->
       exists n, notifications (db w') = (notifications (db w) ++ [n])%list /\
                 notif_user_id n = complaint_user_id c /\
                 notif_type n = "complaint_update" /\
                 notif_related_id n = Some id /\
                 is_read n = false))).
Proof.
  intros w'. subst w'. unfold run, ComplaintReviewScreen.updateComplaintStatus.
  erewrite bind_run by reflexivity. split.
  - intros Hfail. erewrite bind_run by (apply write_failed; exact Hfail).
    repeat split.
  - intros Hok. erewrite bind_run by (apply write_answered; exact Hok).
    assert (Hrows : Forall2 (fun c c' =>
              (complaint_id c <> id -> c' = c) /\
              complaint_id c' = complaint_id c /\
              complaint_user_id c' = complaint_user_id c /\
              complaint_subject c' = complaint_subject c /\
              complaint_description c' = complaint_description c /\
              complaint_type c' = complaint_type c /\
              complaint_vehicle_id c' = complaint_vehicle_id c /\
              complaint_fine_id c' = complaint_fine_id c /\
              complaint_tow_id c' = complaint_tow_id c /\
              complaint_created_at c' = complaint_created_at c)
           (complaints (db w))
           (map (fun c => if Nat.eqb (complaint_id c) id
                          then ComplaintReviewScreen.applyUpdate newStatus resp (clock w) user c
                          else c) (complaints (db w)))).
    { induction (complaints (db w)) as [|c l IH]; cbn [map]; constructor; [|exact IH].
      destruct (Nat.eqb (complaint_id c) id) eqn:E.
      - apply Nat.eqb_eq in E. split; [intros Hne; now contradiction Hne|].
        repeat split.
      - repeat split. }
    destruct (find (fun c => Nat.eqb (complaint_id c) id) shown) as [c|].
    + destruct (answersAt 1 w) eqn:H1.
      * erewrite bind_run.
        2:{ erewrite bind_run
              by (apply write_answered; unfold stored; cbn [net];
                  change (answers (sent (UpdateRow TComplaints id) w) = true);
                  rewrite answers_sent; exact H1).
            reflexivity. }
        destruct (Str.truthyOpt resp);
          (split; [eexists; reflexivity|]);
          cbn [snd db alert alerted stored sent ComplaintReviewScreen.addNotification
               ComplaintReviewScreen.updateRows profiles vehicles tows fines complaints
               notifications];
          (repeat (split; [reflexivity|])); (split; [exact Hrows|]);
          (split; [intros H; discriminate H|]);
          intros c0 Hc0; inversion Hc0; subst c0;
          (split; [intros H; discriminate H|]); intros _;
          eexists; (split; [reflexivity|]); repeat split.
      * erewrite bind_run.
        2:{ erewrite bind_run
              by (apply write_failed; unfold stored; cbn [net];
                  change (answers (sent (UpdateRow TComplaints id) w) = false);
                  rewrite answers_sent; exact H1).
            reflexivity. }
        destruct (Str.truthyOpt resp);
          (split; [eexists; reflexivity|]);
          cbn [snd db alert alerted stored sent ComplaintReviewScreen.addNotification
               ComplaintReviewScreen.updateRows profiles vehicles tows fines complaints
               notifications];
          (repeat (split; [reflexivity|])); (split; [exact Hrows|]);
          (split; [intros H; discriminate H|]);
          intros c0 Hc0; inversion Hc0; subst c0;
          (split; [reflexivity|]); intros H; discriminate H.
    + erewrite bind_run by reflexivity.
      destruct (Str.truthyOpt resp);
        (split; [eexists; reflexivity|]);
        cbn [snd db alert alerted stored sent
             ComplaintReviewScreen.updateRows profiles vehicles tows fines complaints
             notifications];
        (repeat (split; [reflexivity|])); (split; [exact Hrows|]);
        (split; [reflexivity|]); intros c0 Hc0; discriminate Hc0.
Qed.

(** ** Recording a tow *)

Lemma answers_stored (d : DB) (w : World) : answers (stored d w) = answers w.
Proof. reflexivity. Qed.

Lemma answers_stored_sent (d : DB) (q : Request) (w : World) :
  answers (stored d (sent q w)) = answersAt 1 w.
Proof. rewrite answers_stored. apply answers_sent. Qed.

Lemma answers_sent2 (d d' : DB) (q q' : Request) (w : World) :
  answers (stored d' (sent q' (stored d (sent q w)))) = answersAt 2 w.
Proof.
  unfold answers, answersAt, stored, sent. cbn [net].
  destruct (net w) as [|a [|b [|c l]]]; reflexivity.
Qed.

(** X13: a tow form with a blank plate, a blank place or a blank reason
    is refused, and so is one that asks for a fine with a blank amount, an
    amount at whose start [parseFloat] reads no number, or a blank
    description: one alert titled "Error" is shown, nothing is sent to the
    store and nothing is stored. *)
Theorem tow_form_refused (session : option Id) (f : RecordTowScreen.Form) (w : World) :
  Str.truthy (Str.trim (RecordTowScreen.licensePlate f)) = false \/
  Str.truthy (Str.trim (RecordTowScreen.location f)) = false \/
  Str.truthy (Str.trim (RecordTowScreen.reason f)) = false \/
  (RecordTowScreen.issueFineToo f = true /\
   (Str.truthy (Str.trim (RecordTowScreen.fineAmount f)) = false \/
    RecordTowScreen.isNaN (Str.parseFloat (RecordTowScreen.fineAmount f)) = true \/
    Str.truthy (Str.trim (RecordTowScreen.fineDescription f)) = false)) ->
  exists message,
    RecordTowScreen.handleSubmitTow session f w = (tt, alerted "Error" message w).
Proof.
  intros H. unfold RecordTowScreen.handleSubmitTow.
  destruct (Str.truthy (Str.trim (RecordTowScreen.licensePlate f))) eqn:Hp;
    [|eexists; reflexivity].
  destruct (Str.truthy (Str.trim (RecordTowScreen.location f))) eqn:Hl;
    [|eexists; reflexivity].
  destruct (Str.truthy (Str.trim (RecordTowScreen.reason f))) eqn:Hr;
    [|eexists; reflexivity].
  destruct H as [H|[H|[H|[Hfine H]]]]; try discriminate H.
  rewrite Hfine. cbn [negb andb].
  destruct (Str.truthy (Str.trim (RecordTowScreen.fineAmount f))) eqn:Ha;
    [|eexists; reflexivity].
  destruct (RecordTowScreen.isNaN (Str.parseFloat (RecordTowScreen.fineAmount f))) eqn:Hn;
    [eexists; reflexivity|].
  destruct H as [H|[H|H]]; try discriminate H.
  rewrite H. eexists; reflexivity.
Qed.

Lemma tow_form_refused_witness :
  exists message,
    RecordTowScreen.handleSubmitTow (Some Sample.staffer)
      (RecordTowScreen.mkForm "ABC123" "Main Street" "Blocking a driveway" 1500 ""
         "" "" "" "" (Some Sample.car1) false true "a lot" "Towing fee")
      Sample.world
    = (tt, alerted "Error" message Sample.world).
Proof.
  apply tow_form_refused. right. right. right.
  split; [reflexivity|]. right. left. reflexivity.
Defined.

(** X14: a valid tow form with a fine, for a vehicle the search has found,
    the store answering.  No vehicle row is created.  One tow is added:
    for that vehicle, 'active', with the plate of the form in normal form
    and the signed-in user (if any) as its creator.  One fine is added: for
    that vehicle, linked to the new tow, unpaid, without payment date or
    transaction, issued now and due thirty days from now.  When the vehicle
    has an owner and the store answers once more, one unread notification
    of type 'tow' goes to that owner, referring to the new tow; when it has
    none, no notification is written.  The operator is shown "Tow record
    created successfully with associated fine". *)
Theorem tow_with_fine_for_known_vehicle (session : option Id)
    (f : RecordTowScreen.Form) (v : Vehicle) (w : World) :
  RecordTowScreen.vehicleFound f = Some v ->
  valid f = true ->
  RecordTowScreen.issueFineToo f = true ->
  answers w = true -> answersAt 1 w = true ->
  let w' := run (RecordTowScreen.handleSubmitTow session f) w in
  exists t fn,
    vehicles (db w') = vehicles (db w) /\
    tows (db w') = (tows (db w) ++ [t])%list /\
    fines (db w') = (fines (db w) ++ [fn])%list /\
    tow_vehicle_id t = Some (vehicle_id v) /\
    tow_status t = "active" /\
    tow_license_plate t = Plates.formatted (RecordTowScreen.licensePlate f) /\
    tow_created_by t = session /\
    fine_vehicle_id fn = vehicle_id v /\
    fine_tow_id fn = Some (tow_id t) /\
    fine_status fn = unpaid /\
    payment_date fn = None /\ transaction_id fn = None /\
    issue_date fn = clock w /\
    due_date fn = Some (clock w + 30 * 24 * 60 * 60 * 1000)%Z /\
    fine_created_by fn = session /\
    (owner_id v = None -> notifications (db w') = notifications (db w)) /\
    (forall owner, owner_id v = Some owner -> answersAt 2 w = true ->
       exists n, notifications (db w') = (notifications (db w) ++ [n])%list /\
                 notif_user_id n = owner /\
                 notif_type n = "tow" /\
                 notif_related_id n = Some (tow_id t) /\
                 is_read n = false) /\
    hd_error (alerts w')
      = Some (mkAlert "Success" "Tow record created successfully with associated fine").
Proof.
  intros Hf Hvalid Hfine H0 H1 w'. subst w'.
  rewrite (handleSubmitTow_valid session f Hvalid).
  unfold run, RecordTowScreen.recordTow, RecordTowScreen.resolveVehicle,
    RecordTowScreen.notifyOwner.
  rewrite Hf, Hfine.
  erewrite bind_run by reflexivity.
  erewrite bind_run by (apply write_answered; exact H0).
  cbv beta iota.
  erewrite bind_run.
  2:{ erewrite bind_run by reflexivity.
      apply write_answered. rewrite answers_stored_sent. exact H1. }
  cbv beta iota.
  exists (RecordTowScreen.towPayload session f (Some (vehicle_id v)) (next_id (db w))).
  eexists.
  destruct (owner_id v) as [owner|] eqn:Ho.
  - destruct (answersAt 2 w) eqn:H2.
    + erewrite bind_run.
      2:{ erewrite bind_run by (apply write_answered; rewrite answers_sent2; exact H2).
          reflexivity. }
      cbn. repeat (split; [reflexivity|]).
      split; [intros H; discriminate H|].
      split; [|reflexivity].
      intros o Ho' _. inversion Ho'; subst o.
      eexists. split; [reflexivity|]. repeat split.
    + erewrite bind_run.
      2:{ erewrite bind_run by (apply write_failed; rewrite answers_sent2; exact H2).
          reflexivity. }
      cbn. repeat (split; [reflexivity|]).
      split; [|reflexivity].
      intros o _ H. discriminate H.
  - erewrite bind_run by reflexivity.
    cbn. repeat (split; [reflexivity|]).
    split; [|reflexivity].
    intros o H. discriminate H.
Qed.

Lemma tow_with_fine_for_known_vehicle_witness :
  exists t fn,
    tows (db (run (RecordTowScreen.handleSubmitTow (Some Sample.staffer) fineForm)
                  Sample.world)) = [t] /\
    fines (db (run (RecordTowScreen.handleSubmitTow (Some Sample.staffer) fineForm)
                   Sample.world)) = [Sample.fine1; Sample.fine2; fn] /\
    fine_tow_id fn = Some (tow_id t).
Proof.
  destruct (@tow_with_fine_for_known_vehicle (Some Sample.staffer) fineForm Sample.car1
              Sample.world eq_refl eq_refl eq_refl eq_refl eq_refl)
    as [t [fn [_ [Ht [Hfn [_ [_ [_ [_ [_ [Hlink _]]]]]]]]]]].
  exists t, fn. repeat split; assumption.
Defined.

(** ** Issuing a fine *)

Lemma truthy_false (s : string) : Str.truthy s = false <-> s = "".
Proof. destruct s; split; intros H; try reflexivity; discriminate H. Qed.

Lemma truthy_true (s : string) : Str.truthy s = true <-> s <> "".
Proof.
  destruct s; split; intros H; try reflexivity; try discriminate.
  now contradiction H.
Qed.

(** X15: no fine is issued, and nothing is sent to the store, when no
    vehicle is selected or nobody is signed in (nothing happens at all) or
    when the amount or the description is empty ("Missing Information" is
    shown).  When the store does not answer, "Failed to issue fine" is
    shown and the store is as before. *)
Theorem fine_not_issued (session : option Id) (vehicle : option Vehicle)
    (form : IssueFineScreen.FineForm) (w : World) :
  (vehicle = None \/ session = None ->
   IssueFineScreen.issueFine session vehicle form w = (tt, w)) /\
  (vehicle <> None -> session <> None ->
   IssueFineScreen.amount form = "" \/ IssueFineScreen.description form = "" ->
   IssueFineScreen.issueFine session vehicle form w
   = (tt, alerted "Missing Information" "Please fill in all fine details" w)) /\
  (vehicle <> None -> session <> None ->
   IssueFineScreen.amount form <> "" -> IssueFineScreen.description form <> "" ->
   answers w = false ->
   let w' := run (IssueFineScreen.issueFine session vehicle form) w in
   db w' = db w /\
   reqs w' = InsertRow TFines :: reqs w /\
   alerts w' = mkAlert "Error" "Failed to issue fine" :: alerts w).
Proof.
  unfold run, IssueFineScreen.issueFine.
  destruct vehicle as [v|]; destruct session as [user|];
    try (split; [reflexivity|]; split; intros H; try (now contradiction H);
         intros H'; now contradiction H').
  split; [intros [H|H]; discriminate H|]. split.
  - intros _ _ [H|H]; apply truthy_false in H; rewrite H;
      [|rewrite orb_true_r]; reflexivity.
  - intros _ _ Ha Hd Hfail. apply truthy_true in Ha. apply truthy_true in Hd.
    rewrite Ha, Hd. cbn [negb orb].
    erewrite bind_run by reflexivity.
    erewrite bind_run by (apply write_failed; exact Hfail).
    repeat split.
Qed.



(** ** Registering, finding and deleting a vehicle *)



Lemma prefix_includes (a b : string) : prefix a b = true -> Str.includes a b = true.
Proof. intros H. rewrite includes_eq, H. reflexivity. Qed.




Lemma toLowerCase_toUpperCase (s : string) :
  Str.toLowerCase (Str.toUpperCase s) = Str.toLowerCase s.
Proof.
  unfold Str.toLowerCase, Str.toUpperCase.
  induction s as [|c s IH]; cbn [Str.map]; [reflexivity|].
  now rewrite lowerChar_upperChar, IH.
Qed.

(** ** Patterns without pattern characters *)

Lemma patternChar_lowerChar (c : ascii) :
  patternChar (Str.lowerChar c) = patternChar c.
Proof. destruct c as [[] [] [] [] [] [] [] []]; reflexivity. Qed.

Lemma patternChar_upperChar (c : ascii) :
  patternChar (Str.upperChar c) = patternChar c.
Proof. destruct c as [[] [] [] [] [] [] [] []]; reflexivity. Qed.

Lemma patternFree_map (f : ascii -> ascii) (s : string) :
  (forall c, patternChar (f c) = patternChar c) ->
  patternFree (Str.map f s) = patternFree s.
Proof.
  intros Hf. induction s as [|c s IH]; cbn [Str.map patternFree]; [reflexivity|].
  now rewrite Hf, IH.
Qed.

Lemma patternFree_trimStart (s : string) :
  patternFree s = true -> patternFree (Str.trimStart s) = true.
Proof.
  induction s as [|c s IH]; [auto|]. cbn [Str.trimStart].
  destruct (Str.isSpace c); [|auto].
  cbn [patternFree]. intros H. apply andb_true_iff in H. now apply IH.
Qed.

Lemma patternFree_trimEnd (s : string) :
  patternFree s = true -> patternFree (Str.trimEnd s) = true.
Proof.
  induction s as [|c s IH]; [auto|]. cbn [Str.trimEnd patternFree].
  intros H. apply andb_true_iff in H. destruct H as [Hc Hs].
  specialize (IH Hs).
  destruct (Str.trimEnd s) as [|d t].
  - destruct (Str.isSpace c); [reflexivity|]. cbn [patternFree]. now rewrite Hc.
  - change (negb (patternChar c) && patternFree (String d t) = true).
    now rewrite Hc, IH.
Qed.

Lemma patternFree_formatted (plate : string) :
  patternFree plate = true -> patternFree (Plates.formatted plate) = true.
Proof.
  intros H. unfold Plates.formatted, Str.toUpperCase, Str.trim.
  rewrite patternFree_map by apply patternChar_upperChar.
  now apply patternFree_trimEnd, patternFree_trimStart.
Qed.

Lemma tokens_literals (q r : string) :
  patternFree q = true ->
  Store.tokens (q ++ r) = (literals q ++ Store.tokens r)%list.
Proof.
  induction q as [|c q IH]; [reflexivity|].
  cbn [patternFree]. intros H. apply andb_true_iff in H. destruct H as [Hc Hq].
  cbn [append Store.tokens literals app].
  unfold patternChar in Hc. apply negb_true_iff in Hc.
  apply orb_false_iff in Hc. destruct Hc as [Hc H4].
  apply orb_false_iff in Hc. destruct Hc as [Hc H3].
  apply orb_false_iff in Hc. destruct Hc as [H1 H2].
  rewrite H1, H2, H3, H4. cbn [orb]. now rewrite IH.
Qed.

Lemma matches_anyRun (ts : list Store.Token) (s : string) :
  Store.matches (Store.AnyRun :: ts) s
  = Store.matches ts s
    || match s with
       | String _ s' => Store.matches (Store.AnyRun :: ts) s'
       | EmptyString => false
       end.
Proof. destruct s; reflexivity. Qed.

Lemma matches_any (s : string) : Store.matches [Store.AnyRun] s = true.
Proof.
  induction s as [|c s IH]; [reflexivity|].
  rewrite matches_anyRun, IH. apply orb_true_r.
Qed.

Lemma matches_literals (q s : string) :
  Store.matches (literals q ++ [Store.AnyRun]) s = prefix q s.
Proof.
  revert s. induction q as [|c q IH]; intros s.
  - cbn [literals app]. rewrite matches_any. destruct s; reflexivity.
  - cbn [literals app]. destruct s as [|d s]; [reflexivity|].
    cbn [Store.matches prefix]. rewrite IH.
    destruct (ascii_dec c d) as [->|Hne].
    + now rewrite Ascii.eqb_refl.
    + apply Ascii.eqb_neq in Hne. now rewrite Hne.
Qed.

Lemma matches_contains (q s : string) :
  Store.matches (Store.AnyRun :: literals q ++ [Store.AnyRun]) s = Str.includes q s.
Proof.
  induction s as [|d s IH]; rewrite matches_anyRun, includes_eq, matches_literals;
    [reflexivity|now rewrite IH].
Qed.

Lemma map_append (f : ascii -> ascii) (a b : string) :
  Str.map f (a ++ b) = Str.map f a ++ Str.map f b.
Proof. induction a as [|c a IH]; cbn [append Str.map]; [reflexivity|now rewrite IH]. Qed.

(** A pattern made of a text without pattern characters between two
    percent signs matches the values that contain the text, whatever the
    case of the letters. *)
Lemma ilike_contains (p s : string) :
  patternFree p = true ->
  Store.ilike p s = Str.includes (Str.toLowerCase p) (Str.toLowerCase s).
Proof.
  intros Hp. unfold Store.ilike, Store.ilikePattern.
  change ("%" ++ p ++ "%") with (String "%" (p ++ "%")).
  unfold Str.toLowerCase at 1. cbn [Str.map].
  change (Str.lowerChar "%") with "%"%char.
  rewrite map_append. fold (Str.toLowerCase p).
  change (Str.map Str.lowerChar "%") with "%".
  change (Store.tokens (String "%" (Str.toLowerCase p ++ "%")))
    with (Store.AnyRun :: Store.tokens (Str.toLowerCase p ++ "%")).
  rewrite tokens_literals
    by (unfold Str.toLowerCase; rewrite patternFree_map by apply patternChar_lowerChar;
        exact Hp).
  change (Store.tokens "%") with [Store.AnyRun].
  apply matches_contains.
Qed.


(** A plate typed with a backslash is registered as typed, and the
    fallback pass of a lookup of the same text does not match it: in the
    pattern the backslash makes the character after it stand for itself
    and is not looked for. *)
Lemma backslash_plate_missed :
  Store.ilike (Plates.formatted "ab\cd") (Str.toUpperCase "ab\cd") = false /\
  Store.ilike "A_C123" "ABC123" = true /\
  Str.includes (Str.toLowerCase "A_C123") (Str.toLowerCase "ABC123") = false.
Proof. repeat split; vm_compute; reflexivity. Qed.




(** X18: deleting the vehicle shown.  Without a vehicle on the screen or
    a signed-in user nothing happens.  When the store answers, the vehicles
    left are exactly those that do not have both the identifier of the
    vehicle shown and the signed-in user as owner, in the order they had: a
    vehicle of anybody else is never deleted.  One request is sent, the
    screen goes back, and opening the details of the vehicle again fails
    with "Failed to load vehicle details".  When the store does not
    answer, nothing is deleted and "Failed to delete vehicle" is shown. *)
Theorem vehicle_deleted (user : Id) (v : Vehicle) (w : World) :
  let w' := run (DeleteVehicle.confirmDeleteVehicle (Some user) (Some v)) w in
  (forall session, DeleteVehicle.confirmDeleteVehicle session None w = (tt, w)) /\
  (forall shown, DeleteVehicle.confirmDeleteVehicle None shown w = (tt, w)) /\
  reqs w' = DeleteRow TVehicles (vehicle_id v) :: reqs w /\
  (answers w = false ->
   db w' = db w /\ nav w' = nav w /\
   alerts w' = mkAlert "Error" "Failed to delete vehicle" :: alerts w) /\
  (answers w = true ->
   vehicles (db w')
     = filter (fun v' => negb (Nat.eqb (vehicle_id v') (vehicle_id v)
                               && Store.optIdEqb (owner_id v') user))
              (vehicles (db w)) /\
   (forall v', In v' (vehicles (db w)) -> owner_id v' <> Some user ->
               In v' (vehicles (db w'))) /\
   (forall v', In v' (vehicles (db w)) -> vehicle_id v' <> vehicle_id v ->
               In v' (vehicles (db w'))) /\
   nav w' = tl (nav w) /\
   alerts w' = mkAlert "Success" "Vehicle deleted successfully" :: alerts w /\
   (forall shown,
      let again := VehicleDetailsScreen.fetchVehicleDetails (Some (vehicle_id v))
                     (Some user) shown w' in
      fst again = shown /\
      alerts (snd again) = mkAlert "Error" "Failed to load vehicle details" :: alerts w')).
Proof.
  intros w'. subst w'.
  split; [intros [u|]; reflexivity|].
  split; [intros [v'|]; reflexivity|].
  unfold run, DeleteVehicle.confirmDeleteVehicle.
  destruct (answers w) eqn:Hok.
  - erewrite bind_run by (apply write_answered; exact Hok).
    cbn [snd bind alert router_back setNav db stored sent DeleteVehicle.deleteRows
         vehicles reqs alerts nav fst].
    split; [reflexivity|]. split; [intros H; discriminate H|]. intros _.
    split; [reflexivity|]. split; [|split; [|split; [|split]]].
    + intros v' Hin Hown. apply filter_In. split; [exact Hin|].
      destruct (Store.optIdEqb (owner_id v') user) eqn:E;
        [apply optIdEqb_true in E; contradiction|].
      now rewrite andb_false_r.
    + intros v' Hin Hid. apply filter_In. split; [exact Hin|].
      apply Nat.eqb_neq in Hid. now rewrite Hid.
    + reflexivity.
    + reflexivity.
    + intros shown. cbv zeta.
      unfold VehicleDetailsScreen.fetchVehicleDetails.
      destruct (selectSingle_spec (SelectById TVehicles (vehicle_id v))
                  (fun d => filter (fun v0 => Nat.eqb (vehicle_id v0) (vehicle_id v)
                                              && Store.optIdEqb (owner_id v0) user)
                                   (vehicles d))
                  (mkWorld (DeleteVehicle.deleteRows (vehicle_id v) user (db w))
                     (tl (net w)) (DeleteRow TVehicles (vehicle_id v) :: reqs w)
                     (mkAlert "Success" "Vehicle deleted successfully" :: alerts w)
                     (console w) (tl (nav w)) (clock w))) as [ok Hsel].
      erewrite bind_run by exact Hsel.
      assert (Hgone : filter (fun v0 => Nat.eqb (vehicle_id v0) (vehicle_id v)
                                        && Store.optIdEqb (owner_id v0) user)
                        (vehicles (DeleteVehicle.deleteRows (vehicle_id v) user (db w)))
                      = []).
      { apply filter_none. intros x Hx.
        cbn [DeleteVehicle.deleteRows vehicles] in Hx. apply filter_In in Hx.
        destruct Hx as [_ Hx]. now apply negb_true_iff in Hx. }
      cbn [db]. rewrite Hgone. destruct ok; split; reflexivity.
  - erewrite bind_run by (apply write_failed; exact Hok).
    split; [reflexivity|]. split; [intros _; repeat split|intros H; discriminate H].
Qed.

(** ** The search box of the vehicle list *)

Lemma trim_map (f : ascii -> ascii) (s : string) :
  (forall c, Str.isSpace (f c) = Str.isSpace c) ->
  Str.trim (Str.map f s) = Str.map f (Str.trim s).
Proof.
  intros Hf.
  assert (Hs : forall s, Str.trimStart (Str.map f s) = Str.map f (Str.trimStart s)).
  { induction s0 as [|c s0 IH]; cbn [Str.map Str.trimStart]; [reflexivity|].
    rewrite Hf. destruct (Str.isSpace c); [exact IH|reflexivity]. }
  assert (He : forall s, Str.trimEnd (Str.map f s) = Str.map f (Str.trimEnd s)).
  { induction s0 as [|c s0 IH]; cbn [Str.map Str.trimEnd]; [reflexivity|].
    rewrite IH, Hf.
    destruct (Str.trimEnd s0); cbn [Str.map]; [destruct (Str.isSpace c)|]; reflexivity. }
  unfold Str.trim. now rewrite Hs, He.
Qed.

Lemma map_blank (f : ascii -> ascii) (s : string) : (Str.map f s =? "") = (s =? "").
Proof. destruct s; reflexivity. Qed.

Lemma lowerChar_idem (c : ascii) : Str.lowerChar (Str.lowerChar c) = Str.lowerChar c.
Proof. destruct c as [[] [] [] [] [] [] [] []]; reflexivity. Qed.

Lemma toLowerCase_idem (s : string) :
  Str.toLowerCase (Str.toLowerCase s) = Str.toLowerCase s.
Proof.
  unfold Str.toLowerCase. induction s as [|c s IH]; cbn [Str.map]; [reflexivity|].
  now rewrite lowerChar_idem, IH.
Qed.

Lemma filter_idem {A} (p : A -> bool) (l : list A) : filter p (filter p l) = filter p l.
Proof.
  induction l as [|x l IH]; cbn [filter]; [reflexivity|].
  destruct (p x) eqn:E; [cbn [filter]; now rewrite E, IH|exact IH].
Qed.

(** X19: the search box of the vehicle list.  A query that is empty or
    all blanks shows every vehicle.  Any other query shows, in their order,
    only vehicles of the list, among them every vehicle whose plate
    contains the query whatever the case of the letters; applying the same
    query to what is shown changes nothing; and the case of the letters
    typed does not matter. *)
Theorem vehicle_filter_behaviour (searchQuery : string) (shown : list Vehicle) :
  (Str.trim searchQuery = "" -> VehicleFilter.filtered searchQuery shown = shown) /\
  (forall v, In v (VehicleFilter.filtered searchQuery shown) -> In v shown) /\
  (forall v, In v shown ->
             Str.includes (Str.toLowerCase searchQuery)
                          (Str.toLowerCase (license_plate v)) = true ->
             In v (VehicleFilter.filtered searchQuery shown)) /\
  VehicleFilter.filtered searchQuery (VehicleFilter.filtered searchQuery shown)
    = VehicleFilter.filtered searchQuery shown /\
  VehicleFilter.filtered (Str.toUpperCase searchQuery) shown
    = VehicleFilter.filtered searchQuery shown /\
  VehicleFilter.filtered (Str.toLowerCase searchQuery) shown
    = VehicleFilter.filtered searchQuery shown.
Proof.
  unfold VehicleFilter.filtered.
  split; [intros ->; reflexivity|].
  split; [intros v; destruct (Str.trim searchQuery =? ""); [auto|];
          intros H; apply filter_In in H; tauto|].
  split; [intros v Hin Hlike; destruct (Str.trim searchQuery =? ""); [exact Hin|];
          apply filter_In; split; [exact Hin|];
          rewrite Hlike; reflexivity|].
  split; [destruct (Str.trim searchQuery =? ""); [reflexivity|apply filter_idem]|].
  split.
  - unfold Str.toUpperCase at 1. rewrite trim_map by apply isSpace_upperChar.
    rewrite map_blank, toLowerCase_toUpperCase. reflexivity.
  - unfold Str.toLowerCase at 1. rewrite trim_map by apply isSpace_lowerChar.
    rewrite map_blank. fold (Str.toLowerCase searchQuery).
    rewrite toLowerCase_idem. reflexivity.
Qed.

(** ** The forms of the login and signup screens *)

Lemma prefix_nil (s : string) : prefix "" s = true.
Proof. destruct s; reflexivity. Qed.

Lemma includes_here (c : ascii) (s : string) :
  Str.includes (String c "") (String c s) = true.
Proof.
  rewrite includes_eq. cbn [prefix].
  destruct (ascii_dec c c) as [_|Hn]; [|now contradiction Hn].
  now rewrite prefix_nil.
Qed.

Lemma includes_later (n : string) (c : ascii) (s : string) :
  Str.includes n s = true -> Str.includes n (String c s) = true.
Proof.
  intros H. change (prefix n (String c s) || Str.includes n s = true).
  rewrite H. apply orb_true_r.
Qed.

Lemma dotThenMore_includes (s : string) :
  Email.dotThenMore (fst (Email.takeRun s)) = true -> Str.includes "." s = true.
Proof.
  induction s as [|c s IH]; cbn [Email.takeRun]; [discriminate|].
  destruct (Str.isSpace c); [discriminate|].
  destruct (Email.takeRun s) as [r rest]. cbn [fst] in *. cbn [Email.dotThenMore].
  intros H. apply orb_true_iff in H. destruct H as [H|H].
  - apply andb_true_iff in H. destruct H as [H _]. apply Ascii.eqb_eq in H. subst c.
    apply includes_here.
  - apply includes_later. now apply IH.
Qed.

Lemma domainLike_includes (s : string) :
  Email.domainLike (fst (Email.takeRun s)) = true -> Str.includes "." s = true.
Proof.
  intros H. apply dotThenMore_includes.
  destruct (fst (Email.takeRun s)) as [|c r]; [discriminate H|].
  cbn [Email.domainLike] in H. cbn [Email.dotThenMore]. rewrite H. apply orb_true_r.
Qed.

Lemma testFrom_includes (prev : bool) (s : string) :
  Email.testFrom prev s = true ->
  Str.includes "@" s = true /\ Str.includes "." s = true.
Proof.
  revert prev. induction s as [|c s IH]; intros prev; cbn [Email.testFrom];
    [discriminate|].
  intros H. apply orb_true_iff in H. destruct H as [H|H].
  - apply andb_true_iff in H. destruct H as [H Hd].
    apply andb_true_iff in H. destruct H as [_ Hc].
    apply Ascii.eqb_eq in Hc. subst c. split.
    + apply includes_here.
    + apply includes_later. now apply domainLike_includes.
  - destruct (IH _ H) as [Ha Hd]. split; now apply includes_later.
Qed.

(** X20: the login form.  A form that passes validation has an e-mail
    text with an at sign and a dot in it and a password of at least six
    characters.  A form that does not pass is not submitted: whatever the
    auth service would answer, nothing is shown, nothing is sent and the
    screen stays where it is. *)
Theorem login_form_checks (email password : string) (auth : Resp (option Id))
    (w : World) :
  (snd (LoginForm.validateForm email password) = true ->
   Str.includes "@" email = true /\
   Str.includes "." email = true /\
   6 <= String.length password) /\
  (snd (LoginForm.validateForm email password) = false ->
   LoginForm.submit email password auth w = (tt, w)).
Proof.
  split.
  - unfold LoginForm.validateForm. cbn [snd].
    destruct (Str.truthy (Str.trim email)); [|discriminate].
    destruct (Email.test email) eqn:He; [|discriminate].
    destruct (Str.truthy password); [|discriminate].
    destruct (Nat.ltb (String.length password) 6) eqn:Hl; [discriminate|].
    intros _. apply Nat.ltb_ge in Hl.
    destruct (testFrom_includes _ _ He) as [Ha Hd]. auto.
  - intros H. unfold LoginForm.submit. rewrite H. reflexivity.
Qed.

(** X21: the signup form.  A form that passes validation has an e-mail
    text with an at sign and a dot in it, a name that is not blank, a
    password of at least six characters and the same text as its
    confirmation.  A form that does not pass is not submitted: whatever the
    auth service would answer, no profile is written, nothing is shown and
    nothing is sent. *)
Theorem signup_form_checks (f : SignupScreen.Form)
    (auth : Resp (option SignupScreen.SignedUp)) (w : World) :
  (snd (SignupScreen.validateForm f) = true ->
   Str.includes "@" (SignupScreen.email f) = true /\
   Str.includes "." (SignupScreen.email f) = true /\
   Str.trim (SignupScreen.fullName f) <> "" /\
   6 <= String.length (SignupScreen.password f) /\
   SignupScreen.confirmPassword f = SignupScreen.password f) /\
  (snd (SignupScreen.validateForm f) = false ->
   SignupScreen.handleSignup f auth w = (tt, w)).
Proof.
  split.
  - unfold SignupScreen.validateForm. cbn [snd].
    destruct (Str.truthy (Str.trim (SignupScreen.email f))); [|discriminate].
    destruct (Email.test (SignupScreen.email f)) eqn:He; [|discriminate].
    destruct (Str.truthy (Str.trim (SignupScreen.fullName f))) eqn:Hn; [|discriminate].
    destruct (Str.truthy (SignupScreen.password f)); [|discriminate].
    destruct (Nat.ltb (String.length (SignupScreen.password f)) 6) eqn:Hl; [discriminate|].
    destruct (SignupScreen.password f =? SignupScreen.confirmPassword f) eqn:Hc;
      [|discriminate].
    intros _. apply Nat.ltb_ge in Hl. apply String.eqb_eq in Hc.
    apply truthy_true in Hn.
    destruct (testFrom_includes _ _ He) as [Ha Hd]. auto.
  - intros H. unfold SignupScreen.handleSignup. rewrite H. reflexivity.
Qed.

Lemma signup_valid_login_valid (f : SignupScreen.Form) :
  snd (SignupScreen.validateForm f) = true ->
  snd (LoginForm.validateForm (SignupScreen.email f) (SignupScreen.password f)) = true.
Proof.
  unfold SignupScreen.validateForm, LoginForm.validateForm. cbn [snd].
  destruct (Str.truthy (Str.trim (SignupScreen.email f))); [|discriminate].
  destruct (Email.test (SignupScreen.email f)); [|discriminate].
  destruct (Str.truthy (Str.trim (SignupScreen.fullName f))); [|discriminate].
  destruct (Str.truthy (SignupScreen.password f)); [|discriminate].
  destruct (Nat.ltb (String.length (SignupScreen.password f)) 6); [discriminate|].
  reflexivity.
Qed.

(** X22: signing up and then logging in.  A valid signup form for a new
    user, its profile accepted by the store, adds one profile with the
    identifier the auth service gave, the e-mail, the name and the role of
    the form.  When no profile had that identifier before and the role is
    one of 'owner', 'staff' and 'officer', logging in with the e-mail and
    password of the form then opens the dashboard of that role without any
    alert.  When instead the store does not take the profile, "Signup
    Error" is shown, nothing is stored, and such a login ends with "Could
    not fetch user profile" on the screen it started from. *)
Theorem signup_then_login (f : SignupScreen.Form) (u : SignupScreen.SignedUp)
    (w : World) :
  snd (SignupScreen.validateForm f) = true ->
  (forall p, In p (profiles (db w)) -> profile_id p <> SignupScreen.user_id u) ->
  answersAt 1 w = true ->
  let w1 := run (SignupScreen.handleSignup f (Data (Some u))) w in
  let w2 := run (LoginForm.submit (SignupScreen.email f) (SignupScreen.password f)
                   (Data (Some (SignupScreen.user_id u)))) w1 in
  (answers w = true ->
   profiles (db w1)
     = (profiles (db w)
        ++ [mkProfile (SignupScreen.user_id u) (SignupScreen.email f)
              (Some (SignupScreen.fullName f)) None (Some (SignupScreen.role f))])%list /\
   (In (SignupScreen.role f) recognizedRoles ->
    current w2 = Some ("/" ++ SignupScreen.role f) /\ alerts w2 = alerts w1)) /\
  (answers w = false ->
   db w1 = db w /\
   alerts w1 = mkAlert "Signup Error" Store.unreachable :: alerts w /\
   alerts w2 = mkAlert "Profile Error" "Could not fetch user profile" :: alerts w1 /\
   nav w2 = nav w).
Proof.
  intros Hvalid Hnew H1 w1 w2. subst w2 w1.
  unfold LoginForm.submit. rewrite (signup_valid_login_valid f Hvalid).
  unfold run, SignupScreen.handleSignup, LoginScreen.handleLogin.
  rewrite Hvalid. cbn [negb].
  assert (Hnone : filter (fun p => Nat.eqb (profile_id p) (SignupScreen.user_id u))
                    (profiles (db w)) = []).
  { apply filter_none. intros p Hp. apply Nat.eqb_neq. now apply Hnew. }
  split.
  - intros H0. erewrite bind_run by (apply write_answered; exact H0).
    split; [destruct (Nat.eqb (SignupScreen.identities u) 0); reflexivity|].
    intros Hrole.
    erewrite bind_run.
    2:{ unfold SessionContext.profileRole. apply selectSingle_answered.
        rewrite (@answers_tl w) by (destruct (Nat.eqb (SignupScreen.identities u) 0);
                                      reflexivity).
        exact H1. }
    cbv beta.
    assert (Hdb : db (snd ((if Nat.eqb (SignupScreen.identities u) 0
                            then alert "User Already Exists"
                                   "A user with this email already exists."
                            else alert "Registration Successful"
                                   (if SignupScreen.confirmed u
                                    then "Your account has been created successfully! You can now log in."
                                    else "Your account has been created! Please check your email to confirm your account before logging in."))
                      (stored (SignupScreen.addProfile
                                 (mkProfile (SignupScreen.user_id u) (SignupScreen.email f)
                                    (Some (SignupScreen.fullName f)) None
                                    (Some (SignupScreen.role f))) (db w))
                              (sent (InsertRow TProfiles) w))))
                  = SignupScreen.addProfile
                      (mkProfile (SignupScreen.user_id u) (SignupScreen.email f)
                         (Some (SignupScreen.fullName f)) None
                         (Some (SignupScreen.role f))) (db w))
      by (destruct (Nat.eqb (SignupScreen.identities u) 0); reflexivity).
    rewrite Hdb. cbn [profiles SignupScreen.addProfile].
    rewrite filter_app, Hnone. cbn [filter app profile_id].
    rewrite Nat.eqb_refl. cbn [map Store.single profile_role].
    destruct Hrole as [Hr|[Hr|[Hr|[]]]]; rewrite <- Hr;
      destruct (Nat.eqb (SignupScreen.identities u) 0); split; reflexivity.
  - intros H0. erewrite bind_run by (apply write_failed; exact H0).
    split; [reflexivity|]. split; [reflexivity|].
    erewrite bind_run.
    2:{ unfold SessionContext.profileRole. apply selectSingle_answered.
        rewrite (@answers_tl w) by reflexivity. exact H1. }
    cbv beta. cbn [snd bind consoleError alert db sent]. rewrite Hnone.
    split; reflexivity.
Qed.

Lemma signup_then_login_witness :
  current (run (LoginForm.submit "carol@example.org" "secret1" (Data (Some 7)))
             (run (SignupScreen.handleSignup
                     (SignupScreen.mkForm "carol@example.org" "secret1" "secret1"
                        "Carol" "staff")
                     (Data (Some (SignupScreen.mkSignedUp 7 1 true))))
                  Sample.world))
  = Some "/staff".
Proof.
  refine (proj1 (proj2 (proj1 (@signup_then_login
            (SignupScreen.mkForm "carol@example.org" "secret1" "secret1" "Carol" "staff")
            (SignupScreen.mkSignedUp 7 1 true) Sample.world eq_refl _ eq_refl)
            eq_refl) _)).
  - intros p Hp. cbn in Hp.
    destruct Hp as [<-|[<-|[<-|[<-|[]]]]]; discriminate.
  - right. left. reflexivity.
Defined.

(** ** The vehicle search screen when the vehicles table has no answer *)

Lemma select_nothing {A} (q : Request) (rows : DB -> list A) (w : World) :
  answers w = false \/ rows (db w) = [] ->
  exists r, Store.select q rows w = (r, sent q w) /\
            (r = Error Store.unreachable \/ r = Data []).
Proof.
  intros H. destruct (answers w) eqn:Hok.
  - destruct H as [H|H]; [discriminate H|].
    exists (Data []). rewrite (select_answered q rows w Hok), H. auto.
  - exists (Error Store.unreachable). rewrite (select_failed q rows w Hok). auto.
Qed.

Lemma orFallback_nothing {A} (first : Resp (list A)) (q : Request)
    (rows : DB -> list A) (w : World) :
  first = Error Store.unreachable \/ first = Data [] ->
  answers w = false \/ rows (db w) = [] ->
  VehicleSearchScreen.orFallback first (Store.select q rows) w = ([], sent q w).
Proof.
  intros Hf Hs. destruct (select_nothing q rows w Hs) as [r [Hr Hnone]].
  unfold VehicleSearchScreen.orFallback.
  destruct Hf as [->| ->]; erewrite bind_run by exact Hr;
    destruct Hnone as [->| ->]; reflexivity.
Qed.

Lemma orFallback_found {A} (x : A) (l : list A) (second : M (Resp (list A)))
    (w : World) :
  VehicleSearchScreen.orFallback (Data (x :: l)) second w = (x :: l, w).
Proof. reflexivity. Qed.

(** X23: the vehicle search screen treats a pass that fails like a pass
    that finds nothing, and shows no alert for it.  When each of the two
    passes over the vehicles and the two passes over the tows fails or
    finds no row (the store may be unreachable throughout), the screen
    says that the vehicle was not found.  When the vehicles give nothing
    and the exact pass over the tows finds a tow without vehicle, the
    screen shows a stand-in for the vehicle: the plate of the tow, 'Unknown
    Model', 'gray', no owner, and that one tow as its history. *)
Theorem vehicle_search_swallows_failures (plate : string)
    (s : VehicleSearchScreen.State) (w : World) :
  Str.truthy (Str.trim plate) = true ->
  answers w = false \/ exactRows (Plates.formatted plate) (db w) = [] ->
  answersAt 1 w = false \/ similarRows (Plates.formatted plate) (db w) = [] ->
  let out := VehicleSearchScreen.searchVehicle plate s w in
  (answersAt 2 w = false \/ exactTows (Plates.formatted plate) (db w) = [] ->
   answersAt 3 w = false \/ similarTows (Plates.formatted plate) (db w) = [] ->
   fst out = VehicleSearchScreen.mkState None true [] [] /\
   alerts (snd out) = alerts w /\
   List.length (reqs (snd out)) = 4 + List.length (reqs w)) /\
  (forall t rest,
   answersAt 2 w = true ->
   exactTows (Plates.formatted plate) (db w) = t :: rest ->
   tow_vehicle_id t = None ->
   fst out
   = VehicleSearchScreen.mkState
       (Some (VehicleSearchScreen.mkVehicleView None (tow_license_plate t)
                "Unknown Model" "gray" None None))
       false [t] [] /\
   alerts (snd out) = alerts w).
Proof.
  intros Hp H0 H1 out. subst out.
  set (p := Plates.formatted plate) in *.
  unfold VehicleSearchScreen.searchVehicle. rewrite Hp. cbn [negb]. fold p.
  unfold Plates.vehiclesEq, Plates.vehiclesIlike, Plates.towsEq, Plates.towsIlike.
  destruct (select_nothing (SelectEq TVehicles "license_plate" p)
              (fun d => filter (fun v => license_plate v =? p) (vehicles d)) w H0)
    as [r1 [Hr1 Hn1]].
  erewrite bind_run by exact Hr1.
  erewrite bind_run.
  2:{ apply orFallback_nothing; [exact Hn1|].
      rewrite answers_sent. exact H1. }
  cbv beta iota.
  set (w2 := sent (SelectIlike TVehicles "license_plate" ("%" ++ p ++ "%"))
               (sent (SelectEq TVehicles "license_plate" p) w)).
  assert (Ha2 : answers w2 = answersAt 2 w) by (apply answers_tl2; reflexivity).
  assert (Ha3 : forall q, answers (sent q w2) = answersAt 3 w).
  { intros q. unfold answers, answersAt, w2, sent. cbn [net].
    destruct (net w) as [|a [|b [|c [|d l]]]]; reflexivity. }
  split.
  - intros H2 H3.
    destruct (select_nothing (SelectEq TTows "license_plate" p)
                (fun d => filter (fun t => tow_license_plate t =? p) (tows d)) w2)
      as [r3 [Hr3 Hn3]]; [rewrite Ha2; exact H2|].
    erewrite bind_run by exact Hr3.
    erewrite bind_run.
    2:{ apply orFallback_nothing; [exact Hn3|]. rewrite Ha3. exact H3. }
    repeat split.
  - intros t rest H2 Ht Hvid.
    erewrite bind_run by (apply select_answered; rewrite Ha2; exact H2).
    cbv beta. change (db w2) with (db w). unfold exactTows in Ht. rewrite Ht.
    erewrite bind_run by apply orFallback_found.
    cbv beta iota. rewrite Hvid. unfold VehicleSearchScreen.ofTow. rewrite Hvid.
    split; reflexivity.
Qed.

Lemma vehicle_search_swallows_failures_witness :
  fst (VehicleSearchScreen.searchVehicle "abc" VehicleSearchScreen.cleared
         (mkWorld Sample.store [false; false; false; false] [] [] [] [] 0))
  = VehicleSearchScreen.mkState None true [] [].
Proof.
  refine (proj1 (proj1 (@vehicle_search_swallows_failures "abc"
            VehicleSearchScreen.cleared
            (mkWorld Sample.store [false; false; false; false] [] [] [] [] 0)
            eq_refl (or_introl eq_refl) (or_introl eq_refl))
            (or_introl eq_refl) (or_introl eq_refl))).
Defined.

(** X24: the histories of the vehicle search screen are set together or
    not at all.  When both reads are answered, the tow history holds
    exactly the tows of the vehicle and the fine history exactly its fines,
    and nothing is shown.  When either read fails, both histories stay as
    they were, even if the tows had been read, and "Failed to fetch vehicle
    history" is shown.  The vehicle shown is never changed. *)
Theorem vehicle_history_all_or_nothing (vehicleId : Id)
    (s : VehicleSearchScreen.State) (w : World) :
  let out := VehicleSearchScreen.fetchVehicleHistory vehicleId s w in
  VehicleSearchScreen.vehicle (fst out) = VehicleSearchScreen.vehicle s /\
  VehicleSearchScreen.vehicleNotFound (fst out) = VehicleSearchScreen.vehicleNotFound s /\
  db (snd out) = db w /\
  (answers w = true -> answersAt 1 w = true ->
   (forall t, In t (VehicleSearchScreen.towHistory (fst out)) <->
              In t (tows (db w)) /\ tow_vehicle_id t = Some vehicleId) /\
   (forall f, In f (VehicleSearchScreen.fineHistory (fst out)) <->
              In f (fines (db w)) /\ fine_vehicle_id f = vehicleId) /\
   alerts (snd out) = alerts w) /\
  (answers w = false \/ answersAt 1 w = false ->
   VehicleSearchScreen.towHistory (fst out) = VehicleSearchScreen.towHistory s /\
   VehicleSearchScreen.fineHistory (fst out) = VehicleSearchScreen.fineHistory s /\
   alerts (snd out) = mkAlert "Error" "Failed to fetch vehicle history" :: alerts w).
Proof.
  intros out. subst out. unfold VehicleSearchScreen.fetchVehicleHistory.
  destruct (answers w) eqn:H0.
  - erewrite bind_run by (apply select_answered; exact H0). cbv beta iota.
    destruct (answersAt 1 w) eqn:H1.
    + erewrite bind_run by (apply select_answered; rewrite answers_sent; exact H1).
      cbv beta iota.
      split; [reflexivity|]. split; [reflexivity|]. split; [reflexivity|].
      split; [|intros [H|H]; discriminate H].
      intros _ _. cbn [fst snd ret VehicleSearchScreen.towHistory
                         VehicleSearchScreen.fineHistory sent db alerts].
      split; [|split; [|reflexivity]].
      * intros t. rewrite orderDesc_In, filter_In, optIdEqb_true. reflexivity.
      * intros f. rewrite orderDesc_In, filter_In, Nat.eqb_eq. reflexivity.
    + erewrite bind_run by (apply select_failed; rewrite answers_sent; exact H1).
      split; [reflexivity|]. split; [reflexivity|]. split; [reflexivity|].
      split; [intros _ H; discriminate H|]. intros _. repeat split.
  - erewrite bind_run by (apply select_failed; exact H0).
    split; [reflexivity|]. split; [reflexivity|]. split; [reflexivity|].
    split; [intros H; discriminate H|]. intros _. repeat split.
Qed.

(** ** Where a login ends *)

(** X25: a login either opens a dashboard or stays where it is.  It opens
    a dashboard exactly when the form is valid, the auth service names a
    user, and the profile lookup for that user is answered with a role
    that, in lower case, is 'owner', 'staff' or 'officer'; the dashboard is
    then the one of that role, the one the role router picks for it, and no
    alert is shown.  In every other case the screen stays on and, if the
    form was valid, exactly one alert says why. *)
Theorem login_opens_dashboard_or_explains (formValid : bool)
    (auth : Resp (option Id)) (w : World) :
  let w' := run (LoginScreen.handleLogin formValid auth) w in
  (exists user r,
     formValid = true /\ auth = Data (Some user) /\
     lookupAnswer user w = Data (Some r) /\
     In (Str.toLowerCase r) recognizedRoles /\
     nav w' = ("/" ++ Str.toLowerCase r) :: tl (nav w) /\
     nav w' = nav (run (navigateToDashboard (Some r)) w) /\
     alerts w' = alerts w) \/
  (nav w' = nav w /\ db w' = db w /\
   (formValid = false -> w' = w) /\
   (formValid = true -> exists a, alerts w' = a :: alerts w) /\
   (forall user r, auth = Data (Some user) -> lookupAnswer user w = Data (Some r) ->
      formValid = true -> ~ In (Str.toLowerCase r) recognizedRoles)).
Proof.
  intros w'. subst w'. unfold run, LoginScreen.handleLogin.
  destruct formValid; cbn [negb].
  2:{ right. split; [reflexivity|]. split; [reflexivity|]. split; [reflexivity|].
      split; [intros H; discriminate H|]. intros ? ? _ _ H. discriminate H. }
  destruct auth as [[user|]|msg].
  - erewrite bind_run by apply profileRole_spec.
    destruct (lookupAnswer user w) as [[r|]|e] eqn:Hl.
    + cbn [Str.truthyOpt].
      destruct (Str.truthy r) eqn:Hr.
      * destruct (Str.toLowerCase r =? "owner") eqn:E1;
          [|destruct (Str.toLowerCase r =? "staff") eqn:E2;
            [|destruct (Str.toLowerCase r =? "officer") eqn:E3]].
        -- apply String.eqb_eq in E1. left. exists user, r.
           unfold navigateToDashboard. cbn [Str.truthyOpt]. rewrite Hr, E1.
           repeat split; [exact Hl|]. now left.
        -- apply String.eqb_eq in E2. left. exists user, r.
           unfold navigateToDashboard. cbn [Str.truthyOpt]. rewrite Hr, E2.
           repeat split; [exact Hl|]. right. now left.
        -- apply String.eqb_eq in E3. left. exists user, r.
           unfold navigateToDashboard. cbn [Str.truthyOpt]. rewrite Hr, E3.
           repeat split; [exact Hl|]. right. right. now left.
        -- right. split; [reflexivity|]. split; [reflexivity|].
           split; [intros H; discriminate H|]. split; [eexists; reflexivity|].
           intros u r' Hu Hr' _. inversion Hu; subst u.
           rewrite Hl in Hr'. inversion Hr'; subst r'.
           apply String.eqb_neq in E1. apply String.eqb_neq in E2.
           apply String.eqb_neq in E3.
           intros [H|[H|[H|[]]]]; congruence.
      * right. split; [reflexivity|]. split; [reflexivity|].
        split; [intros H; discriminate H|]. split; [eexists; reflexivity|].
        intros u r' Hu Hr' _. inversion Hu; subst u.
        rewrite Hl in Hr'. inversion Hr'; subst r'.
        apply truthy_false in Hr. subst r.
        intros [H|[H|[H|[]]]]; discriminate H.
    + right. split; [reflexivity|]. split; [reflexivity|].
      split; [intros H; discriminate H|]. split; [eexists; reflexivity|].
      intros u r' Hu Hr' _. inversion Hu; subst u.
      rewrite Hl in Hr'. discriminate Hr'.
    + right. split; [reflexivity|]. split; [reflexivity|].
      split; [intros H; discriminate H|]. split; [eexists; reflexivity|].
      intros u r' Hu Hr' _. inversion Hu; subst u.
      rewrite Hl in Hr'. discriminate Hr'.
  - right. split; [reflexivity|]. split; [reflexivity|].
    split; [intros H; discriminate H|]. split; [eexists; reflexivity|].
    intros u r' Hu. discriminate Hu.
  - right. split; [reflexivity|]. split; [reflexivity|].
    split; [intros H; discriminate H|]. split; [eexists; reflexivity|].
    intros u r' Hu. discriminate Hu.
Qed.

(** ** What a lookup hands back *)

Lemma prefix_refl (s : string) : prefix s s = true.
Proof.
  induction s as [|c s IH]; [reflexivity|]. cbn [prefix].
  destruct (ascii_dec c c) as [_|Hn]; [exact IH|now contradiction Hn].
Qed.

Lemma includes_refl (p : string) : Str.includes p p = true.
Proof. apply prefix_includes, prefix_refl. Qed.

Lemma exact_head (plate : string) (l es : list Vehicle) (v : Vehicle) :
  filter (fun v => license_plate v =? Plates.formatted plate) l = v :: es ->
  In v l /\
  (license_plate v = Plates.formatted plate \/
   Store.ilike (Plates.formatted plate) (license_plate v) = true) /\
  (patternFree plate = true ->
   Str.includes (Str.toLowerCase (Plates.formatted plate))
                (Str.toLowerCase (license_plate v)) = true).
Proof.
  intros E.
  assert (Hin : In v (filter (fun v => license_plate v =? Plates.formatted plate) l))
    by (rewrite E; now left).
  apply filter_In in Hin. destruct Hin as [Hin He].
  apply String.eqb_eq in He. rewrite He.
  split; [exact Hin|]. split; [now left|]. intros _. apply includes_refl.
Qed.

Lemma similar_head (plate : string) (l es : list Vehicle) (v : Vehicle) :
  filter (fun v => Store.ilike (Plates.formatted plate) (license_plate v)) l = v :: es ->
  In v l /\
  (license_plate v = Plates.formatted plate \/
   Store.ilike (Plates.formatted plate) (license_plate v) = true) /\
  (patternFree plate = true ->
   Str.includes (Str.toLowerCase (Plates.formatted plate))
                (Str.toLowerCase (license_plate v)) = true).
Proof.
  intros E.
  assert (Hin : In v (filter (fun v => Store.ilike (Plates.formatted plate)
                                         (license_plate v)) l))
    by (rewrite E; now left).
  apply filter_In in Hin. destruct Hin as [Hin Hl].
  split; [exact Hin|]. split; [now right|].
  intros Hfree. rewrite <- ilike_contains by now apply patternFree_formatted.
  exact Hl.
Qed.

(** X26: the vehicle a lookup hands back.  On the issue-fine screen
    (started with no vehicle shown) and on the record-tow screen, whenever
    a lookup ends with a vehicle, that vehicle is a row of the vehicles
    table whose plate is the plate typed, trimmed and in upper case, or
    matches it as a pattern between two percent signs, whatever the case of
    the letters; when the plate typed has none of the characters a pattern
    reads as other than themselves (percent sign, asterisk, underscore,
    backslash), the plate of the row contains the plate typed, trimmed,
    whatever the case of the letters.  A lookup writes nothing to the
    store. *)
Theorem lookup_hands_back_matching_row (w : World) (v : Vehicle) :
  (forall session plate,
     fst (IssueFineScreen.searchVehicle session plate None w) = Some v ->
     In v (vehicles (db w)) /\
     (license_plate v = Plates.formatted plate \/
      Store.ilike (Plates.formatted plate) (license_plate v) = true) /\
     (patternFree plate = true ->
      Str.includes (Str.toLowerCase (Plates.formatted plate))
                   (Str.toLowerCase (license_plate v)) = true)) /\
  (forall f,
     Str.truthy (Str.trim (RecordTowScreen.licensePlate f)) = true ->
     RecordTowScreen.vehicleFound (fst (RecordTowScreen.searchVehicle f w)) = Some v ->
     In v (vehicles (db w)) /\
     (license_plate v = Plates.formatted (RecordTowScreen.licensePlate f) \/
      Store.ilike (Plates.formatted (RecordTowScreen.licensePlate f)) (license_plate v)
        = true) /\
     (patternFree (RecordTowScreen.licensePlate f) = true ->
      Str.includes (Str.toLowerCase (Plates.formatted (RecordTowScreen.licensePlate f)))
                   (Str.toLowerCase (license_plate v)) = true)) /\
  (forall session plate old,
     db (snd (IssueFineScreen.searchVehicle session plate old w)) = db w) /\
  (forall f, db (snd (RecordTowScreen.searchVehicle f w)) = db w).
Proof.
  split; [|split; [|split]].
  - intros session plate. unfold IssueFineScreen.searchVehicle.
    destruct session as [user|]; [|intros H; discriminate H].
    destruct (Str.truthy (Str.trim plate)); [|intros H; discriminate H].
    set (p := Plates.formatted plate).
    destruct w as [d n r a c nv t].
    destruct (filter (fun v => license_plate v =? p) (vehicles d)) as [|e es] eqn:E;
      destruct (filter (fun v => Store.ilike p (license_plate v)) (vehicles d))
        as [|i0 [|i1 irest]] eqn:I;
      destruct n as [|b0 [|b1 n]]; try destruct b0; try destruct b1; world_cbv;
      rewrite ?E; cbv beta iota; rewrite ?I; cbv beta iota;
      intros H; try discriminate H; inversion H; subst;
      unfold p in *;
      first [exact (exact_head _ _ E) | exact (similar_head _ _ I)].
  - intros f Hp. unfold RecordTowScreen.searchVehicle. rewrite Hp.
    set (p := Plates.formatted (RecordTowScreen.licensePlate f)).
    destruct w as [d n r a c nv t].
    destruct (filter (fun v => license_plate v =? p) (vehicles d)) as [|e [|e' es]] eqn:E;
      destruct (filter (fun v => Store.ilike p (license_plate v)) (vehicles d))
        as [|i0 [|i1 irest]] eqn:I;
      destruct n as [|b0 [|b1 n]]; try destruct b0; try destruct b1; world_cbv;
      rewrite ?E; cbv beta iota; rewrite ?I; cbv beta iota;
      cbv beta iota zeta delta [RecordTowScreen.fill RecordTowScreen.withSearch
        RecordTowScreen.vehicleFound];
      intros H; try discriminate H; inversion H; subst;
      unfold p in *;
      first [exact (exact_head _ _ E) | exact (similar_head _ _ I)].
  - intros session plate old. unfold IssueFineScreen.searchVehicle.
    destruct session as [user|]; [|reflexivity].
    destruct (Str.truthy (Str.trim plate)); [|reflexivity].
    set (p := Plates.formatted plate).
    destruct w as [d n r a c nv t].
    destruct (filter (fun v => license_plate v =? p) (vehicles d)) as [|e es] eqn:E;
      destruct (filter (fun v => Store.ilike p (license_plate v)) (vehicles d))
        as [|i0 [|i1 irest]] eqn:I;
      destruct n as [|b0 [|b1 n]]; try destruct b0; try destruct b1; world_cbv;
      rewrite ?E; cbv beta iota; rewrite ?I; cbv beta iota; reflexivity.
  - intros f. unfold RecordTowScreen.searchVehicle.
    destruct (Str.truthy (Str.trim (RecordTowScreen.licensePlate f)));
      [|reflexivity].
    set (p := Plates.formatted (RecordTowScreen.licensePlate f)).
    destruct w as [d n r a c nv t].
    destruct (filter (fun v => license_plate v =? p) (vehicles d)) as [|e [|e' es]] eqn:E;
      destruct (filter (fun v => Store.ilike p (license_plate v)) (vehicles d))
        as [|i0 [|i1 irest]] eqn:I;
      destruct n as [|b0 [|b1 n]]; try destruct b0; try destruct b1; world_cbv;
      rewrite ?E; cbv beta iota; rewrite ?I; cbv beta iota; reflexivity.
Qed.

(** ** The list of an owner's complaints *)

Lemma related_rows {A} (t : Table) (ids : list Id) (key : A -> Id)
    (rows : DB -> list A) (w : World) :
  db (snd (MyComplaintsScreen.related t ids key rows w)) = db w /\
  forall x, In x (fst (MyComplaintsScreen.related t ids key rows w)) -> In x (rows (db w)).
Proof.
  unfold MyComplaintsScreen.related. destruct ids as [|i ids].
  - split; [reflexivity|]. intros x [].
  - destruct (select_spec (SelectIn t (i :: ids))
                (fun d => filter (fun x => existsb (Nat.eqb (key x)) (i :: ids)) (rows d)) w)
      as [ok Hsel].
    erewrite bind_run by exact Hsel.
    split; [reflexivity|]. intros x. destruct ok; cbn [fst ret]; [|intros []].
    intros H. now apply filter_In in H.
Qed.

Lemma lookup_found {A} (key : A -> Id) (rows : list A) (id : option Id) (x : A) :
  MyComplaintsScreen.lookup key rows id = Some x -> In x rows /\ id = Some (key x).
Proof.
  unfold MyComplaintsScreen.lookup. destruct id as [i|]; [|discriminate].
  intros H. apply find_some in H. destruct H as [Hin He].
  apply in_rev in Hin. apply Nat.eqb_eq in He. now rewrite He.
Qed.

(** X27: when the read of the complaints is answered, the list of an
    owner's complaints holds exactly the complaints that user has filed,
    whether or not the reads of the vehicles, tows and fines they refer to
    are answered.  A vehicle, tow or fine shown with a complaint is a row
    of the store with the identifier the complaint refers to. *)
Theorem complaints_listed_with_their_records (user : Id) (w : World) :
  answers w = true ->
  exists views,
    result (MyComplaintsScreen.fetchComplaints (Some user)) w = Some views /\
    (forall c, In c (complaintsOf views) <->
               In c (complaints (db w)) /\ complaint_user_id c = user) /\
    (forall cv, In cv views ->
       (forall v, MyComplaintsScreen.cv_vehicles cv = Some v ->
          In v (vehicles (db w)) /\
          complaint_vehicle_id (MyComplaintsScreen.cv_complaint cv) = Some (vehicle_id v)) /\
       (forall t, MyComplaintsScreen.cv_tows cv = Some t ->
          In t (tows (db w)) /\
          complaint_tow_id (MyComplaintsScreen.cv_complaint cv) = Some (tow_id t)) /\
       (forall f, MyComplaintsScreen.cv_fines cv = Some f ->
          In f (fines (db w)) /\
          complaint_fine_id (MyComplaintsScreen.cv_complaint cv) = Some (fine_id f))).
Proof.
  intros Hok. unfold result, MyComplaintsScreen.fetchComplaints.
  erewrite bind_run by (apply select_answered; exact Hok).
  cbv beta.
  remember (Store.orderDesc complaint_created_at
              (filter (fun c => Nat.eqb (complaint_user_id c) user) (complaints (db w))))
    as data eqn:Ed.
  assert (Hdata : forall c, In c data <->
                            In c (complaints (db w)) /\ complaint_user_id c = user).
  { intros c. rewrite Ed, orderDesc_In, filter_In, Nat.eqb_eq. reflexivity. }
  clear Ed. destruct data as [|c0 data'].
  - exists []. split; [reflexivity|]. split; [exact Hdata|]. intros cv [].
  - set (data := c0 :: data') in *.
    set (w1 := sent (SelectEqId TComplaints "user_id" user) w).
    unfold bind.
    destruct (related_rows TVehicles
                (MyComplaintsScreen.distinctIds (map complaint_vehicle_id data))
                vehicle_id vehicles w1) as [Hd1 Hr1].
    destruct (MyComplaintsScreen.related TVehicles _ vehicle_id vehicles w1) as [vs w2].
    cbn [fst snd] in Hd1, Hr1.
    destruct (related_rows TTows
                (MyComplaintsScreen.distinctIds (map complaint_tow_id data))
                tow_id tows w2) as [Hd2 Hr2].
    destruct (MyComplaintsScreen.related TTows _ tow_id tows w2) as [ts w3].
    cbn [fst snd] in Hd2, Hr2.
    destruct (related_rows TFines
                (MyComplaintsScreen.distinctIds (map complaint_fine_id data))
                fine_id fines w3) as [Hd3 Hr3].
    destruct (MyComplaintsScreen.related TFines _ fine_id fines w3) as [fs w4].
    cbn [fst snd] in Hd3, Hr3.
    eexists. split; [reflexivity|]. split.
    + intros c. unfold complaintsOf. rewrite map_map.
      cbn [MyComplaintsScreen.cv_complaint]. rewrite map_id. apply Hdata.
    + intros cv Hcv. apply in_map_iff in Hcv. destruct Hcv as [c [Hc _]]. subst cv.
      cbn [MyComplaintsScreen.cv_vehicles MyComplaintsScreen.cv_tows
           MyComplaintsScreen.cv_fines MyComplaintsScreen.cv_complaint].
      split; [|split].
      * intros v Hv. apply lookup_found in Hv. destruct Hv as [Hin Hid].
        split; [|exact Hid]. apply Hr1 in Hin. exact Hin.
      * intros t Ht. apply lookup_found in Ht. destruct Ht as [Hin Hid].
        split; [|exact Hid]. apply Hr2 in Hin. rewrite Hd1 in Hin. exact Hin.
      * intros f Hf. apply lookup_found in Hf. destruct Hf as [Hin Hid].
        split; [|exact Hid]. apply Hr3 in Hin. rewrite Hd2, Hd1 in Hin. exact Hin.
Qed.

Lemma complaints_listed_with_their_records_witness :
  exists views,
    result (MyComplaintsScreen.fetchComplaints (Some Sample.alice))
      (mkWorld Sample.store [true; false; false; false] [] [] [] [] 0) = Some views /\
    In Sample.complaint1 (complaintsOf views).
Proof.
  destruct (@complaints_listed_with_their_records Sample.alice
              (mkWorld Sample.store [true; false; false; false] [] [] [] [] 0) eq_refl)
    as [views [Hres [Hall _]]].
  exists views. split; [exact Hres|].
  apply Hall. split; [now left|reflexivity].
Defined.

(** ** From a tow with a fine to the owner's screens *)





